(* ===== verification/_CoqProject ===== *)
-Q . S2P
Prelude.v
RealInst.v
Linspace.v
Trajectory.v
Sweep.v
Engine.v
Optimum.v
Binary64.v
Parse.v
Grammar.v
Underscores.v
Shell.v
EventLoop.v
Quiescence.v
Hijack.v
Button.v
Typing.v
Frames.v
Format.v
