(* ===== verification/Prelude.v ===== *)
(** * Ski-jump simulator (src/sky.py): verification development

    The program is one Python file.  A Tk window holds four entries
    (speed, angle, slope, height), the button [Saltar] and a result label;
    a matplotlib figure is embedded beside them.  The button runs the
    handler [simular_salto] (lines 26-126): it disables the button, reads
    the entries with [float], computes the landing time in closed form,
    rejects a non-positive one, samples the parabola 300 times, sweeps 200
    launch angles for the best distance, sets the axis limits, draws the
    ramp, starts a [FuncAnimation] whose callback [actualizar] moves the
    jumper and grows the trajectory line, schedules [on_animation_end]
    with [ventana.after] to enable the button again, and writes a summary.

    ** Files, in dependency order
    - [Prelude] (this file): the numeric interface [Scalar], with its
      notations [+! -! *! /! <! <=!] and [# z] in [scalar_scope]; Python's
      builtin [min]/[max] ([py_min], [py_max]); the hint databases
      [skijump] and [skijump_rw]; list lemmas shared by the components.
    - [RealInst]: [R_scalar], the exact-real reading of [Scalar], with the
      comparison reflection lemmas and the tactics [rsimpl] and [rcmp].
    - [Linspace]: numpy's [linspace] (called at lines 59, 70, 97), its
      length, last element and, at the reals, its closed form and order.
    - [Trajectory]: lines 41-65, the launch parameters [inputs], the landing
      time [t_aterrizaje], the sample positions [pos_x]/[pos_y], the ramp
      and the arrays [trayectoria]; at the reals the closed form is the
      unique positive meeting time with the ramp, samples stay above the
      ramp, the arrays refine the spec's data model [trajectory_spec], and
      the flat-ramp range formula holds.
    - [Sweep]: lines 67-79, the best-angle loop [mejor_angulo] as a left
      fold; it refines [first_argmax], scales with the speed squared, is
      monotone in the speed and returns an angle in [1, 80] or the
      sentinel [(0, 0)].
    - [Engine]: [simula], the guard of line 53 composed with [Trajectory]
      and [Sweep], and [limites], the axis limits of lines 82-84 with
      numpy's NaN-propagating [np.min]/[np.max]; flights land on the ramp,
      [NoIntersection] is exactly "no positive meeting time", the spec's
      scenarios, a backward launch landing at [x < 0], limits containing
      every sample.
    - [Optimum]: the sweep against the true optimum, with the [distancia]
      of line 123 (x_land - x0): a candidate's
      distance is the launch's distance at that angle, on the default ramp
      the distance peaks at 22.5 degrees only, and 22.5 is not on the grid,
      so a user at 22.5 beats the reported best distance; on a ramp of
      slope 6 the sweep finds no candidate and reports [(0, 0)], so the
      x-range [[0, 20]] of the axes ends before the landing point of a
      fast 85-degree launch; the spec's end-to-end scenario holds,
      landing between 153 and 154 m.
    - [Binary64]: [b64 L], the IEEE binary64 reading with Rocq's primitive
      floats and a libm [L] for [np.sin]/[np.cos]; a NaN speed passes the
      guard.
    - [Parse]: CPython's [float(str)] on ASCII text, as the class
      [PyFloat] with an exact-real and a correctly rounded binary64
      instance: [strip_underscores], [float_from_string_inner], and the
      readers of [dtoa.c] ([dg_strtod] with its leading zeros, fraction,
      capped exponent and [MAX_DIGITS] limit, [parse_inf_or_nan]); a
      decimal text is read exactly, an underscore between digits is
      ignored, and blank texts or texts with an underscore at either end
      are rejected.
    - [Grammar]: the reference manual's grammar of [float] texts as
      inductive predicates, with the digit parts a parameter, and the
      decimal a literal denotes; reader-by-reader forward and inversion
      lemmas show that, underscores aside, the model accepts a text of at
      most [MAX_DIGITS] characters exactly when it is in the grammar, and
      reads every decimal literal as the decimal it denotes, the exponent
      capped at [MAX_ABS_EXP].
    - [Underscores]: [strip_underscores] against the grammar's digit
      parts, by splitting a text at the underscores it loses: [float]
      accepts exactly the texts of the grammar.
    - [Shell]: the handler as a transformer of an explicit UI state [ui]
      (button, label, axes, artist store, the globals [linea_trayectoria],
      [esquiador], [ani], running animations, pending [after] timers,
      clock), with [actualizar], [on_animation_end] and the start-up state
      [ui_inicial]; the two recoverable errors re-enable the button and
      leave the canvas alone, non-finite limits leave the button disabled
      for ever, a launch has exactly the effects listed in [launch_effects],
      and every path keeps the state well formed.  [canvas.draw()]
      (line 121) renders in [r] ms, a parameter of the press, before the
      animation's timer starts; the end timer is set before it.
    - [EventLoop]: [ventana.mainloop()] as [fire] (the earliest pending
      timer runs its callback: [on_animation_end] or an animation tick
      that draws the next frame and reschedules itself 1 ms later) and the
      step relation [step] that adds button presses, each with its render
      time [r]; every reachable state is well formed; with a render of
      [r] ms and frames of [d] ms the button returns after the last frame
      exactly when [r + 299 * d < 2700], with the trajectory line one
      sample short of the landing point, and mid-animation otherwise; a
      speed of [nan] leaves the window with no step at all; whatever the
      frame and render times, a launch comes to rest after exactly 302
      iterations.
    - [Quiescence]: termination of the loop without the user: from any
      state, each firing lowers [pending_work] (pending timers plus the
      frames their ticks still draw), so the loop goes idle after at most
      that many iterations, and a pending [on_animation_end] always leaves
      the button enabled at the end.
    - [Hijack]: a press while an older animation still has frames to
      draw: whatever the frame and render times, the old animation's
      next tick draws the old trajectory into the line and sprite the new
      press created, since [actualizar] reads the globals when it runs.
    - [Typing]: the dynamic types [actualizar] relies on: in every
      reachable state [linea_trayectoria] names a line, [esquiador] a
      sprite once set, and it is set whenever an animation exists.
    - [Button]: the button against the end timer of line 119: in every
      reachable state at most one [on_animation_end] is pending, and none
      while the button is enabled, so runs are started one end timer at
      a time, although their animations may overlap.
    - [Frames]: what the loop shows: after a launch from a quiet window
      the ticks show frames [0 .. 299] of the new animation in order,
      each once, for every frame time, refining the spec's animation
      contract.
    - [Format]: the summary label of lines 124-126, with CPython's
      [format(x, ".2f")] on the bits of the double (digits of [x * 100]
      rounded to nearest, ties to even; signs, [inf], [nan]); [float] reads
      back what it prints (exactly for zeros, infinities and NaN, within
      0.005 otherwise).

    ** How the model is read
    The components are written once, generic in [T] with [Scalar T] (and
    [PyFloat T] for the shell), and proved at two instances: the exact reals
    for the physics the code means, binary64 for what the IEEE arithmetic
    of Python and numpy does on the corner cases (NaN, [-0.0]).  Comparisons are boolean, as Python's are, so every guard of
    the source is a [match] on a [bool] of the model.

    ** Bounds and fuel
    Nothing is recursive beyond structural folds over the sample lists, so
    no fuel is needed, except the event loop and the decimal printer:
    [run d n] performs at most [n] iterations and stops early when no
    timer is pending; its theorems quantify over every [n], and
    [pending_work s] iterations are always enough.  The printer
    [digits_rev] gets one digit per bit of its argument, which is always
    enough since [10^k >= 2^k].  The text readers of [float] are
    structural; their one bound is CPython's own [MAX_DIGITS] (10^9),
    which the grammar theorem assumes of the text's length, since the
    grammar itself has no limit.  The sizes of the code are kept: 300 samples,
    200 candidate angles, 400 ramp points, [len(t) * 10] ms for the end
    timer, and matplotlib's 1 ms frame interval ([max(int(0.5), 1)]).  The
    time a frame takes (its callback and blit) is the parameter [d] of the
    loop, the time [canvas.draw()] takes to render the figure the
    parameter [r] of each press; the rest of the handler is taken to run
    in no time, which only the ordering of the end timer (set before the
    render) and the first tick (started after it) could notice.  The
    bound [r + 299 * d < 2700] is exact: the 300th tick is due at
    [r + 1 + 299 * (d + 1)] ms after the press, the end timer at
    [3000] ms, and Tcl fires the earlier scheduled end timer first on a
    tie.  Concrete runs at
    binary64 use a truncated Taylor series as libm ([taylor_libm]): their
    conclusions on timing and aliasing do not depend on the digits of the
    samples.

    ** Not modelled
    Widget geometry and image loading
    ([mpimg.imread], [pack], [grid]), which have no behaviour to verify;
    pixel rendering; Tk's layout of the label's text;
    CPython's transliteration of non-ASCII digits and spaces in [float];
    the platform's libm (a parameter of every binary64 theorem).  The
    exact-real reading [PyFloat_R] of [float] has no infinity nor NaN and
    maps those texts to the parse error; the theorems about them are
    stated at binary64. *)

From Stdlib Require Import ZArith List Lia.
Import ListNotations.

(** ** The numeric interface *)

(** Every number of [simular_salto] is an IEEE binary64 value (a Python
    [float] or a numpy [float64]).  The program only adds, subtracts,
    multiplies, divides, negates, compares, tests for NaN or finiteness, converts small
    integers and calls [np.sin] / [np.cos]; [Scalar] collects exactly these
    operations, so that the model of the code is written once and read at
    two instances: the exact reals (physics) and binary64 (IEEE corner
    cases). *)
Class Scalar (T : Type) := {
  s_of_Z : Z -> T;               (** exact conversion of a small integer *)
  s_add : T -> T -> T;
  s_sub : T -> T -> T;
  s_mul : T -> T -> T;
  s_div : T -> T -> T;
  s_opp : T -> T;                (** unary minus, [-float(...)] *)
  s_ltb : T -> T -> bool;        (** Python/numpy [<] *)
  s_leb : T -> T -> bool;        (** Python/numpy [<=] *)
  s_eqb : T -> T -> bool;        (** Python/numpy [==] *)
  s_isnan : T -> bool;           (** [npy_isnan] *)
  s_isfinite : T -> bool;        (** [np.isfinite] *)
  s_pi : T;                      (** [np.pi] *)
  s_sin : T -> T;                (** [np.sin] *)
  s_cos : T -> T                 (** [np.cos] *)
}.

Declare Scope scalar_scope.
Delimit Scope scalar_scope with sc.
Notation "a +! b" := (s_add a b) (at level 50, left associativity) : scalar_scope.
Notation "a -! b" := (s_sub a b) (at level 50, left associativity) : scalar_scope.
Notation "a *! b" := (s_mul a b) (at level 40, left associativity) : scalar_scope.
Notation "a /! b" := (s_div a b) (at level 40, left associativity) : scalar_scope.
Notation "a <! b" := (s_ltb a b) (at level 70, no associativity) : scalar_scope.
Notation "a <=! b" := (s_leb a b) (at level 70, no associativity) : scalar_scope.
Notation "# z" := (s_of_Z z) (at level 1, format "# z") : scalar_scope.

Section Literals.
Context {T : Type} `{Scalar T}.
Local Open Scope scalar_scope.

(** A decimal literal [n/d] of the source (such as [9.81] or [0.5]): the
    correctly rounded quotient of two exact integers is the nearest value
    to [n/d], which is what the literal denotes. *)
Definition lit (n d : Z) : T := #n /! #d.

(** [float(k)] for a list index. *)
Definition of_nat (k : nat) : T := # (Z.of_nat k).

(** Python's builtin [min(a, b)] keeps [a] unless [b < a]. *)
Definition py_min (a b : T) : T := if b <! a then b else a.
(** Python's builtin [max(a, b)] keeps [a] unless [b > a]. *)
Definition py_max (a b : T) : T := if a <! b then b else a.
End Literals.

(** ** Shared list lemmas *)

Create HintDb skijump.
Create Rewrite HintDb skijump_rw.

Section ListFacts.
Context {A B : Type}.

Lemma nth_map_seq (f : nat -> A) (n k : nat) (d : A) :
  k < n -> nth k (map f (seq 0 n)) d = f k.
Proof.
  intros Hk. rewrite nth_indep with (d' := f 0) by (rewrite length_map, length_seq; lia).
  rewrite map_nth, seq_nth by lia. reflexivity.
Qed.

Lemma last_snoc (l : list A) (x d : A) : last (l ++ [x]) d = x.
Proof. apply last_last. Qed.

Lemma length_removelast (l : list A) : length (removelast l) = Nat.pred (length l).
Proof. rewrite removelast_firstn_len, length_firstn. lia. Qed.

Lemma nth_removelast (l : list A) k d :
  k < Nat.pred (length l) -> nth k (removelast l) d = nth k l d.
Proof. intros Hk. rewrite removelast_firstn_len, nth_firstn. destruct (Nat.ltb_spec k (Nat.pred (length l))); [reflexivity|lia]. Qed.

(** [l[-1]] is [l[len(l) - 1]]. *)
Lemma nth_pred_length (l : list A) (d : A) : nth (Nat.pred (length l)) l d = last l d.
Proof.
  induction l as [|x [|y l] IH]; [reflexivity|reflexivity|exact IH].
Qed.

Lemma last_map (f : A -> B) (l : list A) (d : A) (d' : B) :
  l <> [] -> last (map f l) d' = f (last l d).
Proof.
  induction l as [|x [|y l] IH]; intros Hne; [easy|reflexivity|].
  change (last (map f (y :: l)) d' = f (last (y :: l) d)). apply IH. discriminate.
Qed.

Lemma nth_map_lt (f : A -> B) (l : list A) k (d : A) (d' : B) :
  k < length l -> nth k (map f l) d' = f (nth k l d).
Proof. intros Hk. rewrite nth_indep with (d' := f d) by (now rewrite length_map). apply map_nth. Qed.

(** Two loop bodies that agree everywhere give the same fold. *)
Lemma fold_left_ext (f g : A -> B -> A) (l : list B) (a : A) :
  (forall acc x, f acc x = g acc x) -> fold_left f l a = fold_left g l a.
Proof. intros E. revert a; induction l as [|x l IH]; intros a; simpl; [reflexivity|]. now rewrite E. Qed.

(** A loop body that leaves the accumulator unchanged on every element. *)
Lemma fold_left_fixed (f : A -> B -> A) (l : list B) (a : A) :
  (forall x, In x l -> f a x = a) -> fold_left f l a = a.
Proof.
  intros Hf. induction l as [|x l IH]; simpl; [reflexivity|].
  rewrite Hf by (now left). apply IH. intros y Hy. apply Hf. now right.
Qed.

(** An invariant of the accumulator of a left fold. *)
Lemma fold_left_invariant (P : A -> Prop) (f : A -> B -> A) (l : list B) (a : A) :
  P a -> (forall acc x, In x l -> P acc -> P (f acc x)) -> P (fold_left f l a).
Proof.
  revert a; induction l as [|x l IH]; intros a Ha Hstep; simpl; [exact Ha|].
  apply IH; [apply Hstep; simpl; auto | intros acc y Hy; apply Hstep; simpl; auto].
Qed.
End ListFacts.

#[export] Hint Rewrite @length_map @length_seq @length_app : skijump_rw.
