(* ===== verification/RealInst.v ===== *)
(** * The exact-real reading of the numeric interface

    [R_scalar] reads every binary64 operation of the program as the exact
    real operation, [np.pi] as [PI] and [np.sin]/[np.cos] as the real sine
    and cosine: the idealised semantics in which the physics of
    [simular_salto] is stated.  The file also holds the comparison
    reflection lemmas, the [rsimpl] tactic that turns the generic model into
    real expressions. *)

From Stdlib Require Import ZArith Reals Lra List Lia.
From S2P Require Import Prelude.
Import ListNotations.

Local Open Scope R_scope.

Definition Rltb (a b : R) : bool := if Rlt_dec a b then true else false.
Definition Rleb (a b : R) : bool := if Rle_dec a b then true else false.
Definition Reqb (a b : R) : bool := if Req_EM_T a b then true else false.

#[export] Instance R_scalar : Scalar R := {|
  s_of_Z := IZR; s_add := Rplus; s_sub := Rminus; s_mul := Rmult; s_div := Rdiv;
  s_opp := Ropp; s_ltb := Rltb; s_leb := Rleb; s_eqb := Reqb;
  s_isnan := fun _ => false; s_isfinite := fun _ => true; s_pi := PI; s_sin := sin; s_cos := cos |}.

Lemma Rltb_iff a b : Rltb a b = true <-> a < b.
Proof. unfold Rltb. destruct (Rlt_dec a b); split; auto; discriminate. Qed.

Lemma Rltb_false a b : Rltb a b = false <-> b <= a.
Proof. unfold Rltb. destruct (Rlt_dec a b); split; intros; try lra; try discriminate; auto. Qed.

Lemma Rleb_iff a b : Rleb a b = true <-> a <= b.
Proof. unfold Rleb. destruct (Rle_dec a b); split; auto; discriminate. Qed.

Lemma Rleb_false a b : Rleb a b = false <-> b < a.
Proof. unfold Rleb. destruct (Rle_dec a b); split; intros; try lra; try discriminate; auto. Qed.

Lemma Reqb_iff a b : Reqb a b = true <-> a = b.
Proof. unfold Reqb. destruct (Req_EM_T a b); split; auto; discriminate. Qed.

(** Case analysis on a real comparison of the model, with the two
    propositions it decides. *)
Lemma Rltb_case a b : (Rltb a b = true /\ a < b) \/ (Rltb a b = false /\ b <= a).
Proof. destruct (Rlt_dec a b); [left|right]; rewrite ?Rltb_iff, ?Rltb_false; lra. Qed.

Lemma Rleb_case a b : (Rleb a b = true /\ a <= b) \/ (Rleb a b = false /\ b < a).
Proof. destruct (Rle_dec a b); [left|right]; rewrite ?Rleb_iff, ?Rleb_false; lra. Qed.

Lemma of_nat_R k : @of_nat R R_scalar k = INR k.
Proof. unfold of_nat. simpl. now rewrite <- INR_IZR_INZ. Qed.

Lemma lit_R n d : @lit R R_scalar n d = IZR n / IZR d.
Proof. reflexivity. Qed.

#[export] Hint Rewrite of_nat_R lit_R : skijump_rw.

(** Turn an expression of the generic model at [R_scalar] into plain real
    arithmetic. *)
Ltac rsimpl :=
  cbn [s_of_Z s_add s_sub s_mul s_div s_opp s_ltb s_leb s_eqb s_isnan s_isfinite s_pi s_sin s_cos
       R_scalar] in *;
  autorewrite with skijump_rw in *.

(** Decide the comparisons of the model that [rsimpl] exposed, from the
    hypotheses, by [lra]. *)
Ltac rcmp :=
  repeat match goal with
  | |- context [Rltb ?a ?b] =>
      first [ rewrite (proj2 (Rltb_iff a b)) by lra
            | rewrite (proj2 (Rltb_false a b)) by lra ]
  | |- context [Rleb ?a ?b] =>
      first [ rewrite (proj2 (Rleb_iff a b)) by lra
            | rewrite (proj2 (Rleb_false a b)) by lra ]
  end.

Lemma Rdiv_nonneg a b : 0 <= a -> 0 < b -> 0 <= a / b.
Proof. intros Ha Hb. unfold Rdiv. apply Rmult_le_pos; [lra|]. left. now apply Rinv_0_lt_compat. Qed.

Lemma Rdiv_pos a b : 0 < a -> 0 < b -> 0 < a / b.
Proof. intros Ha Hb. unfold Rdiv. apply Rmult_lt_0_compat; [lra|]. now apply Rinv_0_lt_compat. Qed.

Lemma Rdiv_ge_1 a b : 0 < b -> b <= a -> 1 <= a / b.
Proof.
  intros Hb Hab. apply (Rmult_le_reg_r b); [exact Hb|].
  unfold Rdiv. rewrite Rmult_assoc, Rinv_l, Rmult_1_r, Rmult_1_l by lra. exact Hab.
Qed.

(** A natural number below a literal bound, read in [R]. *)
Lemma INR_lt_lit k n : (k < n)%nat -> INR k < IZR (Z.of_nat n).
Proof. intros Hk. rewrite <- INR_IZR_INZ. now apply lt_INR. Qed.

(** Python's [min(a, b)] and [max(a, b)] at the reals. *)
Lemma py_min_R a b : @py_min R R_scalar a b <= a /\ @py_min R R_scalar a b <= b.
Proof. unfold py_min. cbn [s_ltb R_scalar]. destruct (Rltb_case b a) as [[-> ?]|[-> ?]]; lra. Qed.

Lemma py_max_R a b : a <= @py_max R R_scalar a b /\ b <= @py_max R R_scalar a b.
Proof. unfold py_max. cbn [s_ltb R_scalar]. destruct (Rltb_case a b) as [[-> ?]|[-> ?]]; lra. Qed.

