(* ===== verification/Linspace.v ===== *)
(** * numpy.linspace

    [np.linspace(start, stop, num)] is called three times by
    [simular_salto] (src/sky.py lines 59, 70 and 97).  It is library code,
    modelled here from numpy's definition ([numpy/_core/function_base.py]) at
    the generic [Scalar] interface: element [k] is [k*step + start] with
    [step = (stop-start)/(num-1)], numpy's underflow branch [(k/div)*delta +
    start] when [step == 0], and the last element overwritten by [stop]. *)

From Stdlib Require Import ZArith Reals Lra List Lia.
From S2P Require Import Prelude RealInst.
Import ListNotations.

Section Linspace.
Context {T : Type} `{Scalar T}.
Local Open Scope scalar_scope.

(** [y = arange(0, num) * step + start] before the endpoint is fixed;
    [div] is [num - 1] ([endpoint=True]). *)
Definition linspace_elem (start stop : T) (div k : nat) : T :=
  let delta := stop -! start in
  if (0 <? div)%nat then
    let step := delta /! of_nat div in
    if s_eqb step (#0) then (of_nat k /! of_nat div) *! delta +! start
    else of_nat k *! step +! start
  else of_nat k *! delta +! start.

(** [if endpoint and num > 1: y[-1] = stop]. *)
Definition linspace (start stop : T) (num : nat) : list T :=
  let ys := map (linspace_elem start stop (Nat.pred num)) (seq 0 num) in
  if (1 <? num)%nat then removelast ys ++ [stop] else ys.

Lemma length_linspace start stop num : length (linspace start stop num) = num.
Proof.
  unfold linspace. destruct (Nat.ltb_spec 1 num) as [Hn|Hn].
  - rewrite length_app, length_removelast by (rewrite length_map, length_seq; lia).
    rewrite length_map, length_seq. simpl. lia.
  - now rewrite length_map, length_seq.
Qed.

(** Every sample but the last is numpy's affine formula. *)
Lemma nth_linspace start stop num k d :
  (k < Nat.pred num)%nat ->
  nth k (linspace start stop num) d = linspace_elem start stop (Nat.pred num) k.
Proof.
  intros Hk. unfold linspace. destruct (Nat.ltb_spec 1 num) as [Hn|Hn]; [|lia].
  rewrite app_nth1 by (rewrite length_removelast; rewrite ?length_map, ?length_seq; lia).
  rewrite nth_removelast by (rewrite length_map, length_seq; lia).
  apply nth_map_seq. lia.
Qed.

(** The endpoint is exactly [stop], with no rounding. *)
Lemma last_linspace start stop num d :
  (1 < num)%nat -> last (linspace start stop num) d = stop.
Proof.
  intros Hn. unfold linspace. destruct (Nat.ltb_spec 1 num); [|lia]. apply last_snoc.
Qed.

Lemma nth_last_linspace start stop num d :
  (1 < num)%nat -> nth (Nat.pred num) (linspace start stop num) d = stop.
Proof.
  intros Hn. unfold linspace. destruct (Nat.ltb_spec 1 num); [|lia].
  rewrite app_nth2; rewrite length_removelast; rewrite ?length_map, ?length_seq; try lia.
  now rewrite Nat.sub_diag.
Qed.

(** Every element of a linspace is either [stop] or numpy's affine formula
    at an index below [num - 1]. *)
Lemma in_linspace start stop num x :
  (1 < num)%nat -> In x (linspace start stop num) ->
  x = stop \/ exists k, (k < Nat.pred num)%nat /\ x = linspace_elem start stop (Nat.pred num) k.
Proof.
  intros Hn Hin. apply (In_nth _ _ stop) in Hin as [k [Hk <-]].
  rewrite length_linspace in Hk.
  destruct (Nat.eq_dec k (Nat.pred num)) as [->|Hne].
  - left. now apply nth_last_linspace.
  - right. exists k. split; [lia|]. apply nth_linspace. lia.
Qed.
End Linspace.

Local Open Scope R_scope.

(** ** numpy's linspace over the reals *)

Section RealLinspace.
Variables start stop : R.
Hypothesis Hlt : start < stop.

(** For [start < stop] the step never underflows, and every sample, the
    overwritten endpoint included, is [start + k * (stop - start) / (num-1)]. *)
Lemma nth_linspace_R num k d :
  (1 < num)%nat -> (k < num)%nat ->
  nth k (linspace start stop num) d
  = start + INR k * ((stop - start) / INR (Nat.pred num)).
Proof.
  intros Hn Hk.
  assert (Hdiv : 0 < INR (Nat.pred num)) by (apply lt_0_INR; lia).
  destruct (Nat.eq_dec k (Nat.pred num)) as [->|Hne].
  - rewrite nth_last_linspace by lia. field. lra.
  - rewrite nth_linspace by lia. unfold linspace_elem.
    destruct (Nat.ltb_spec 0 (Nat.pred num)) as [_|]; [|lia].
    rsimpl. unfold Reqb. destruct (Req_EM_T _ _) as [E|_].
    + exfalso. apply (Rmult_eq_compat_r (INR (Nat.pred num))) in E.
      unfold Rdiv in E. rewrite Rmult_assoc, Rinv_l in E by lra. lra.
    + lra.
Qed.

Lemma linspace_bounds num x :
  (1 < num)%nat -> In x (linspace start stop num) -> start <= x <= stop.
Proof.
  intros Hn Hin. apply (In_nth _ _ 0) in Hin as [k [Hk <-]].
  rewrite length_linspace in Hk. rewrite nth_linspace_R by lia.
  assert (Hdiv : 0 < INR (Nat.pred num)) by (apply lt_0_INR; lia).
  assert (Hkd : INR k <= INR (Nat.pred num)) by (apply le_INR; lia).
  assert (0 <= INR k) by apply pos_INR.
  assert (0 <= (stop - start) / INR (Nat.pred num)) by (apply Rdiv_nonneg; lra).
  split.
  - nra.
  - replace stop with (start + INR (Nat.pred num) * ((stop - start) / INR (Nat.pred num)))
      at 2 by (field; lra).
    apply Rplus_le_compat_l, Rmult_le_compat_r; [apply Rdiv_nonneg|]; lra.
Qed.

(** The samples are strictly increasing. *)
Lemma linspace_increasing num i j d :
  (1 < num)%nat -> (i < j)%nat -> (j < num)%nat ->
  nth i (linspace start stop num) d < nth j (linspace start stop num) d.
Proof.
  intros Hn Hij Hj. rewrite !nth_linspace_R by lia.
  apply Rplus_lt_compat_l, Rmult_lt_compat_r.
  - apply Rdiv_pos; [lra|]. apply lt_0_INR; lia.
  - now apply lt_INR.
Qed.
End RealLinspace.
