(* ===== verification/Trajectory.v ===== *)
(** * Launch, landing time and sampled trajectory (src/sky.py lines 41-65)

    The first half of the numeric core of [simular_salto], written once over
    the [Scalar] interface: the launch velocity, the closed-form landing time
    [t_aterrizaje = 2 * (v0y - m * v0x) / g], the ramp line, and the 300
    samples [t], [x], [y] with the landing point [x[-1], y[-1]].

    At the exact reals: the landing time is the only positive time at which
    the parabola meets the ramp ([meets_ramp_unique]), the sampled points
    in between are strictly above the ramp ([samples_above_ramp]), the
    arrays meet the spec's data model ([trayectoria_refines_spec]), and on a
    flat ramp the landing distance is the textbook range
    [v0^2 sin(2 theta) / g] ([flat_range]). *)

From Stdlib Require Import ZArith Reals Lra List Lia.
From S2P Require Import Prelude RealInst Linspace.
Import ListNotations.

Section Model.
Context {T : Type} `{Scalar T}.
Local Open Scope scalar_scope.

(** [g = 9.81] *)
Definition g : T := lit 981 100.

(** [np.radians(a)] is numpy's [a * (NPY_PI / 180.0)]. *)
Definition radians (a : T) : T := a *! (s_pi /! #180).

(** The four numbers read from the form (lines 32-35), after [float(...)];
    [m] is already the negated slope, [m = -float(entry_pendiente.get())]. *)
Record inputs := mk_inputs { v0 : T; angulo : T; m : T; h : T }.

(** [x0, y0 = 0, h] *)
Definition x0 : T := #0.

(** [v0x = v0 * np.cos(theta)], [v0y = v0 * np.sin(theta)] with
    [theta = np.radians(angulo)]. *)
Definition v0x (i : inputs) : T := v0 i *! s_cos (radians (angulo i)).
Definition v0y (i : inputs) : T := v0 i *! s_sin (radians (angulo i)).

(** [2 * (vy - m * vx) / g], the expression of line 52 and line 74. *)
Definition landing_time (vx vy m : T) : T := (#2 *! (vy -! m *! vx)) /! g.

Definition t_aterrizaje (i : inputs) : T := landing_time (v0x i) (v0y i) (m i).

(** [x = x0 + v0x * t] and [y = y0 + v0y * t - 0.5 * g * t**2] at one
    sample ([t**2] is numpy's [square]; [0.5 * g] is computed first). *)
Definition pos_x (i : inputs) (t : T) : T := x0 +! v0x i *! t.
Definition pos_y (i : inputs) (t : T) : T :=
  h i +! v0y i *! t -! (lit 1 2 *! g) *! (t *! t).

(** The ramp line of lines 97-98: [ypista = y0 + m * (xpista - x0)]. *)
Definition ramp (i : inputs) (x : T) : T := h i +! m i *! (x -! x0).

Definition num_samples : nat := 300.

(** The arrays [t], [x], [y] of lines 59-61 and the landing point
    [x_land = x[-1]], [y_land = y[-1]] of lines 64-65. *)
Record trajectory := mk_trajectory {
  tr_t : list T; tr_x : list T; tr_y : list T; x_land : T; y_land : T }.

Definition trayectoria (i : inputs) (t_land : T) : trajectory :=
  let ts := linspace (#0) t_land num_samples in
  let xs := map (pos_x i) ts in
  let ys := map (pos_y i) ts in
  mk_trajectory ts xs ys (last xs (#0)) (last ys (#0)).

(** ** Structural facts, true at every instance *)

Lemma linspace_samples_nonempty (t_land : T) : linspace (#0) t_land num_samples <> [].
Proof.
  intros E. apply (f_equal (@length T)) in E. now rewrite length_linspace in E.
Qed.

(** [x[-1], y[-1]] is the position at exactly [t_land]: numpy writes [stop]
    itself into the last sample. *)
Lemma trayectoria_landing (i : inputs) (t_land : T) :
  x_land (trayectoria i t_land) = pos_x i t_land /\
  y_land (trayectoria i t_land) = pos_y i t_land.
Proof.
  cbn [trayectoria x_land y_land].
  rewrite !(last_map _ _ (#0)) by apply linspace_samples_nonempty.
  rewrite last_linspace by (unfold num_samples; lia). auto.
Qed.

Lemma trayectoria_lengths (i : inputs) (t_land : T) :
  length (tr_t (trayectoria i t_land)) = num_samples /\
  length (tr_x (trayectoria i t_land)) = num_samples /\
  length (tr_y (trayectoria i t_land)) = num_samples.
Proof. cbn [trayectoria tr_t tr_x tr_y]. now rewrite !length_map, length_linspace. Qed.

Lemma sample_pos (i : inputs) (t_land : T) k d :
  (k < num_samples)%nat ->
  nth k (tr_x (trayectoria i t_land)) d = pos_x i (nth k (tr_t (trayectoria i t_land)) d) /\
  nth k (tr_y (trayectoria i t_land)) d = pos_y i (nth k (tr_t (trayectoria i t_land)) d).
Proof.
  intros Hk. cbn [trayectoria tr_t tr_x tr_y].
  split; apply nth_map_lt; now rewrite length_linspace.
Qed.
End Model.

Arguments inputs T : clear implicits.
Arguments trajectory T : clear implicits.

(** ** The model at the exact reals *)

Local Open Scope R_scope.

Lemma g_R : @g R R_scalar = 981 / 100.
Proof. reflexivity. Qed.

Lemma radians_R a : @radians R R_scalar a = a * (PI / 180).
Proof. reflexivity. Qed.

#[export] Hint Rewrite g_R radians_R : skijump_rw.

Section Physics.
Variable i : inputs R.

(** The launch angle in radians. *)
Local Abbreviation th := (angulo i * (PI / 180)).

Lemma t_aterrizaje_R :
  t_aterrizaje i = 2 * (v0 i * sin th - m i * (v0 i * cos th)) / (981 / 100).
Proof. reflexivity. Qed.

Lemma pos_x_R t : pos_x i t = v0 i * cos th * t.
Proof. unfold pos_x, x0, v0x. rsimpl. ring. Qed.

Lemma pos_y_R t : pos_y i t = h i + v0 i * sin th * t - 981 / 200 * (t * t).
Proof. unfold pos_y, v0y. rsimpl. field. Qed.

Lemma ramp_R x : ramp i x = h i + m i * x.
Proof. unfold ramp, x0. rsimpl. ring. Qed.

(** Height of the jumper above the ramp at time [t]: everything below
    follows from this factorisation. *)
Lemma gap_formula t :
  pos_y i t - ramp i (pos_x i t) = 981 / 200 * t * (t_aterrizaje i - t).
Proof. rewrite pos_y_R, ramp_R, pos_x_R, t_aterrizaje_R. field. Qed.

(** The landing point is on the ramp, and no other positive time is. *)
Lemma on_ramp_at_landing : pos_y i (t_aterrizaje i) = ramp i (pos_x i (t_aterrizaje i)).
Proof. pose proof (gap_formula (t_aterrizaje i)) as G. rewrite Rminus_diag, Rmult_0_r in G. lra. Qed.

Lemma root_is_landing t : 0 < t -> pos_y i t = ramp i (pos_x i t) -> t = t_aterrizaje i.
Proof.
  intros Ht E. pose proof (gap_formula t) as G.
  assert (Z : 981 / 200 * t * (t_aterrizaje i - t) = 0) by lra.
  apply Rmult_integral in Z as [Z|Z]; [|lra].
  apply Rmult_integral in Z as [Z|Z]; lra.
Qed.

(** The sample times of [trayectoria]: [k * t_land / 299]. *)
Lemma sample_time t_land k :
  0 < t_land -> (k < num_samples)%nat ->
  nth k (tr_t (trayectoria i t_land)) 0 = INR k * t_land / 299.
Proof.
  intros Ht Hk. cbn [trayectoria tr_t]. unfold num_samples in *.
  rewrite nth_linspace_R; [| simpl; lra | lia | lia].
  change (INR (Nat.pred 300)) with (INR 299). rewrite (INR_IZR_INZ 299). simpl. field.
Qed.

Lemma sample_time_bounds t_land k :
  0 < t_land -> (0 < k < 299)%nat ->
  0 < nth k (tr_t (trayectoria i t_land)) 0 < t_land.
Proof.
  intros Ht Hk. rewrite sample_time by (unfold num_samples; lia || lra).
  assert (0 < INR k < 299) by (split; [apply lt_0_INR | apply (INR_lt_lit k 299)]; lia).
  split; [apply Rdiv_pos|]; nra.
Qed.
End Physics.


(** C2: the closed form of line 52 is the only positive time at which the
    parabola meets the ramp. *)
Theorem meets_ramp_unique (i : inputs R) t :
  0 < t -> (pos_y i t = ramp i (pos_x i t) <-> t = t_aterrizaje i).
Proof.
  intros Ht. split; [now apply root_is_landing | intros ->; apply on_ramp_at_landing].
Qed.

(** C3: every sample strictly between launch and landing is strictly above
    the ramp: the drawn trajectory never crosses the slope. *)
Theorem samples_above_ramp (i : inputs R) k :
  0 < t_aterrizaje i -> (0 < k < 299)%nat ->
  ramp i (nth k (tr_x (trayectoria i (t_aterrizaje i))) 0)
  < nth k (tr_y (trayectoria i (t_aterrizaje i))) 0.
Proof.
  intros Ht Hk.
  destruct (sample_pos i (t_aterrizaje i) k 0) as [-> ->]; [unfold num_samples; lia|].
  pose proof (sample_time_bounds i _ k Ht Hk) as B.
  pose proof (gap_formula i (nth k (tr_t (trayectoria i (t_aterrizaje i))) 0)). nra.
Qed.

(** ** The contract of the sampled trajectory *)

(** What the spec's [computeTrajectory] promises of a successful run: 300
    samples uniform in time from 0 to the landing time inclusive, positions
    given by the projectile formulas, and the landing point (the last
    sample) on the ramp. *)
Definition trajectory_spec (i : inputs R) (tr : trajectory R) : Prop :=
  let th := angulo i * (PI / 180) in
  let tl := t_aterrizaje i in
  length (tr_t tr) = 300%nat /\ length (tr_x tr) = 300%nat /\ length (tr_y tr) = 300%nat /\
  (forall k, (k < 300)%nat ->
     let t := nth k (tr_t tr) 0 in
     t = INR k * tl / 299 /\
     nth k (tr_x tr) 0 = v0 i * cos th * t /\
     nth k (tr_y tr) 0 = h i + v0 i * sin th * t - 981 / 200 * (t * t)) /\
  x_land tr = nth 299 (tr_x tr) 0 /\ y_land tr = nth 299 (tr_y tr) 0 /\
  y_land tr = h i + m i * x_land tr.

(** C5: refinement: for a positive landing time, the arrays of lines 59-65
    meet [trajectory_spec]. *)
Theorem trayectoria_refines_spec (i : inputs R) :
  0 < t_aterrizaje i -> trajectory_spec i (trayectoria i (t_aterrizaje i)).
Proof.
  intros Ht.
  destruct (trayectoria_lengths i (t_aterrizaje i)) as (L1 & L2 & L3).
  destruct (trayectoria_landing i (t_aterrizaje i)) as [Hxl Hyl].
  assert (Hs : forall k, (k < 300)%nat ->
            nth k (tr_x (trayectoria i (t_aterrizaje i))) 0
            = pos_x i (INR k * t_aterrizaje i / 299) /\
            nth k (tr_y (trayectoria i (t_aterrizaje i))) 0
            = pos_y i (INR k * t_aterrizaje i / 299)).
  { intros k Hk. rewrite <- (sample_time i (t_aterrizaje i) k) by (unfold num_samples; lia || lra).
    now apply sample_pos. }
  assert (Hend : INR 299 * t_aterrizaje i / 299 = t_aterrizaje i)
    by (rewrite (INR_IZR_INZ 299); simpl; field).
  unfold trajectory_spec; cbv zeta.
  split; [exact L1|]. split; [exact L2|]. split; [exact L3|].
  split; [|split; [|split]].
  - intros k Hk. rewrite sample_time by (unfold num_samples; lia || lra).
    destruct (Hs k Hk) as [-> ->]. rewrite pos_x_R, pos_y_R. auto.
  - destruct (Hs 299%nat) as [-> _]; [lia|]. now rewrite Hend.
  - destruct (Hs 299%nat) as [_ ->]; [lia|]. now rewrite Hend.
  - rewrite Hxl, Hyl, <- ramp_R. apply on_ramp_at_landing.
Qed.

(** C6: on a flat ramp ([m = 0]) the landing distance [x[-1] - x0] is the
    textbook range [v0^2 sin(2 theta) / g]. *)
Theorem flat_range (i : inputs R) :
  m i = 0 ->
  x_land (trayectoria i (t_aterrizaje i))
  = v0 i ^ 2 * sin (2 * (angulo i * (PI / 180))) / (981 / 100).
Proof.
  intros Hm. destruct (trayectoria_landing i (t_aterrizaje i)) as [-> _].
  rewrite pos_x_R, t_aterrizaje_R, Hm, sin_2a. field.
Qed.

(** ** Concrete runs *)

(** A horizontal launch ([angulo = 0]) at 25 m/s from 20 m onto the default
    descending ramp ([pendiente = 1], so [m = -1]). *)
Definition salto_horizontal : inputs R := mk_inputs 25 0 (-1) 20.

Lemma salto_horizontal_t : t_aterrizaje salto_horizontal = 5000 / 981.
Proof.
  rewrite t_aterrizaje_R. cbn [v0 m angulo salto_horizontal].
  rewrite Rmult_0_l, sin_0, cos_0. field.
Qed.

Lemma meets_ramp_unique_witness :
  0 < 5000 / 981 /\
  (pos_y salto_horizontal (5000 / 981) = ramp salto_horizontal (pos_x salto_horizontal (5000 / 981))
   <-> 5000 / 981 = t_aterrizaje salto_horizontal).
Proof.
  assert (H : 0 < 5000 / 981) by lra.
  split; [exact H | exact (meets_ramp_unique salto_horizontal (5000 / 981) H)].
Defined.

Lemma samples_above_ramp_witness :
  ramp salto_horizontal (nth 150 (tr_x (trayectoria salto_horizontal (t_aterrizaje salto_horizontal))) 0)
  < nth 150 (tr_y (trayectoria salto_horizontal (t_aterrizaje salto_horizontal))) 0.
Proof.
  apply (samples_above_ramp salto_horizontal 150); [rewrite salto_horizontal_t; lra | lia].
Defined.

Lemma trayectoria_refines_spec_witness :
  trajectory_spec salto_horizontal (trayectoria salto_horizontal (t_aterrizaje salto_horizontal)).
Proof. apply trayectoria_refines_spec. rewrite salto_horizontal_t. lra. Defined.

(** The default form values except a flat ramp: [v0 = 25], [angulo = 22.8],
    [m = 0], [h = 20]. *)
Lemma flat_range_witness :
  x_land (trayectoria (mk_inputs 25 (228 / 10) 0 20) (t_aterrizaje (mk_inputs 25 (228 / 10) 0 20)))
  = 25 ^ 2 * sin (2 * (228 / 10 * (PI / 180))) / (981 / 100).
Proof. exact (flat_range (mk_inputs 25 (228 / 10) 0 20) eq_refl). Defined.
