(* ===== verification/Sweep.v ===== *)
(** * The best-angle sweep (src/sky.py lines 67-79)

    [mejor_angulo] is the loop of lines 68-79 as a left fold over the 200
    candidate angles [np.linspace(1, 80, 200)], with accumulator
    [(mejor_dist, mejor_ang)] starting at [(0, 0)] and the two guards of the
    source ([t_at > 0], then [x_test > mejor_dist]).

    At the exact reals the fold refines [first_argmax]: the result is the
    first candidate, in scan order, of maximal positive landing distance, or
    the sentinel [(0, 0)] when no candidate lands at a positive distance
    ([mejor_angulo_refines]).  Scaling the speed by [k] scales every distance
    by [k^2] and keeps the angle ([mejor_angulo_scale]), hence the spec's
    monotonicity in speed ([mejor_dist_monotone]). *)

From Stdlib Require Import ZArith Reals Lra List Lia.
From S2P Require Import Prelude RealInst Linspace Trajectory.
Import ListNotations.

Section Model.
Context {T : Type} `{Scalar T}.
Local Open Scope scalar_scope.

(** One iteration of the loop of lines 70-79:
    [th = np.radians(ang_test); vx = v0 * np.cos(th); vy = v0 * np.sin(th);
     t_at = 2 * (vy - m * vx) / g;
     if t_at > 0: x_test = x0 + vx * t_at;
                  if x_test > mejor_dist: mejor_dist, mejor_ang = x_test, ang_test]. *)
Definition sweep_step (v0' m' : T) (best : T * T) (ang_test : T) : T * T :=
  let th := radians ang_test in
  let vx := v0' *! s_cos th in
  let vy := v0' *! s_sin th in
  let t_at := landing_time vx vy m' in
  if #0 <! t_at then
    let x_test := x0 +! vx *! t_at in
    if fst best <! x_test then (x_test, ang_test) else best
  else best.

(** The candidate angles [np.linspace(1, 80, 200)]. *)
Definition candidatos : list T := linspace (#1) (#80) 200.

(** Lines 68-79: [mejor_dist = 0; mejor_ang = 0; for ang_test in ...]. *)
Definition mejor_angulo (v0' m' : T) : T * T :=
  fold_left (sweep_step v0' m') candidatos (#0, #0).

(** The landing distance of a candidate angle, when its landing time is
    positive: the value the loop compares. *)
Definition candidate_dist (v0' m' ang : T) : option T :=
  let th := radians ang in
  let vx := v0' *! s_cos th in
  let t_at := landing_time vx (v0' *! s_sin th) m' in
  if #0 <! t_at then Some (x0 +! vx *! t_at) else None.

(** The loop body keeps the best [(distance, angle)] pair by strict
    improvement: the shape every theorem below uses. *)
Definition improve (score : T -> option T) (best : T * T) (a : T) : T * T :=
  match score a with
  | Some x => if fst best <! x then (x, a) else best
  | None => best
  end.

Lemma sweep_step_improve v0' m' best a :
  sweep_step v0' m' best a = improve (candidate_dist v0' m') best a.
Proof.
  unfold sweep_step, improve, candidate_dist.
  destruct (#0 <! _); reflexivity.
Qed.

Lemma mejor_angulo_improve v0' m' :
  mejor_angulo v0' m' = fold_left (improve (candidate_dist v0' m')) candidatos (#0, #0).
Proof.
  unfold mejor_angulo. apply fold_left_ext. apply sweep_step_improve.
Qed.
End Model.

(** ** The sweep at the exact reals *)

Local Open Scope R_scope.

(** The abstract contract of the spec's [findOptimalAngle]: among the
    candidates with a (positive-time) distance, [res] holds the first one of
    maximal positive distance, or [(0, 0)] when none is positive. *)
Definition first_argmax (score : R -> option R) (l : list R) (res : R * R) : Prop :=
  (forall b x, In b l -> score b = Some x -> x <= fst res) /\
  (res = (0, 0) \/
   exists pre b post, l = pre ++ b :: post /\ score b = Some (fst res) /\ snd res = b /\
     0 < fst res /\ forall c x, In c pre -> score c = Some x -> x < fst res).

(** A candidate that does not beat the current best leaves it the first
    maximum of the longer prefix. *)
Lemma first_argmax_keep (score : R -> option R) l x r :
  first_argmax score l r -> (forall y, score x = Some y -> y <= fst r) ->
  first_argmax score (l ++ [x]) r.
Proof.
  intros [Hub Hw] Hx. split.
  - intros b y Hb Hy. apply in_app_or in Hb as [Hb|[<-|[]]]; eauto.
  - destruct Hw as [->|(pre & b & post & -> & Hb)]; [now left|].
    right. exists pre, b, (post ++ [x]). split; [|exact Hb]. now rewrite <- app_assoc.
Qed.

(** A candidate that beats the current best becomes the first maximum. *)
Lemma first_argmax_take (score : R -> option R) l x r sx :
  first_argmax score l r -> 0 <= fst r -> score x = Some sx -> fst r < sx ->
  first_argmax score (l ++ [x]) (sx, x).
Proof.
  intros [Hub _] Hr0 Ex Hlt. split.
  - intros b y Hb Hy. apply in_app_or in Hb as [Hb|[<-|[]]].
    + specialize (Hub b y Hb Hy). simpl; lra.
    + simpl. assert (y = sx) by congruence. lra.
  - right. exists l, x, []. repeat split; simpl; auto; [lra|].
    intros c y Hc Hy. specialize (Hub c y Hc Hy). lra.
Qed.

Lemma first_argmax_nonneg score l r : first_argmax score l r -> 0 <= fst r.
Proof. intros [_ [->|(pre & b & post & _ & _ & _ & Hpos & _)]]; simpl; lra. Qed.

Lemma fold_improve_first_argmax (score : R -> option R) (l : list R) :
  first_argmax score l (fold_left (improve score) l (0, 0)).
Proof.
  induction l as [|x l IH] using rev_ind.
  - split; [intros ? ? []|now left].
  - rewrite fold_left_app. cbn [fold_left]. unfold improve at 1. cbn [s_ltb R_scalar].
    destruct (score x) as [sx|] eqn:Ex.
    + destruct (Rltb_case (fst (fold_left (improve score) l (0, 0))) sx) as [[-> Hlt]|[-> Hge]].
      * eapply first_argmax_take; eauto using first_argmax_nonneg.
      * apply first_argmax_keep; [exact IH|]. intros y Hy. assert (y = sx) by congruence. lra.
    + apply first_argmax_keep; [exact IH|]. congruence.
Qed.

Lemma mejor_angulo_first_argmax (v m : R) :
  first_argmax (candidate_dist v m) candidatos (mejor_angulo v m).
Proof. rewrite mejor_angulo_improve. apply fold_improve_first_argmax. Qed.

(** A first maximum over the candidate grid is the sentinel or a positive
    distance at an angle of [[1, 80]]. *)
Lemma first_argmax_range score r :
  first_argmax score candidatos r -> r = (0, 0) \/ (0 < fst r /\ 1 <= snd r <= 80).
Proof.
  intros [_ [E|(pre & b & post & Hl & _ & Hb & Hpos & _)]]; [now left|right].
  split; [exact Hpos|]. rewrite Hb.
  apply (linspace_bounds 1 80 ltac:(lra) 200); [lia|].
  change (linspace 1 80 200) with (@candidatos R R_scalar). rewrite Hl.
  apply in_or_app. right. now left.
Qed.

(** C7: refinement: the loop of lines 68-79 returns the first candidate of
    maximal positive landing distance, or the sentinel [(0, 0)]. *)
Theorem mejor_angulo_refines (v m : R) :
  first_argmax (candidate_dist v m) candidatos (mejor_angulo v m).
Proof.
  rewrite mejor_angulo_improve.
  change (@s_of_Z R R_scalar 0) with 0. apply fold_improve_first_argmax.
Qed.

(** A score scaled by a positive constant changes neither the comparisons
    nor the winner of one iteration, nor of the loop. *)
Lemma improve_scale (score score' : R -> option R) c d a b :
  0 < c -> (forall b, score' b = option_map (Rmult c) (score b)) ->
  improve score' (c * d, a) b
  = (c * fst (improve score (d, a) b), snd (improve score (d, a) b)).
Proof.
  intros Hc Hs. unfold improve. rewrite Hs. cbn [s_ltb R_scalar fst].
  destruct (score b) as [x|]; cbn [option_map]; [|reflexivity].
  destruct (Rltb_case d x) as [[-> Hlt]|[-> Hge]].
  - rewrite (proj2 (Rltb_iff _ _)) by nra. reflexivity.
  - rewrite (proj2 (Rltb_false _ _)) by nra. reflexivity.
Qed.

Lemma fold_improve_scale (score score' : R -> option R) c l d a :
  0 < c -> (forall b, score' b = option_map (Rmult c) (score b)) ->
  fold_left (improve score') l (c * d, a)
  = (c * fst (fold_left (improve score) l (d, a)), snd (fold_left (improve score) l (d, a))).
Proof.
  intros Hc Hs. revert d a; induction l as [|b l IH]; intros d a; [reflexivity|].
  cbn [fold_left]. rewrite (improve_scale score score') by assumption.
  destruct (improve score (d, a) b) as [d' a']. apply IH.
Qed.

(** Speed [k * v]: the landing time of every candidate scales by [k], its
    distance by [k^2]. *)
Lemma candidate_dist_scale k v m a :
  0 < k -> candidate_dist (k * v) m a = option_map (Rmult (k ^ 2)) (candidate_dist v m a).
Proof.
  intros Hk. unfold candidate_dist, landing_time, x0. rsimpl.
  destruct (Rltb_case 0 (2 * (v * sin (a * (PI / 180)) - m * (v * cos (a * (PI / 180)))) / (981 / 100)))
    as [[-> Hpos]|[-> Hneg]].
  - rewrite (proj2 (Rltb_iff _ _)).
    + cbn [option_map]. f_equal. field.
    + replace (2 * (k * v * sin (a * (PI / 180)) - m * (k * v * cos (a * (PI / 180)))) / (981 / 100))
        with (k * (2 * (v * sin (a * (PI / 180)) - m * (v * cos (a * (PI / 180)))) / (981 / 100)))
        by field. nra.
  - rewrite (proj2 (Rltb_false _ _)); [reflexivity|].
    replace (2 * (k * v * sin (a * (PI / 180)) - m * (k * v * cos (a * (PI / 180)))) / (981 / 100))
      with (k * (2 * (v * sin (a * (PI / 180)) - m * (v * cos (a * (PI / 180)))) / (981 / 100)))
      by field. nra.
Qed.

Lemma mejor_dist_scale (k v m : R) :
  0 < k -> fst (mejor_angulo (k * v) m) = k ^ 2 * fst (mejor_angulo v m).
Proof.
  intros Hk. rewrite !mejor_angulo_improve.
  transitivity (fst (fold_left (improve (candidate_dist (k * v) m)) candidatos (k ^ 2 * 0, 0))).
  { do 3 f_equal. cbn. ring. }
  rewrite (fold_improve_scale (candidate_dist v m)); [reflexivity | nra |].
  intros b; now apply candidate_dist_scale.
Qed.

(** C8: multiplying the speed by [k > 0] multiplies the best distance by
    [k^2] and leaves the best angle unchanged. *)
Theorem mejor_angulo_scale (k v m : R) :
  0 < k ->
  mejor_angulo (k * v) m = (k ^ 2 * fst (mejor_angulo v m), snd (mejor_angulo v m)).
Proof.
  intros Hk. rewrite !mejor_angulo_improve.
  transitivity (fold_left (improve (candidate_dist (k * v) m)) candidatos (k ^ 2 * 0, 0)).
  { f_equal. cbn. f_equal. ring. }
  rewrite (fold_improve_scale (candidate_dist v m)); [| nra | intros b; now apply candidate_dist_scale].
  reflexivity.
Qed.

(** C9: the spec's monotonicity: a faster launch never reports a shorter
    best distance. *)
Theorem mejor_dist_monotone (v v' m : R) :
  0 < v -> v <= v' -> fst (mejor_angulo v m) <= fst (mejor_angulo v' m).
Proof.
  intros Hv Hle. replace v' with ((v' / v) * v) by (field; lra).
  rewrite mejor_dist_scale by (apply Rdiv_pos; lra).
  pose proof (first_argmax_nonneg _ _ _ (mejor_angulo_first_argmax v m)) as H0.
  assert (1 <= v' / v) by (apply Rdiv_ge_1; lra).
  assert (1 <= (v' / v) ^ 2) by nra.
  nra.
Qed.

(** C10: the reported pair is either the sentinel [(0, 0)] or a positive
    distance at an angle of the scanned range [1, 80]. *)
Theorem mejor_angulo_range (v m : R) :
  mejor_angulo v m = (0, 0) \/
  (0 < fst (mejor_angulo v m) /\ 1 <= snd (mejor_angulo v m) <= 80).
Proof. exact (first_argmax_range _ _ (mejor_angulo_first_argmax v m)). Qed.

(** ** Concrete instances *)

(** Doubling the default speed on the default ramp. *)
Lemma mejor_angulo_scale_witness :
  mejor_angulo (2 * 25) (-1)
  = (2 ^ 2 * fst (mejor_angulo 25 (-1)), snd (@mejor_angulo R R_scalar 25 (-1))).
Proof. apply mejor_angulo_scale. lra. Defined.

Lemma mejor_dist_monotone_witness :
  fst (@mejor_angulo R R_scalar 25 (-1)) <= fst (@mejor_angulo R R_scalar 30 (-1)).
Proof. apply mejor_dist_monotone; lra. Defined.
