(* ===== verification/Engine.v ===== *)
(** * The trajectory engine: guard, composition and axis limits
    (src/sky.py lines 41-84)

    [simula] composes [Trajectory] and [Sweep] the way [simular_salto] does:
    the guard [if t_aterrizaje <= 0] of line 53 reports [NoIntersection]
    (the label of line 54); otherwise the 300-sample trajectory and the
    sweep result [(mejor_dist, mejor_ang)].  [limites] are the dynamic axis
    limits of lines 82-84, with numpy's NaN-propagating [np.min]/[np.max]
    and Python's builtin [min]/[max].

    At the exact reals: a reported flight lands on the ramp
    ([landing_on_ramp]); [NoIntersection] is reported exactly when the
    parabola never meets the ramp ([no_intersection_iff]); the two concrete
    scenarios of the spec (straight up on a flat ramp, horizontal at ground
    level); a launch backwards that lands behind the start although the
    spec promises a positive landing abscissa ([lands_behind_start]); and
    the vertical axis range contains every sample ([limits_contain_samples]). *)

From Stdlib Require Import ZArith Reals Lra List Lia.
From S2P Require Import Prelude RealInst Linspace Trajectory Sweep.
Import ListNotations.

Section Model.
Context {T : Type} `{Scalar T}.
Local Open Scope scalar_scope.

(** The two results of the physics part of the handler. *)
Inductive outcome :=
| NoIntersection
| Flight (tr : trajectory T) (best : T * T).

(** Lines 41-79: [t_aterrizaje], the guard of line 53, the trajectory of
    lines 58-65 and the sweep of lines 67-79. *)
Definition simula (i : inputs T) : outcome :=
  let t_land := t_aterrizaje i in
  if t_land <=! #0 then NoIntersection
  else Flight (trayectoria i t_land) (mejor_angulo (v0 i) (m i)).

(** [np.min] / [np.max] reduce with numpy's NaN-propagating
    [(a <= b || isnan(a)) ? a : b]; on an empty array they raise, [None]. *)
Definition np_min (l : list T) : option T :=
  match l with
  | [] => None
  | a :: r => Some (fold_left (fun acc y => if ((acc <=! y) || s_isnan acc)%bool then acc else y) r a)
  end.

Definition np_max (l : list T) : option T :=
  match l with
  | [] => None
  | a :: r => Some (fold_left (fun acc y => if ((y <=! acc) || s_isnan acc)%bool then acc else y) r a)
  end.

(** Lines 82-84: [xmax = mejor_dist + 20],
    [ymin = min(np.min(y), y_land) - 20],
    [ymax = max(h + 10, np.max(y) + 10)]. *)
Record limits := mk_limits { xmax : T; ymin : T; ymax : T }.

Definition limites (i : inputs T) (tr : trajectory T) (mejor_dist : T) : option limits :=
  match np_min (tr_y tr), np_max (tr_y tr) with
  | Some lo, Some hi =>
      Some (mk_limits (mejor_dist +! #20)
                      (py_min lo (y_land tr) -! #20)
                      (py_max (h i +! #10) (hi +! #10)))
  | _, _ => None
  end.

(** The two branches of the guard of line 53. *)
Lemma simula_no_intersection (i : inputs T) :
  (t_aterrizaje i <=! #0) = true -> simula i = NoIntersection.
Proof. unfold simula. now intros ->. Qed.

Lemma simula_flight (i : inputs T) :
  (t_aterrizaje i <=! #0) = false ->
  simula i = Flight (trayectoria i (t_aterrizaje i)) (mejor_angulo (v0 i) (m i)).
Proof. unfold simula. now intros ->. Qed.
End Model.

Arguments outcome T : clear implicits.
Arguments limits T : clear implicits.

(** ** The engine at the exact reals *)

Local Open Scope R_scope.

Section Guard.
Variable i : inputs R.

Lemma simula_R_cases :
  (t_aterrizaje i <= 0 /\ simula i = NoIntersection) \/
  (0 < t_aterrizaje i /\
   simula i = Flight (trayectoria i (t_aterrizaje i)) (mejor_angulo (v0 i) (m i))).
Proof.
  destruct (Rleb_case (t_aterrizaje i) 0) as [[E Hle]|[E Hlt]].
  - left. split; [exact Hle|]. now apply simula_no_intersection.
  - right. split; [exact Hlt|]. now apply simula_flight.
Qed.

Lemma flight_inv tr best :
  simula i = Flight tr best ->
  0 < t_aterrizaje i /\ tr = trayectoria i (t_aterrizaje i) /\ best = mejor_angulo (v0 i) (m i).
Proof.
  intros Hs. destruct simula_R_cases as [[_ E]|[Ht E]]; rewrite E in Hs; [discriminate|].
  split; [exact Ht|]. split; congruence.
Qed.
End Guard.

(** C1: when the engine reports a flight, the landing time is positive and
    the landing point [x[-1], y[-1]] lies exactly on the ramp
    [y = h + m * x]. *)
Theorem landing_on_ramp (i : inputs R) tr best :
  simula i = Flight tr best ->
  0 < t_aterrizaje i /\ y_land tr = ramp i (x_land tr).
Proof.
  intros Hs. apply flight_inv in Hs as (Ht & -> & _). split; [exact Ht|].
  destruct (trayectoria_landing i (t_aterrizaje i)) as [-> ->].
  apply on_ramp_at_landing.
Qed.

(** C4: the guard of line 53 reports [NoIntersection] exactly when the
    parabola meets the ramp at no positive time. *)
Theorem no_intersection_iff (i : inputs R) :
  simula i = NoIntersection <-> ~ (exists t, 0 < t /\ pos_y i t = ramp i (pos_x i t)).
Proof.
  destruct (simula_R_cases i) as [[Hle ->]|[Ht ->]]; split; intros H; try easy.
  - intros [t [Ht E]]. apply (root_is_landing i t Ht) in E. lra.
  - exfalso. apply H. exists (t_aterrizaje i). split; [exact Ht|]. apply on_ramp_at_landing.
Qed.

(** ** numpy's reductions at the reals *)

Lemma np_min_fold_R (r : list R) (acc : R) :
  let lo := fold_left (fun acc y => if (Rleb acc y || false)%bool then acc else y) r acc in
  lo <= acc /\ forall y, In y r -> lo <= y.
Proof.
  revert acc; induction r as [|x r IH]; intros acc; simpl; [split; [lra|easy]|].
  destruct (Rleb_case acc x) as [[-> Hle]|[-> Hlt]]; simpl.
  - destruct (IH acc) as [H1 H2]. split; [lra|]. intros y [<-|Hy]; auto; lra.
  - destruct (IH x) as [H1 H2]. split; [lra|]. intros y [<-|Hy]; auto; lra.
Qed.

Lemma np_max_fold_R (r : list R) (acc : R) :
  let hi := fold_left (fun acc y => if (Rleb y acc || false)%bool then acc else y) r acc in
  acc <= hi /\ forall y, In y r -> y <= hi.
Proof.
  revert acc; induction r as [|x r IH]; intros acc; simpl; [split; [lra|easy]|].
  destruct (Rleb_case x acc) as [[-> Hle]|[-> Hlt]]; simpl.
  - destruct (IH acc) as [H1 H2]. split; [lra|]. intros y [<-|Hy]; auto; lra.
  - destruct (IH x) as [H1 H2]. split; [lra|]. intros y [<-|Hy]; auto; lra.
Qed.

(** C14: for a reported flight the limits of lines 82-84 exist, and the
    vertical range strictly contains every sampled height and the landing
    height: the drawn trajectory is never clipped vertically. *)
Theorem limits_contain_samples (i : inputs R) tr md ma :
  simula i = Flight tr (md, ma) ->
  exists L, limites i tr md = Some L /\ ymin L < y_land tr /\
    forall y, In y (tr_y tr) -> ymin L < y < ymax L.
Proof.
  intros Hs. apply flight_inv in Hs as (_ & -> & _).
  destruct (trayectoria_lengths i (t_aterrizaje i)) as (_ & _ & Hlen).
  unfold limites, np_min, np_max.
  destruct (tr_y (trayectoria i (t_aterrizaje i))) as [|a r] eqn:Ey; [discriminate|].
  cbn [s_leb s_isnan R_scalar].
  destruct (np_min_fold_R r a) as [Hlo1 Hlo2]. destruct (np_max_fold_R r a) as [Hhi1 Hhi2].
  eexists; split; [reflexivity|]. cbn [ymin ymax]. rsimpl.
  set (lo := fold_left (fun acc y => if (Rleb acc y || false)%bool then acc else y) r a) in *.
  set (hi := fold_left (fun acc y => if (Rleb y acc || false)%bool then acc else y) r a) in *.
  destruct (py_min_R lo (y_land (trayectoria i (t_aterrizaje i)))) as [Hm1 Hm2].
  destruct (py_max_R (h i + 10) (hi + 10)) as [HM1 HM2].
  split; [lra|]. intros y [<-|Hy]; [lra|].
  specialize (Hlo2 y Hy). specialize (Hhi2 y Hy). lra.
Qed.

(** ** Scenarios of the spec *)

Lemma flight_landing (i : inputs R) :
  0 < t_aterrizaje i ->
  simula i = Flight (trayectoria i (t_aterrizaje i)) (mejor_angulo (v0 i) (m i)) /\
  x_land (trayectoria i (t_aterrizaje i)) = pos_x i (t_aterrizaje i) /\
  y_land (trayectoria i (t_aterrizaje i)) = pos_y i (t_aterrizaje i).
Proof.
  intros Ht. destruct (simula_R_cases i) as [[Hle _]|[_ E]]; [lra|].
  split; [exact E|]. apply trayectoria_landing.
Qed.

(** C11: launching straight up ([angulo = 90]) over a flat ramp
    ([pendiente = 0]) at any positive speed is a flight that lands exactly
    where it started, at [x = 0] and height [h]. *)
Theorem straight_up_lands_at_start (v hh : R) :
  0 < v ->
  exists tr best, simula (mk_inputs v 90 0 hh) = Flight tr best /\
    x_land tr = 0 /\ y_land tr = hh.
Proof.
  intros Hv. set (i := mk_inputs v 90 0 hh).
  assert (Hth : angulo i * (PI / 180) = PI / 2) by (cbn; field).
  assert (Ht : t_aterrizaje i = 200 * v / 981)
    by (rewrite t_aterrizaje_R, Hth, sin_PI2, cos_PI2; cbn; field).
  destruct (flight_landing i) as (E & Hx & Hy); [rewrite Ht; apply Rdiv_pos; lra|].
  do 2 eexists. split; [exact E|]. rewrite Hx, Hy, pos_x_R, pos_y_R, Hth, cos_PI2, sin_PI2, Ht.
  cbn. split; field.
Qed.

(** C12: a horizontal launch ([angulo = 0]) over a flat ramp
    ([pendiente = 0]) is reported as [NoIntersection], whatever the speed
    and the height: its landing time is exactly 0. *)
Theorem horizontal_flat_no_intersection (v hh : R) :
  simula (mk_inputs v 0 0 hh) = NoIntersection.
Proof.
  apply simula_no_intersection.
  assert (Ht : t_aterrizaje (mk_inputs v 0 0 hh) = 0)
    by (rewrite t_aterrizaje_R; cbn; rewrite Rmult_0_l, sin_0, cos_0; field).
  rewrite Ht. rsimpl. rcmp. reflexivity.
Qed.

(** C13: the spec promises [landing_point.x > 0] for a valid landing on a
    descending ramp, but the code accepts any angle: launched backwards at
    [angulo = 120] onto the default descending ramp ([pendiente = 1]), the
    jumper lands at a positive time behind the launch point, [x_land < 0]. *)
Theorem lands_behind_start (v hh : R) :
  0 < v ->
  exists tr best, simula (mk_inputs v 120 (-1) hh) = Flight tr best /\ x_land tr < 0.
Proof.
  intros Hv. set (i := mk_inputs v 120 (-1) hh).
  assert (Hth : angulo i * (PI / 180) = PI - PI / 3) by (cbn; field).
  assert (Hs3 : 1 < sqrt 3).
  { pose proof (sqrt_sqrt 3 ltac:(lra)). pose proof (sqrt_pos 3). nra. }
  assert (Ht : t_aterrizaje i = 100 * v * (sqrt 3 - 1) / 981).
  { rewrite t_aterrizaje_R, Hth, sin_PI_x, Rtrigo_facts.cos_pi_minus, sin_PI3, cos_PI3.
    cbn. field. }
  assert (Htp : 0 < t_aterrizaje i) by (rewrite Ht; apply Rdiv_pos; nra).
  destruct (flight_landing i Htp) as (E & Hx & _).
  do 2 eexists. split; [exact E|].
  rewrite Hx, pos_x_R, Hth, Rtrigo_facts.cos_pi_minus, cos_PI3.
  change (v0 i) with v. assert (0 < v * t_aterrizaje i) by nra. nra.
Qed.

(** ** Concrete runs *)

Lemma salto_horizontal_flies :
  simula salto_horizontal
  = Flight (trayectoria salto_horizontal (t_aterrizaje salto_horizontal)) (mejor_angulo 25 (-1)).
Proof. apply flight_landing. rewrite salto_horizontal_t. lra. Qed.

Lemma landing_on_ramp_witness :
  0 < t_aterrizaje salto_horizontal /\
  y_land (trayectoria salto_horizontal (t_aterrizaje salto_horizontal))
  = ramp salto_horizontal (x_land (trayectoria salto_horizontal (t_aterrizaje salto_horizontal))).
Proof. exact (landing_on_ramp salto_horizontal _ _ salto_horizontal_flies). Defined.

Lemma limits_contain_samples_witness :
  exists L,
    limites salto_horizontal (trayectoria salto_horizontal (t_aterrizaje salto_horizontal))
      (fst (@mejor_angulo R R_scalar 25 (-1))) = Some L /\
    ymin L < y_land (trayectoria salto_horizontal (t_aterrizaje salto_horizontal)) /\
    forall y, In y (tr_y (trayectoria salto_horizontal (t_aterrizaje salto_horizontal))) ->
      ymin L < y < ymax L.
Proof.
  apply (limits_contain_samples salto_horizontal _ _ (snd (@mejor_angulo R R_scalar 25 (-1)))).
  rewrite salto_horizontal_flies. now destruct (mejor_angulo 25 (-1)).
Defined.

(** The default speed and height, launched straight up over a flat ramp. *)
Lemma straight_up_lands_at_start_witness :
  exists tr best, simula (mk_inputs 25 90 0 20) = Flight tr best /\ x_land tr = 0 /\ y_land tr = 20.
Proof. apply straight_up_lands_at_start. lra. Defined.

Lemma lands_behind_start_witness :
  exists tr best, simula (mk_inputs 25 120 (-1) 20) = Flight tr best /\ x_land tr < 0.
Proof. apply lands_behind_start. lra. Defined.
