(* ===== verification/Optimum.v ===== *)
(** * The sweep against the true optimum (src/sky.py lines 52, 60, 64, 67-79)

    The summary of lines 124-126 shows the user's landing distance beside
    the sweep's best distance; the spec reads the pair as "the optimal
    angle is at least as good as the arbitrary chosen angle".  The sweep
    only scans the grid [np.linspace(1, 80, 200)].  The landing distance of
    a launch angle [a] evaluates the same physics as a sweep candidate
    ([candidate_dist_launch]); on the default descending ramp [m = -1] it
    is [v0^2 / g * (1 + sin 2a + cos 2a)], whose maximum over [(0, 90)]
    degrees is reached at [22.5] degrees only.  [22.5] is not on the grid,
    so a user who types [22.5] lands strictly farther, by the [distancia]
    of line 123, than the best distance the sweep reports
    ([grid_misses_optimum]).

    On a steep ascending ramp ([m >= 6], beyond [tan 80]) no candidate of
    [[1, 80]] lands at a positive time ([candidate_steep], from
    [cos 80 > 0.17] through the triple-angle identity), so the sweep
    returns its initial [(0, 0)], while a launch at 85 degrees flies
    ([steep_ramp_sentinel]).  Line 81 then sets [xmax = 0 + 20], and at
    70 m/s or more the 85-degree launch lands beyond it: the landing point
    is outside the axes ([landing_outside_view]).

    The spec's end-to-end scenario (25, 22.8, 1, 20) holds at the reals:
    a flight, a best angle in [[1, 80]] and a best distance above the
    user's, with the landing distance between 153 and 154 m
    ([default_scenario]). *)

From Stdlib Require Import ZArith Reals Lra List Lia.
From S2P Require Import Prelude RealInst Linspace Trajectory Sweep Engine.
Import ListNotations.

(** The distance of line 123, [distancia = x_land - x0], for the inputs
    [i]: [x_land] is the last sample [x[-1]] of line 63. *)
Definition distancia (i : inputs R) : R := (x_land (trayectoria i (t_aterrizaje i)) - x0)%R.

(** The loop body of lines 71-76 computes, for a candidate angle, the
    landing time and distance of lines 48-52 and 60-64 for that angle. *)
Lemma candidate_dist_launch {T} `{Scalar T} (v m' a hh : T) :
  candidate_dist v m' a =
  let i := mk_inputs v a m' hh in
  if (#0 <! t_aterrizaje i)%sc then Some (pos_x i (t_aterrizaje i)) else None.
Proof. reflexivity. Qed.

Local Open Scope R_scope.

(** ** Trigonometry *)

(** [sin u + cos u] reaches [sqrt 2] on [(0, PI)] only at [PI / 4]. *)
Lemma sin_plus_cos_lt u :
  0 < u < PI -> u <> PI / 4 -> sin u + cos u < sqrt 2.
Proof.
  intros Hu Hne.
  assert (Hsc : sin u <> cos u).
  { intros E. apply Hne.
    assert (Hz : sin (u - PI / 4) = 0).
    { rewrite sin_minus, sin_PI4, cos_PI4, E. ring. }
    destruct (sin_eq_0_0 _ Hz) as [k Hk].
    assert (Hk1 : -1 < IZR k < 1).
    { pose proof PI_RGT_0. split; [apply (Rmult_lt_reg_r PI) | apply (Rmult_lt_reg_r PI)]; lra. }
    destruct Hk1 as [Hlo Hhi]. apply lt_IZR in Hlo, Hhi.
    assert (k = 0%Z) by lia. subst k. lra. }
  assert (Hsq : (sin u + cos u) * (sin u + cos u) < 2).
  { pose proof (sin2_cos2 u) as E. unfold Rsqr in E.
    assert (0 < Rsqr (sin u - cos u)) by (apply Rsqr_pos_lt; lra).
    unfold Rsqr in *. nra. }
  destruct (Rlt_or_le (sin u + cos u) (sqrt 2)) as [|Hge]; [assumption|].
  pose proof (sqrt_sqrt 2 ltac:(lra)). pose proof (sqrt_pos 2). nra.
Qed.

(** ** The landing distance on the default ramp *)

Section Descending.
Variable i : inputs R.
Hypothesis Hm : m i = -1.

Local Abbreviation th := (angulo i * (PI / 180)).

(** With [m = -1] the landing distance is [v0^2 / g * (1 + sin 2a + cos 2a)]. *)
Lemma landing_dist_m1 :
  pos_x i (t_aterrizaje i) = v0 i ^ 2 / (981 / 100) * (1 + (sin (2 * th) + cos (2 * th))).
Proof. rewrite pos_x_R, t_aterrizaje_R, Hm, sin_2a, cos_2a_cos. field. Qed.

(** A launch between 0 and 90 degrees at a positive speed lands at a
    positive time. *)
Lemma landing_time_pos_m1 :
  0 < v0 i -> 0 < angulo i < 90 -> 0 < t_aterrizaje i.
Proof.
  intros Hv Ha. rewrite t_aterrizaje_R, Hm. pose proof PI_RGT_0.
  assert (0 < sin th) by (apply sin_gt_0; nra).
  assert (0 < cos th) by (apply cos_gt_0; nra).
  apply Rdiv_pos; nra.
Qed.
End Descending.

(** ** The grid *)

(** [22.5] is not one of the 200 candidate angles: [1 + k * 79 / 199 = 22.5]
    would need [158 k = 8557]. *)
Lemma optimum_not_candidate : ~ In (45 / 2) (@candidatos R R_scalar).
Proof.
  change (@candidatos R R_scalar) with (linspace 1 80 200). intros Hin.
  apply (In_nth _ _ 0) in Hin as [k [Hk E]]. rewrite length_linspace in Hk.
  rewrite nth_linspace_R in E by (lia || lra). change (INR (Nat.pred 200)) with (INR 199) in E.
  rewrite !INR_IZR_INZ in E. change (Z.of_nat 199) with 199%Z in E.
  assert (Ek : IZR (Z.of_nat k * 158) = IZR 8557) by (rewrite mult_IZR; lra).
  apply eq_IZR in Ek. lia.
Qed.

(** [sin] and [cos] at the optimum [2 * 22.5] degrees. *)
Lemma sin_plus_cos_optimum : sin (2 * (45 / 2 * (PI / 180))) + cos (2 * (45 / 2 * (PI / 180))) = sqrt 2.
Proof.
  replace (2 * (45 / 2 * (PI / 180))) with (PI / 4) by field. rewrite sin_PI4, cos_PI4.
  assert (Hs : sqrt 2 * sqrt 2 = 2) by (apply sqrt_sqrt; lra).
  assert (0 < sqrt 2) by (apply sqrt_lt_R0; lra).
  apply (Rmult_eq_reg_r (sqrt 2)); [|lra]. field_simplify; lra.
Qed.

(** The distance of a candidate angle other than [22.5] is below the
    distance at [22.5]. *)
Lemma candidate_below_optimum (v b : R) :
  0 < v -> 1 <= b <= 80 -> b <> 45 / 2 ->
  v ^ 2 / (981 / 100) * (1 + (sin (2 * (b * (PI / 180))) + cos (2 * (b * (PI / 180)))))
  < v ^ 2 / (981 / 100) * (1 + sqrt 2).
Proof.
  intros Hv Hb Hne. pose proof PI_RGT_0.
  assert (Hlt : sin (2 * (b * (PI / 180))) + cos (2 * (b * (PI / 180))) < sqrt 2).
  { apply sin_plus_cos_lt; [split; nra|].
    intros E. apply Hne. apply (Rmult_eq_reg_r (PI / 90)); [|intros Z; lra].
    field_simplify in E. field_simplify. lra. }
  assert (0 < v ^ 2 / (981 / 100)) by (apply Rdiv_pos; nra). nra.
Qed.

(** ** The user beats the sweep *)

(** C25: on the default descending ramp ([pendiente = 1], [m = -1]), a
    launch at [22.5] degrees at any positive speed and any height is a
    flight whose landing distance [x_land - x0], shown as "Distancia" in
    the summary, is strictly greater than the best distance the sweep
    reports beside it: the grid [np.linspace(1, 80, 200)] misses the
    optimum. *)
Theorem grid_misses_optimum (v hh : R) :
  0 < v ->
  simula (mk_inputs v (45 / 2) (-1) hh)
  = Flight (trayectoria (mk_inputs v (45 / 2) (-1) hh) (t_aterrizaje (mk_inputs v (45 / 2) (-1) hh)))
           (mejor_angulo v (-1)) /\
  fst (mejor_angulo v (-1)) < distancia (mk_inputs v (45 / 2) (-1) hh).
Proof.
  intros Hv. set (i := mk_inputs v (45 / 2) (-1) hh).
  assert (Ht : 0 < t_aterrizaje i) by (apply landing_time_pos_m1; cbn; [reflexivity | exact Hv | lra]).
  split; [apply simula_flight; rsimpl; rcmp; reflexivity|]. unfold distancia.
  destruct (trayectoria_landing i (t_aterrizaje i)) as [-> _].
  rewrite (landing_dist_m1 i eq_refl). cbn [angulo v0 i]. rewrite sin_plus_cos_optimum.
  change (@x0 R R_scalar) with 0. rewrite Rminus_0_r.
  assert (0 < sqrt 2) by (apply sqrt_lt_R0; lra).
  destruct (mejor_angulo_first_argmax v (-1))
    as [_ [E|(pre & b & post & Hl & Hb & Hsnd & Hpos & _)]].
  - rewrite E. cbn [fst]. assert (0 < v ^ 2 / (981 / 100)) by (apply Rdiv_pos; nra). nra.
  - rewrite (candidate_dist_launch v (-1) b hh) in Hb. cbv zeta in Hb.
    rewrite (landing_dist_m1 (mk_inputs v b (-1) hh) eq_refl) in Hb. cbn [angulo v0] in Hb.
    destruct (_ <! _)%sc in Hb; [|discriminate]. injection Hb as <-.
    assert (Hin : In b (@candidatos R R_scalar)) by (rewrite Hl; apply in_or_app; right; now left).
    apply candidate_below_optimum; [exact Hv | |].
    + apply (linspace_bounds 1 80 ltac:(lra) 200); [lia | exact Hin].
    + intros ->. exact (optimum_not_candidate Hin).
Qed.

(** The default speed and height. *)
Lemma grid_misses_optimum_witness :
  0 < 25 /\
  fst (mejor_angulo 25 (-1)) < distancia (mk_inputs 25 (45 / 2) (-1) 20).
Proof.
  assert (H25 : 0 < 25) by lra. split; [exact H25|]. exact (proj2 (grid_misses_optimum 25 20 H25)).
Defined.

(** ** A steep ascending ramp: the sweep finds nothing *)

Lemma cos_3a x : cos (3 * x) = 4 * cos x ^ 3 - 3 * cos x.
Proof.
  replace (3 * x) with (2 * x + x) by ring. rewrite cos_plus, cos_2a_cos, sin_2a.
  pose proof (sin2 x) as S. unfold Rsqr in S.
  replace (2 * sin x * cos x * sin x) with (2 * cos x * (sin x * sin x)) by ring.
  rewrite S. ring.
Qed.

(** [cos 80 > 0.17]: [c = cos 80] solves [4 c^3 - 3 c = cos 240 = -1/2]
    and the cubic has no root in [[0, 0.17]]. *)
Lemma cos_80_lower : 17 / 100 < cos (4 * PI / 9).
Proof.
  pose proof PI_RGT_0.
  assert (Hc0 : 0 < cos (4 * PI / 9)) by (apply cos_gt_0; lra).
  assert (H3 : 4 * cos (4 * PI / 9) ^ 3 - 3 * cos (4 * PI / 9) = - (1 / 2)).
  { rewrite <- cos_3a. replace (3 * (4 * PI / 9)) with (PI / 3 + PI) by field.
    rewrite neg_cos, cos_PI3. reflexivity. }
  set (c := cos (4 * PI / 9)) in *.
  destruct (Rlt_or_le (17 / 100) c) as [|Hle]; [assumption|].
  assert (c * c <= 289 / 10000) by nra.
  assert (0 <= (17 / 100 - c) * (3 - 4 * (c * c + 17 / 100 * c + 289 / 10000)))
    by (apply Rmult_le_pos; lra).
  nra.
Qed.

(** Every candidate angle lands at a negative time on a ramp of slope
    [m >= 6]: [sin a <= 1 < 6 cos 80 <= m cos a]. *)
Lemma candidate_steep (v m a : R) :
  0 < v -> 6 <= m -> 1 <= a <= 80 -> candidate_dist v m a = None.
Proof.
  intros Hv Hm Ha. pose proof PI_RGT_0. pose proof cos_80_lower.
  set (th := a * (PI / 180)).
  assert (Hth : 0 < th <= 4 * PI / 9) by (unfold th; split; nra).
  assert (Hcos : cos (4 * PI / 9) <= cos th).
  { destruct (Req_dec th (4 * PI / 9)) as [->|Hne]; [lra|].
    left. apply cos_decreasing_1; lra. }
  assert (Hs : sin th <= 1) by apply SIN_bound.
  unfold candidate_dist, landing_time. cbv zeta. rsimpl. fold th.
  rewrite (proj2 (Rltb_false _ _)); [reflexivity|].
  assert (Hc : 17 / 100 < cos th) by lra.
  assert (0 < m * cos th - sin th) by nra.
  assert (0 <= v * (m * cos th - sin th)) by (apply Rmult_le_pos; lra).
  unfold Rdiv. assert (0 < / (981 / 100)) by (apply Rinv_0_lt_compat; lra). nra.
Qed.

Lemma mejor_angulo_steep (v m : R) : 0 < v -> 6 <= m -> mejor_angulo v m = (0, 0).
Proof.
  intros Hv Hm. rewrite mejor_angulo_improve. apply fold_left_fixed.
  intros a Ha. unfold improve. rewrite candidate_steep; [reflexivity|exact Hv|exact Hm|].
  apply (linspace_bounds 1 80 ltac:(lra) 200); [lia | exact Ha].
Qed.

(** At 85 degrees, [sin 85 > 0.99] and [cos 85 < 1/9]: a launch at 85
    degrees lands at a positive time on a ramp of slope 6. *)
Lemma sin_cos_85 : 99 / 100 < sin (85 * (PI / 180)) /\ 0 < cos (85 * (PI / 180)) < 1 / 9.
Proof.
  pose proof PI_RGT_0. pose proof PI_4.
  replace (85 * (PI / 180)) with (PI / 2 - 2 * (PI / 72)) by field.
  rewrite sin_shift, cos_shift, cos_2a_sin.
  assert (0 < sin (PI / 72)) by (apply sin_gt_0; lra).
  assert (sin (PI / 72) < PI / 72) by (apply sin_lt_x; lra).
  assert (0 < sin (2 * (PI / 72))) by (apply sin_gt_0; lra).
  assert (sin (2 * (PI / 72)) < 2 * (PI / 72)) by (apply sin_lt_x; lra).
  split; [nra | lra].
Qed.

Lemma landing_time_85 (v hh : R) : 0 < v -> 0 < t_aterrizaje (mk_inputs v 85 6 hh).
Proof.
  intros Hv. rewrite t_aterrizaje_R. cbn [v0 angulo m]. destruct sin_cos_85 as (Hs & Hc0 & Hc).
  apply Rdiv_pos; [|lra]. nra.
Qed.

(** C29: on a steep ascending ramp (slope field [-6], so [m = 6]) no
    candidate angle of [[1, 80]] lands at a positive time, so the summary
    reports the sentinel angle [0] and distance [0], outside the scanned
    range, although a launch at 85 degrees, at any positive speed and
    height, is a flight that lands at a positive distance. *)
Theorem steep_ramp_sentinel (v hh : R) :
  0 < v ->
  simula (mk_inputs v 85 6 hh)
  = Flight (trayectoria (mk_inputs v 85 6 hh) (t_aterrizaje (mk_inputs v 85 6 hh))) (0, 0) /\
  0 < distancia (mk_inputs v 85 6 hh).
Proof.
  intros Hv. pose proof (landing_time_85 v hh Hv) as Ht. split.
  - rewrite simula_flight by (rsimpl; rcmp; reflexivity). cbn [v0 m].
    now rewrite mejor_angulo_steep by lra.
  - unfold distancia. destruct (trayectoria_landing (mk_inputs v 85 6 hh) (t_aterrizaje (mk_inputs v 85 6 hh)))
      as [-> _].
    rewrite pos_x_R. cbn [v0 angulo]. change (@x0 R R_scalar) with 0.
    destruct sin_cos_85 as (_ & Hc0 & _).
    assert (0 < v * cos (85 * (PI / 180))) by nra. nra.
Qed.

Lemma steep_ramp_sentinel_witness :
  0 < 25 /\
  simula (mk_inputs 25 85 6 20)
  = Flight (trayectoria (mk_inputs 25 85 6 20) (t_aterrizaje (mk_inputs 25 85 6 20))) (0, 0).
Proof.
  assert (H25 : 0 < 25) by lra. split; [exact H25|]. exact (proj1 (steep_ramp_sentinel 25 20 H25)).
Defined.

(** ** A steep ascending ramp: the landing point leaves the axes *)

Lemma sin_3a x : sin (3 * x) = 3 * sin x - 4 * sin x ^ 3.
Proof.
  replace (3 * x) with (2 * x + x) by ring. rewrite sin_plus, sin_2a, cos_2a_sin.
  assert (C : cos x * cos x = 1 - sin x * sin x)
    by (pose proof (sin2_cos2 x) as S; unfold Rsqr in S; lra).
  replace (2 * sin x * cos x * cos x) with (2 * sin x * (cos x * cos x)) by ring.
  rewrite C. ring.
Qed.

(** [cos 85 = sin 5 >= sin 10 / 2 >= sin 30 / 6 = 1/12], through
    [sin 2u <= 2 sin u] and [sin 3u <= 3 sin u]. *)
Lemma cos_85_lower : 1 / 12 <= cos (85 * (PI / 180)).
Proof.
  pose proof PI_RGT_0. pose proof PI_4.
  replace (85 * (PI / 180)) with (PI / 2 - PI / 36) by field. rewrite cos_shift.
  assert (A : sin (PI / 18) = 2 * sin (PI / 36) * cos (PI / 36))
    by (rewrite <- sin_2a; f_equal; field).
  assert (B : sin (PI / 6) = 3 * sin (PI / 18) - 4 * sin (PI / 18) ^ 3)
    by (rewrite <- sin_3a; f_equal; field).
  rewrite sin_PI6 in B.
  assert (0 <= sin (PI / 18)) by (apply sin_ge_0; lra).
  assert (0 <= sin (PI / 36)) by (apply sin_ge_0; lra).
  pose proof (COS_bound (PI / 36)) as [_ Hc].
  assert (1 / 6 <= sin (PI / 18)) by nra.
  nra.
Qed.

(** On a trajectory of 300 samples the limits of lines 81-83 exist and
    [xmax = mejor_dist + 20]. *)
Lemma limites_xmax (i : inputs R) t md :
  exists L, limites i (trayectoria i t) md = Some L /\ xmax L = md + 20.
Proof.
  destruct (trayectoria_lengths i t) as (_ & _ & Ly). unfold limites.
  destruct (tr_y (trayectoria i t)) as [|y ys]; [discriminate|]. cbn [np_min np_max].
  eexists; split; [reflexivity|]. reflexivity.
Qed.

(** C16: on the steep ascending ramp (slope field [-6]) a launch at 85
    degrees at 70 m/s or more flies, the sweep finds nothing, so line 81
    sets [xmax = 0 + 20], and the landing distance of line 123 exceeds
    it: the x-range [[0, xmax]] of line 88 ends before the landing point,
    and the landing marker of line 107 and the end of the trajectory are
    drawn outside the axes. *)
Theorem landing_outside_view (v hh : R) :
  70 <= v ->
  exists L,
    simula (mk_inputs v 85 6 hh)
    = Flight (trayectoria (mk_inputs v 85 6 hh) (t_aterrizaje (mk_inputs v 85 6 hh))) (0, 0) /\
    limites (mk_inputs v 85 6 hh) (trayectoria (mk_inputs v 85 6 hh) (t_aterrizaje (mk_inputs v 85 6 hh))) 0
    = Some L /\
    xmax L = 20 /\ xmax L < distancia (mk_inputs v 85 6 hh).
Proof.
  intros Hv. destruct (limites_xmax (mk_inputs v 85 6 hh) (t_aterrizaje (mk_inputs v 85 6 hh)) 0)
    as (L & HL & Hx).
  exists L. split; [|split; [exact HL|]].
  - rewrite simula_flight by (pose proof (landing_time_85 v hh ltac:(lra)); rsimpl; rcmp; reflexivity).
    cbn [v0 m]. now rewrite mejor_angulo_steep by lra.
  - rewrite Hx, Rplus_0_l. split; [reflexivity|]. unfold distancia.
    destruct (trayectoria_landing (mk_inputs v 85 6 hh) (t_aterrizaje (mk_inputs v 85 6 hh))) as [-> _].
    rewrite pos_x_R, t_aterrizaje_R. cbn [v0 angulo m]. change (@x0 R R_scalar) with 0.
    destruct sin_cos_85 as (Hs & Hc0 & Hc). pose proof cos_85_lower as Hl.
    set (c := cos (85 * (PI / 180))) in *. set (sn := sin (85 * (PI / 180))) in *.
    assert (P : 1 / 12 * (99 / 100 - 6 / 9) <= c * (sn - 6 * c)) by nra.
    assert (E : v * c * (2 * (v * sn - 6 * (v * c)) / (981 / 100)) - 0
                = 200 / 981 * (v * v) * (c * (sn - 6 * c))) by field.
    rewrite E. nra.
Qed.

(** Speed 70 from the default height. *)
Lemma landing_outside_view_witness :
  exists L,
    limites (mk_inputs 70 85 6 20) (trayectoria (mk_inputs 70 85 6 20) (t_aterrizaje (mk_inputs 70 85 6 20))) 0
    = Some L /\ xmax L < distancia (mk_inputs 70 85 6 20).
Proof.
  destruct (landing_outside_view 70 20 ltac:(lra)) as (L & _ & HL & _ & Hlt).
  exists L. split; [exact HL | exact Hlt].
Defined.

(** ** The spec's end-to-end scenario *)

(** [sin u + cos u = sqrt 2 * cos (u - 45)]. *)
Lemma sin_plus_cos_shift u : sin u + cos u = sqrt 2 * cos (u - PI / 4).
Proof.
  rewrite cos_minus, cos_PI4, sin_PI4.
  assert (0 < sqrt 2) by (apply sqrt_lt_R0; lra). field. lra.
Qed.

(** [1 - x^2 / 2 < cos x] for [0 < x <= 2]. *)
Lemma cos_lower_quadratic x : 0 < x <= 2 -> 1 - x * x / 2 < cos x.
Proof.
  intros Hx. replace x with (2 * (x / 2)) at 3 by field. rewrite cos_2a_sin.
  pose proof PI2_1.
  assert (0 < sin (x / 2)) by (apply sin_gt_0; lra).
  assert (sin (x / 2) < x / 2) by (apply sin_lt_x; lra). nra.
Qed.

Lemma sqrt2_bounds : 1414 / 1000 < sqrt 2 < 14143 / 10000.
Proof.
  assert (Hs : sqrt 2 * sqrt 2 = 2) by (apply sqrt_sqrt; lra).
  assert (0 <= sqrt 2) by apply sqrt_pos. split; nra.
Qed.

(** Candidate [k = 54] of the grid, [1 + 54 * 79 / 199 = 22.437...]. *)
Lemma candidate_54 :
  In (1 + 54 * (79 / 199)) (@candidatos R R_scalar).
Proof.
  change (@candidatos R R_scalar) with (linspace 1 80 200).
  replace (1 + 54 * (79 / 199)) with (nth 54 (linspace 1 80 200) 0).
  - apply nth_In. rewrite length_linspace. lia.
  - rewrite nth_linspace_R by (lia || lra). change (INR (Nat.pred 200)) with (INR 199).
    rewrite !INR_IZR_INZ. change (Z.of_nat 54) with 54%Z. change (Z.of_nat 199) with 199%Z. field.
Qed.

(** On the default ramp the distance at angle [a] is
    [v^2 / g * (1 + sqrt 2 * cos (2a - 45))]. *)
Lemma landing_dist_m1_shift (v a hh : R) :
  pos_x (mk_inputs v a (-1) hh) (t_aterrizaje (mk_inputs v a (-1) hh))
  = v ^ 2 / (981 / 100) * (1 + sqrt 2 * cos (2 * (a * (PI / 180)) - PI / 4)).
Proof. rewrite (landing_dist_m1 (mk_inputs v a (-1) hh) eq_refl). cbn. now rewrite sin_plus_cos_shift. Qed.

(** The default jump lands at [625 / g * (1 + sqrt 2 * cos 0.6)]. *)
Lemma default_user_distance :
  distancia (mk_inputs 25 (228 / 10) (-1) 20)
  = 25 ^ 2 / (981 / 100) * (1 + sqrt 2 * cos (PI / 300)).
Proof.
  unfold distancia. set (i := mk_inputs 25 (228 / 10) (-1) 20).
  destruct (trayectoria_landing i (t_aterrizaje i)) as [-> _]. subst i.
  rewrite landing_dist_m1_shift. change (@x0 R R_scalar) with 0.
  replace (2 * (228 / 10 * (PI / 180)) - PI / 4) with (PI / 300) by field. ring.
Qed.

(** Candidate 54 lands at [625 / g * (1 + sqrt 2 * cos (25/199 degrees))]. *)
Lemma candidate_54_dist :
  candidate_dist 25 (-1) (1 + 54 * (79 / 199))
  = Some (25 ^ 2 / (981 / 100) * (1 + sqrt 2 * cos (5 * PI / 7164))).
Proof.
  pose proof PI_RGT_0. set (b := 1 + 54 * (79 / 199)).
  assert (Htb : 0 < t_aterrizaje (mk_inputs 25 b (-1) 20))
    by (apply landing_time_pos_m1; cbn; [reflexivity | lra | unfold b; lra]).
  rewrite (candidate_dist_launch 25 (-1) b 20). cbv zeta.
  change (#0)%sc with (@s_of_Z R R_scalar 0). cbn [s_ltb s_of_Z R_scalar].
  rewrite (proj2 (Rltb_iff _ _) Htb), landing_dist_m1_shift.
  replace (2 * (b * (PI / 180)) - PI / 4) with (- (5 * PI / 7164)) by (unfold b; field).
  now rewrite cos_neg.
Qed.

(** C30: the spec's end-to-end scenario, speed 25, angle 22.8, slope 1,
    height 20, at the exact reals: a flight with a positive landing time,
    a landing distance between 153 and 154 m, a best angle in [[1, 80]]
    and a best distance strictly above the user's distance. *)
Theorem default_scenario :
  let i := mk_inputs 25 (228 / 10) (-1) 20 in
  simula i = Flight (trayectoria i (t_aterrizaje i)) (mejor_angulo 25 (-1)) /\
  0 < t_aterrizaje i /\
  153 < distancia i < 154 /\
  1 <= snd (mejor_angulo 25 (-1)) <= 80 /\
  distancia i < fst (mejor_angulo 25 (-1)).
Proof.
  cbv zeta. rewrite default_user_distance.
  pose proof PI_RGT_0. pose proof PI_4. pose proof sqrt2_bounds.
  assert (Ht : 0 < t_aterrizaje (mk_inputs 25 (228 / 10) (-1) 20))
    by (apply landing_time_pos_m1; cbn; [reflexivity | lra | lra]).
  assert (Hcos : cos (PI / 300) < cos (5 * PI / 7164)) by (apply cos_decreasing_1; lra).
  assert (0 < cos (PI / 300)) by (apply cos_gt_0; lra).
  assert (0 < 25 ^ 2 / (981 / 100)) by (apply Rdiv_pos; lra).
  pose proof (mejor_angulo_first_argmax 25 (-1)) as A.
  pose proof (proj1 A _ _ candidate_54 candidate_54_dist) as Hbest.
  split; [apply simula_flight; rsimpl; rcmp; reflexivity|]. split; [exact Ht|]. split.
  - pose proof (cos_lower_quadratic (PI / 300) ltac:(split; lra)).
    pose proof (COS_bound (PI / 300)) as [_ Hc1].
    assert (PI / 300 * (PI / 300) <= 4 / 300 * (4 / 300)) by (apply Rmult_le_compat; lra).
    split; nra.
  - split; [|nra]. destruct (first_argmax_range _ _ A) as [E|[_ R]]; [|exact R].
    rewrite E in Hbest. cbn [fst] in Hbest. nra.
Qed.
