(* ===== verification/Binary64.v ===== *)
(** * The binary64 reading of the numeric interface

    [b64 L] reads every operation of [Scalar] as the IEEE-754 binary64
    operation of Rocq's primitive floats, the ones Python floats and numpy
    [float64] perform: correctly rounded [+ - * /], comparisons that are
    false on NaN, [np.pi] as the double nearest to pi.  [np.sin] and
    [np.cos] come from the platform's libm, which the program does not fix:
    they are the parameter [L].

    At this instance the guard of line 53 is an IEEE comparison, and a NaN
    typed into the speed field ([float("nan")] parses) is not rejected:
    [t_aterrizaje <= 0] is false for NaN, the engine reports a flight whose
    every sample is NaN, and the sweep finds no candidate
    ([nan_speed_not_rejected]).  [taylor_libm] is a stand-in libm that
    the later files use to evaluate concrete presses; no general theorem
    depends on it. *)

From Stdlib Require Import ZArith Floats List Lia.
From Stdlib Require Uint63.
From S2P Require Import Prelude Linspace Trajectory Sweep Engine.
Import ListNotations.

(** The two libm functions the program calls. *)
Record libm := mk_libm { fsin : float -> float; fcos : float -> float }.

(** Exact conversion of the small integers of the program. *)
Definition float_of_Z (z : Z) : float :=
  if (z <? 0)%Z then (- of_uint63 (Uint63.of_Z (- z)))%float else of_uint63 (Uint63.of_Z z).

(** [np.pi]: the double nearest to pi. *)
Definition np_pi : float := 0x1.921fb54442d18p+1%float.

Definition b64 (L : libm) : Scalar float := {|
  s_of_Z := float_of_Z; s_add := PrimFloat.add; s_sub := PrimFloat.sub;
  s_mul := PrimFloat.mul; s_div := PrimFloat.div; s_opp := PrimFloat.opp;
  s_ltb := PrimFloat.ltb; s_leb := PrimFloat.leb; s_eqb := PrimFloat.eqb;
  s_isnan := is_nan; s_isfinite := is_finite; s_pi := np_pi;
  s_sin := fsin L; s_cos := fcos L |}.

(** ** NaN absorbs every arithmetic operation and fails every comparison *)

Ltac spec_cases x := destruct (Prim2SF x) as [s|s| |s mx ex]; try destruct s; reflexivity.

Lemma nan_mul_l x : (nan * x)%float = nan.
Proof. apply Prim2SF_inj. rewrite FloatAxioms.mul_spec. spec_cases x. Qed.
Lemma nan_mul_r x : (x * nan)%float = nan.
Proof. apply Prim2SF_inj. rewrite FloatAxioms.mul_spec. spec_cases x. Qed.
Lemma nan_add_l x : (nan + x)%float = nan.
Proof. apply Prim2SF_inj. rewrite FloatAxioms.add_spec. spec_cases x. Qed.
Lemma nan_add_r x : (x + nan)%float = nan.
Proof. apply Prim2SF_inj. rewrite FloatAxioms.add_spec. spec_cases x. Qed.
Lemma nan_sub_l x : (nan - x)%float = nan.
Proof. apply Prim2SF_inj. rewrite FloatAxioms.sub_spec. spec_cases x. Qed.
Lemma nan_sub_r x : (x - nan)%float = nan.
Proof. apply Prim2SF_inj. rewrite FloatAxioms.sub_spec. spec_cases x. Qed.
Lemma nan_div_l x : (nan / x)%float = nan.
Proof. apply Prim2SF_inj. rewrite FloatAxioms.div_spec. spec_cases x. Qed.
Lemma leb_nan_l x : (nan <=? x)%float = false.
Proof. rewrite FloatAxioms.leb_spec. spec_cases x. Qed.
Lemma ltb_nan_r x : (x <? nan)%float = false.
Proof. rewrite FloatAxioms.ltb_spec. spec_cases x. Qed.

Create Rewrite HintDb b64_nan.
#[export] Hint Rewrite nan_mul_l nan_mul_r nan_add_l nan_add_r nan_sub_l nan_sub_r nan_div_l
  leb_nan_l ltb_nan_r : b64_nan.

(** ** A NaN speed passes the guard of line 53 *)

Section NanSpeed.
Variables (L : libm) (mm : float).

Lemma landing_time_nan c s :
  @landing_time float (b64 L) (nan * c)%float (nan * s)%float mm = nan.
Proof. unfold landing_time. cbn [b64 s_mul s_sub s_div]. now autorewrite with b64_nan. Qed.

(** No candidate of the sweep survives the guard [t_at > 0]. *)
Lemma sweep_step_nan best ang : @sweep_step float (b64 L) nan mm best ang = best.
Proof.
  unfold sweep_step. cbv zeta. cbn [b64 s_mul s_sin s_cos s_ltb].
  rewrite landing_time_nan, ltb_nan_r. reflexivity.
Qed.

Lemma mejor_angulo_nan : @mejor_angulo float (b64 L) nan mm = (float_of_Z 0, float_of_Z 0).
Proof. unfold mejor_angulo. apply fold_left_fixed. intros; apply sweep_step_nan. Qed.

(** Every sampled height of a NaN launch is NaN, whatever the time. *)
Lemma pos_y_nan a hh t : @pos_y float (b64 L) (mk_inputs nan a mm hh) t = nan.
Proof. unfold pos_y, v0y. cbn [b64 s_add s_sub s_mul v0]. now autorewrite with b64_nan. Qed.

(** Lines 82-84 on a NaN launch: [np.min] and [np.max] of the NaN heights
    are NaN, so [ymin] is NaN; [max(h + 10, nan)] keeps [h + 10]. *)
Lemma limites_nan a hh :
  let i := mk_inputs nan a mm hh in
  @limites float (b64 L) i (@trayectoria float (b64 L) i (@t_aterrizaje float (b64 L) i))
           (float_of_Z 0)
  = Some (mk_limits (float_of_Z 0 + float_of_Z 20)%float nan (hh + float_of_Z 10)%float).
Proof.
  cbv zeta. unfold limites, np_min, np_max.
  destruct (@trayectoria_landing float (b64 L) (mk_inputs nan a mm hh)
              (@t_aterrizaje float (b64 L) (mk_inputs nan a mm hh))) as [_ Hy].
  cbn [trayectoria tr_y] in Hy |- *.
  destruct (@linspace float (b64 L) _ _ _) as [|t0 ts] eqn:E; [now apply linspace_samples_nonempty in E|].
  rewrite Hy. cbn [map]. rewrite !pos_y_nan.
  rewrite !fold_left_fixed
    by (intros y _; cbn [b64 s_leb s_isnan]; now destruct (PrimFloat.leb _ _)).
  unfold py_min, py_max. cbn [b64 s_add s_sub s_ltb h].
  now rewrite nan_add_l, !ltb_nan_r, nan_sub_l.
Qed.
End NanSpeed.

(** C15: the spec reserves [NoIntersection] for parameters with no valid
    intersection, but [float("nan")] in the speed field is not rejected: the
    guard [t_aterrizaje <= 0] is false for NaN, so the engine reports a
    flight whose landing point is NaN, and the sweep reports the sentinel
    [(0, 0)]. *)
Theorem nan_speed_not_rejected (L : libm) (a mm hh : float) :
  exists tr,
    @simula float (b64 L) (mk_inputs nan a mm hh) = Flight tr (float_of_Z 0, float_of_Z 0) /\
    is_nan (x_land tr) = true /\ is_nan (y_land tr) = true.
Proof.
  set (i := mk_inputs nan a mm hh).
  assert (Ht : @t_aterrizaje float (b64 L) i = nan) by apply landing_time_nan.
  exists (@trayectoria float (b64 L) i nan). split; [|split].
  - rewrite (@simula_flight float (b64 L) i).
    + change (v0 i) with nan. change (m i) with mm. now rewrite Ht, (mejor_angulo_nan L mm).
    + rewrite Ht. apply leb_nan_l.
  - rewrite (proj1 (trayectoria_landing i nan)). unfold pos_x, v0x.
    cbn [b64 s_add s_mul]. cbn [v0 i]. now autorewrite with b64_nan.
  - rewrite (proj2 (trayectoria_landing i nan)). unfold pos_y, v0y.
    cbn [b64 s_add s_sub s_mul]. cbn [v0 i]. now autorewrite with b64_nan.
Qed.

(** A stand-in libm for evaluating concrete presses: truncated Taylor
    series, exact at 0. *)
Definition taylor_libm : libm := mk_libm
  (fun x => x - x * x * x / 6 + x * x * x * x * x / 120)%float
  (fun x => 1 - x * x / 2 + x * x * x * x / 24)%float.


