(* ===== verification/Parse.v ===== *)
(** * Python's [float(str)] (src/sky.py lines 32-35)

    The handler reads its four numbers with [float(entry.get())].  This file
    models CPython's conversion of a [str] ([PyFloat_FromString]) on ASCII
    text: underscores are removed by [_Py_string_to_number_with_underscores]
    (only between digits, [strip_underscores]), then
    [float_from_string_inner] strips the surrounding whitespace and reads
    the text with [_Py_dg_strtod] ([dg_strtod]) or, when that reads
    nothing, with [_Py_parse_inf_or_nan] ([inf], [infinity], [nan], any
    case); the whole stripped text must be consumed.  [dg_strtod] follows
    [dtoa.c]: an optional sign, leading zeros skipped ([skip_zeros]), the
    significant digits, a point and the fraction ([read_fraction], whose
    zeros are skipped too when there is no significant integer digit), an
    exponent with its leading zeros skipped and more than 9 other digits
    or a value above [MAX_ABS_EXP] capped ([read_exponent]), and the parse
    error of a text with no digit or more than [MAX_DIGITS] significant or
    fraction digits.  The result is a [pylit]; its value is exact at the
    reals and correctly rounded to binary64, as [_Py_dg_strtod] rounds.
    Non-ASCII digits and spaces, which CPython first transliterates, are
    outside the model.

    A text of digits with a decimal point is read as the exact decimal
    ([parse_float_signed_decimal]); an underscore between two digits is ignored
    ([parse_float_underscore]); blank fields and stray underscores are
    rejected ([parse_float_rejects]).  [Grammar] shows that the texts
    accepted are exactly those of the reference manual's grammar, and
    gives the value of every decimal literal. *)

From Stdlib Require Import ZArith Ascii String List Bool Lia Reals Floats.
From S2P Require Import Prelude RealInst Binary64.
Import ListNotations.

(** What [float(s)] returns on the text of an entry, [None] for the
    [ValueError] of a non-numeric text. *)
Class PyFloat (T : Type) := py_float : string -> option T.

(** A parsed literal: [(-1)^neg * mant * 10^exp], an infinity, or NaN. *)
Inductive pylit :=
| PDec (neg : bool) (mant : N) (exp : Z)
| PInf (neg : bool)
| PNan.

Definition is_digit (c : ascii) : bool :=
  let n := nat_of_ascii c in (48 <=? n) && (n <=? 57).

Definition digit_val (c : ascii) : N := N.of_nat (nat_of_ascii c - 48).

(** [Py_ISSPACE]: space, tab, newline, vertical tab, form feed, return. *)
Definition is_space (c : ascii) : bool :=
  match nat_of_ascii c with 32 | 9 | 10 | 11 | 12 | 13 => true | _ => false end.

Definition is_underscore (c : ascii) : bool := Nat.eqb (nat_of_ascii c) 95.

(** [_Py_string_to_number_with_underscores]: an underscore must follow a
    digit and be followed by a digit; the others are copied. *)
Fixpoint strip_underscores (prev : ascii) (l : list ascii) : option (list ascii) :=
  match l with
  | [] => if is_underscore prev then None else Some []
  | c :: r =>
      if is_underscore c then
        if is_digit prev then strip_underscores c r else None
      else if is_underscore prev && negb (is_digit c) then None
      else option_map (cons c) (strip_underscores c r)
  end.

Fixpoint drop_spaces (l : list ascii) : list ascii :=
  match l with
  | c :: r => if is_space c then drop_spaces r else l
  | [] => []
  end.

(** Read digits greedily, accumulating their value onto [acc]. *)
Fixpoint read_digits (l : list ascii) (acc : N) (n : nat) : N * nat * list ascii :=
  match l with
  | c :: r => if is_digit c then read_digits r (acc * 10 + digit_val c) (S n) else (acc, n, l)
  | [] => (acc, n, [])
  end.

Definition read_sign (l : list ascii) : bool * list ascii :=
  match l with
  | c :: r => if Nat.eqb (nat_of_ascii c) 45 then (true, r)
              else if Nat.eqb (nat_of_ascii c) 43 then (false, r) else (false, l)
  | [] => (false, l)
  end.

(** [MAX_ABS_EXP] of CPython's [dtoa.c]. *)
Definition max_abs_exp : N := 1100000000.

(** [c == '0']. *)
Definition is_zero (c : ascii) : bool := Nat.eqb (nat_of_ascii c) 48.

(** Skip the zeros at the head of the text, counting them onto [n]: the
    loops [while (c == '0') c = *++s;] of [_Py_dg_strtod]. *)
Fixpoint skip_zeros (l : list ascii) (n : nat) : nat * list ascii :=
  match l with
  | c :: r => if is_zero c then skip_zeros r (S n) else (n, l)
  | [] => (n, [])
  end.

(** The exponent part of [_Py_dg_strtod]: [e] or [E], an optional sign,
    leading zeros, then the other digits; more than 9 of these, or a value
    above [MAX_ABS_EXP], give [MAX_ABS_EXP].  Without any digit nothing is
    consumed. *)
Definition read_exponent (l : list ascii) : Z * list ascii :=
  match l with
  | c :: r =>
      if Nat.eqb (nat_of_ascii c) 101 || Nat.eqb (nat_of_ascii c) 69 then
        let '(eneg, r1) := read_sign r in
        let '(z, r2) := skip_zeros r1 0 in
        let '(v, n, r3) := read_digits r2 0 0 in
        if Nat.eqb n 0 && Nat.eqb z 0 then (0%Z, l)
        else
          let v := if (9 <? n)%nat || (max_abs_exp <? v)%N then max_abs_exp else v in
          ((if eneg then - Z.of_N v else Z.of_N v)%Z, r3)
      else (0%Z, l)
  | [] => (0%Z, l)
  end.

(** [MAX_DIGITS] of CPython's [dtoa.c]: a literal with more significant
    digits, or more fraction digits, is a parse error. *)
Definition max_digits : N := 1000000000.

(** The block of [_Py_dg_strtod] after the integer digits: a point and the
    fraction digits, whose leading zeros are skipped (and counted apart)
    when the integer part had no significant digit.  It returns the zeros
    skipped, the mantissa so far, the number of fraction digits read and
    the rest. *)
Definition read_fraction (ni : nat) (ip : N) (l3 : list ascii) : nat * N * nat * list ascii :=
  match l3 with
  | c :: r =>
      if Nat.eqb (nat_of_ascii c) 46 then
        let '(zf, r1) := if Nat.eqb ni 0 then skip_zeros r 0 else (0, r) in
        let '(mant, k, r2) := read_digits r1 ip 0 in (zf, mant, k, r2)
      else (0, ip, 0, l3)
  | [] => (0, ip, 0, l3)
  end.

(** [_Py_dg_strtod]: an optional sign, leading zeros, the significant
    digits of the integer part, then the fraction, then an exponent.
    [None] when there is no digit at all, or more than [MAX_DIGITS]
    significant or fraction digits. *)
Definition dg_strtod (l : list ascii) : option (pylit * list ascii) :=
  let '(neg, l1) := read_sign l in
  let '(lz, l2) := skip_zeros l1 0 in
  let '(ip, ni, l3) := read_digits l2 0 0 in
  let '(lzf, mant, nf, l4) := read_fraction ni ip l3 in
  let ndigits := (ni + nf)%nat in
  let fraclen := (lzf + nf)%nat in
  if Nat.eqb ndigits 0 && Nat.eqb (lz + lzf) 0 then None
  else if (max_digits <? N.of_nat ndigits)%N || (max_digits <? N.of_nat fraclen)%N then None
  else let '(e, l5) := read_exponent l4 in Some (PDec neg mant (e - Z.of_nat fraclen)%Z, l5).

Definition lower (c : ascii) : ascii :=
  let n := nat_of_ascii c in if (65 <=? n) && (n <=? 90) then ascii_of_nat (n + 32) else c.

(** Case-insensitive prefix match against a lowercase pattern. *)
Fixpoint match_ci (pat l : list ascii) : option (list ascii) :=
  match pat, l with
  | [], _ => Some l
  | p :: ps, c :: r => if Ascii.eqb p (lower c) then match_ci ps r else None
  | _ :: _, [] => None
  end.

(** [_Py_parse_inf_or_nan]. *)
Definition parse_inf_or_nan (l : list ascii) : option (pylit * list ascii) :=
  let '(neg, l1) := read_sign l in
  match match_ci (list_ascii_of_string "inf") l1 with
  | Some r => Some (PInf neg, match match_ci (list_ascii_of_string "inity") r with
                              | Some r' => r' | None => r end)
  | None => match match_ci (list_ascii_of_string "nan") l1 with
            | Some r => Some (PNan, r)
            | None => None
            end
  end.

(** [float_from_string_inner]: strip the surrounding whitespace, then one
    literal ([PyOS_string_to_double]) must take the whole remaining text. *)
Definition float_from_string_inner (l : list ascii) : option pylit :=
  match drop_spaces l with
  | [] => None
  | l1 =>
      let l2 := rev (drop_spaces (rev l1)) in
      match match dg_strtod l2 with Some p => Some p | None => parse_inf_or_nan l2 end with
      | Some (v, []) => Some v
      | _ => None
      end
  end.

(** [float(s)] on a [str]: [_Py_string_to_number_with_underscores] removes
    the underscores, then hands the text to [float_from_string_inner]. *)
Definition parse_float (s : string) : option pylit :=
  match strip_underscores Ascii.zero (list_ascii_of_string s) with
  | None => None
  | Some l => float_from_string_inner l
  end.

(** ** Values *)

Local Open Scope R_scope.

(** The exact value of a decimal literal.  The real reading has no
    infinity nor NaN: those texts are studied at binary64. *)
Definition pylit_R (v : pylit) : option R :=
  match v with
  | PDec neg m e => Some ((if neg then -1 else 1) * IZR (Z.of_N m) * powerRZ 10 e)
  | _ => None
  end.

(** The correctly rounded binary64 value: an exact integer is normalised,
    a fraction [m / 10^k] is one correctly rounded division of exact
    operands. *)
Definition dec_to_b64 (neg : bool) (m : N) (e : Z) : float :=
  SF2Prim (match m with
   | N0 => S754_zero neg
   | Npos p =>
       if (0 <=? e)%Z then binary_normalize prec emax (Zpos p * 10 ^ e) 0 neg
       else SFdiv prec emax (S754_finite neg p 0) (S754_finite false (Z.to_pos (10 ^ (- e))) 0)
   end).

Definition pylit_b64 (v : pylit) : float :=
  match v with
  | PDec neg m e => dec_to_b64 neg m e
  | PInf neg => if neg then neg_infinity else infinity
  | PNan => nan
  end.

#[export] Instance PyFloat_R : PyFloat R :=
  fun s => match parse_float s with Some v => pylit_R v | None => None end.

#[export] Instance PyFloat_b64 : PyFloat float := fun s => option_map pylit_b64 (parse_float s).

(** ** The decimal reader *)

(** The value of a digit string, most significant digit first. *)
Definition digits_value (ds : list ascii) : N := fold_left (fun acc c => acc * 10 + digit_val c)%N ds 0%N.

Local Close Scope R_scope.

Section Reader.

(** A digit is none of the characters the reader treats specially. *)
Lemma digit_not_special c :
  is_digit c = true ->
  is_underscore c = false /\ is_space c = false /\ Nat.eqb (nat_of_ascii c) 46 = false /\
  Nat.eqb (nat_of_ascii c) 45 = false /\ Nat.eqb (nat_of_ascii c) 43 = false /\
  Nat.eqb (nat_of_ascii c) 101 = false /\ Nat.eqb (nat_of_ascii c) 69 = false.
Proof.
  unfold is_digit, is_underscore, is_space. intros Hd. apply andb_true_iff in Hd as [H1 H2].
  apply Nat.leb_le in H1, H2.
  generalize dependent (nat_of_ascii c). intros n H1 H2.
  assert (n = 48 \/ n = 49 \/ n = 50 \/ n = 51 \/ n = 52 \/ n = 53 \/ n = 54 \/ n = 55 \/
          n = 56 \/ n = 57) as Hn by lia.
  repeat destruct Hn as [->|Hn]; [..|subst n]; repeat split.
Qed.

Lemma read_digits_app ds rest acc n :
  forallb is_digit ds = true ->
  match rest with c :: _ => is_digit c = false | [] => True end ->
  read_digits (ds ++ rest) acc n
  = (fold_left (fun acc c => acc * 10 + digit_val c)%N ds acc, (n + length ds)%nat, rest).
Proof.
  revert acc n; induction ds as [|c ds IH]; intros acc n Hds Hr; cbn [app fold_left length].
  - destruct rest as [|c rest]; cbn; [now rewrite Nat.add_0_r|]. rewrite Hr. now rewrite Nat.add_0_r.
  - apply andb_true_iff in Hds as [Hc Hds]. cbn. rewrite Hc, IH by assumption.
    do 2 f_equal. lia.
Qed.

Lemma strip_underscores_none_inside prev l :
  is_underscore prev = false -> forallb (fun c => negb (is_underscore c)) l = true ->
  strip_underscores prev l = Some l.
Proof.
  revert prev; induction l as [|c l IH]; intros prev Hp Hl; cbn; [now rewrite Hp|].
  apply andb_true_iff in Hl as [Hc Hl]. apply negb_true_iff in Hc.
  rewrite Hc, Hp. cbn. now rewrite IH.
Qed.

Lemma forallb_digits_no_underscore l :
  forallb is_digit l = true -> forallb (fun c => negb (is_underscore c)) l = true.
Proof.
  intros H. apply forallb_forall. intros c Hc. apply negb_true_iff.
  exact (proj1 (digit_not_special c (proj1 (forallb_forall _ _) H c Hc))).
Qed.

Lemma read_sign_unsigned c l :
  Nat.eqb (nat_of_ascii c) 45 = false -> Nat.eqb (nat_of_ascii c) 43 = false ->
  read_sign (c :: l) = (false, c :: l).
Proof. intros H1 H2. cbn. now rewrite H1, H2. Qed.

(** The sign [read_sign] takes off a literal that starts with an
    optional [-] and then a digit or the point. *)
Lemma read_sign_decimal (neg : bool) a b :
  forallb is_digit a = true ->
  read_sign ((if neg then ["-"%char] else []) ++ a ++ "."%char :: b) = (neg, a ++ "."%char :: b).
Proof.
  intros Ha. destruct neg; [reflexivity|]. destruct a as [|c a]; [reflexivity|]. cbn [app].
  apply andb_true_iff in Ha as [Hc _]. pose proof (digit_not_special c Hc) as (_ & _ & _ & ? & ? & _).
  now apply read_sign_unsigned.
Qed.

(** ** Leading zeros *)

Lemma zero_digit c : is_zero c = true -> is_digit c = true /\ digit_val c = 0%N.
Proof. unfold is_zero, is_digit, digit_val. intros E. apply Nat.eqb_eq in E. rewrite E. split; reflexivity. Qed.

(** A digit string is its leading zeros, then a string that does not
    start with a zero. *)
Lemma lead_zeros (ds : list ascii) :
  exists zs ds', ds = zs ++ ds' /\ forallb is_zero zs = true /\
                 match ds' with c :: _ => is_zero c = false | [] => True end.
Proof.
  induction ds as [|c ds (zs & ds' & -> & Z & H)]; [exists [], []; auto|].
  destruct (is_zero c) eqn:Ec.
  - exists (c :: zs), ds'. cbn. rewrite Ec, Z. auto.
  - exists [], (c :: zs ++ ds'). auto.
Qed.

Lemma skip_zeros_app zs l n :
  forallb is_zero zs = true -> match l with c :: _ => is_zero c = false | [] => True end ->
  skip_zeros (zs ++ l) n = ((n + length zs)%nat, l).
Proof.
  revert n; induction zs as [|z zs IH]; intros n Z Hl; cbn [app length].
  - rewrite Nat.add_0_r. destruct l as [|c l]; cbn; [reflexivity|]. now rewrite Hl.
  - apply andb_true_iff in Z as [Hz Z]. cbn. rewrite Hz, IH by assumption. f_equal. lia.
Qed.

Lemma forallb_zeros_digits zs : forallb is_zero zs = true -> forallb is_digit zs = true.
Proof.
  intros Z. apply forallb_forall. intros c Hc.
  exact (proj1 (zero_digit c (proj1 (forallb_forall _ _) Z c Hc))).
Qed.

Lemma digits_value_zeros zs l : forallb is_zero zs = true -> digits_value (zs ++ l) = digits_value l.
Proof.
  intros Z. unfold digits_value. rewrite fold_left_app. f_equal.
  induction zs as [|z zs IH]; [reflexivity|]. apply andb_true_iff in Z as [Hz Z].
  cbn. rewrite (proj2 (zero_digit z Hz)). exact (IH Z).
Qed.

Lemma not_zero_head l :
  match l with c :: _ => is_digit c = false | [] => True end ->
  match l with c :: _ => is_zero c = false | [] => True end.
Proof.
  destruct l as [|c l]; [trivial|]. intros Hc. destruct (is_zero c) eqn:Z; [|reflexivity].
  now rewrite (proj1 (zero_digit c Z)) in Hc.
Qed.

Lemma read_digits_all ds acc : forallb is_digit ds = true ->
  read_digits ds acc 0 = (fold_left (fun acc c => acc * 10 + digit_val c)%N ds acc, length ds, []).
Proof. intros H. rewrite <- (app_nil_r ds) at 1. now rewrite read_digits_app. Qed.

(** [_Py_dg_strtod] on [-a.b] or [a.b]: the mantissa is the digits of [a]
    then [b], the exponent minus the number of fraction digits, nothing
    is left, as long as there are at most [MAX_DIGITS] digits. *)
Lemma dg_strtod_decimal (neg : bool) a b :
  forallb is_digit a = true -> forallb is_digit b = true -> a ++ b <> [] ->
  (N.of_nat (length (a ++ b)) <= max_digits)%N ->
  dg_strtod ((if neg then ["-"%char] else []) ++ a ++ "."%char :: b)
  = Some (PDec neg (digits_value (a ++ b)) (- Z.of_nat (length b)), []).
Proof.
  intros Ha Hb Hab Hmax. unfold dg_strtod. rewrite read_sign_decimal by exact Ha.
  destruct (lead_zeros a) as (za & a' & -> & Za & Ha').
  rewrite forallb_app in Ha. apply andb_true_iff in Ha as [_ Ha].
  rewrite <- app_assoc, skip_zeros_app by (exact Za || (destruct a'; [reflexivity | exact Ha'])).
  rewrite read_digits_app by (assumption || reflexivity). cbn [Nat.eqb nat_of_ascii Nat.add read_fraction].
  change (Nat.eqb (nat_of_ascii "."%char) 46) with true. cbv iota beta.
  rewrite <- app_assoc, digits_value_zeros by exact Za.
  rewrite length_app, length_app in Hmax.
  destruct a' as [|c a''].
  - (* no significant integer digit: the fraction's zeros are skipped too *)
    cbn [length Nat.eqb fold_left app].
    destruct (lead_zeros b) as (zb & b' & -> & Zb & Hb').
    rewrite forallb_app in Hb. apply andb_true_iff in Hb as [_ Hb].
    rewrite skip_zeros_app by assumption.
    rewrite read_digits_all by exact Hb. cbn [Nat.add read_exponent].
    assert (Hnz : (Nat.eqb (length b') 0 && Nat.eqb (length za + length zb) 0)%bool = false).
    { apply Bool.andb_false_iff. destruct b' as [|c' b''].
      - right. apply Nat.eqb_neq. intros E. apply Hab. destruct za, zb; cbn in E |- *; try lia. reflexivity.
      - left. reflexivity. }
    rewrite Hnz. rewrite length_app in Hmax |- *. cbn [length] in Hmax.
    replace ((max_digits <? N.of_nat (length b'))%N || (max_digits <? N.of_nat (length zb + length b'))%N)%bool
      with false by (symmetry; apply Bool.orb_false_iff; split; apply N.ltb_ge; lia).
    rewrite digits_value_zeros by exact Zb. do 3 f_equal; lia.
  - cbn [length Nat.eqb]. rewrite read_digits_all by exact Hb. cbn [read_exponent Nat.add Nat.eqb andb].
    match goal with |- context [ (?x || ?y)%bool ] =>
      replace (x || y)%bool with false
        by (symmetry; apply Bool.orb_false_iff; split; apply N.ltb_ge; cbn [length] in Hmax; lia) end.
    unfold digits_value. rewrite fold_left_app. do 3 f_equal; lia.
Qed.

Lemma strip_underscores_cons prev c r :
  strip_underscores prev (c :: r)
  = if is_underscore c then (if is_digit prev then strip_underscores c r else None)
    else if (is_underscore prev && negb (is_digit c))%bool then None
    else option_map (cons c) (strip_underscores c r).
Proof. reflexivity. Qed.

(** An underscore between two digits is dropped, wherever it stands. *)
Lemma strip_underscores_between prev a d c b :
  is_digit d = true -> is_digit c = true ->
  strip_underscores prev (a ++ d :: "_"%char :: c :: b) = strip_underscores prev (a ++ d :: c :: b).
Proof.
  intros Hd Hc. pose proof (digit_not_special d Hd) as (Ud & _).
  pose proof (digit_not_special c Hc) as (Uc & _).
  assert (U : is_underscore "_"%char = true) by reflexivity.
  revert prev; induction a as [|x a IH]; intros prev; cbn [app]; rewrite !strip_underscores_cons.
  - rewrite ?Ud, ?U, ?Hd, ?Uc, ?Hc. reflexivity.
  - now rewrite IH.
Qed.

End Reader.

(** [float] reads [-a.b] or [a.b], [a] and [b] digits, as the exact
    decimal. *)
Lemma parse_float_signed_decimal (neg : bool) (a b : list ascii) :
  forallb is_digit a = true -> forallb is_digit b = true -> a ++ b <> [] ->
  (N.of_nat (length (a ++ b)) <= max_digits)%N ->
  parse_float (string_of_list_ascii ((if neg then ["-"%char] else []) ++ a ++ "."%char :: b))
  = Some (PDec neg (digits_value (a ++ b)) (- Z.of_nat (length b))).
Proof.
  intros Ha Hb Hab Hmax. unfold parse_float, float_from_string_inner. rewrite list_ascii_of_string_of_list_ascii.
  set (t := (if neg then ["-"%char] else []) ++ a ++ "."%char :: b).
  rewrite strip_underscores_none_inside; [|reflexivity|].
  2: { unfold t. rewrite !forallb_app, (forallb_digits_no_underscore a Ha).
       cbn [forallb]. rewrite (forallb_digits_no_underscore b Hb). now destruct neg. }
  assert (Hd : drop_spaces t = t).
  { unfold t. destruct neg; [reflexivity|]. destruct a as [|c a]; [reflexivity|].
    apply andb_true_iff in Ha as [Hc _].
    cbn [app drop_spaces]. now rewrite (proj1 (proj2 (digit_not_special c Hc))). }
  assert (Hr : drop_spaces (rev t) = rev t).
  { unfold t. rewrite !rev_app_distr. cbn [rev]. destruct (rev b) as [|c rb] eqn:Eb; [reflexivity|].
    assert (Hc : is_digit c = true).
    { apply (proj1 (forallb_forall _ _) Hb). apply in_rev. rewrite Eb. now left. }
    cbn [app drop_spaces]. now rewrite (proj1 (proj2 (digit_not_special c Hc))). }
  rewrite Hd. assert (Hne : exists c l', t = c :: l')
    by (unfold t; destruct neg, a; eexists _, _; reflexivity).
  destruct Hne as (c & l' & El). rewrite El. cbv beta iota zeta. rewrite <- El.
  rewrite Hr, rev_involutive. unfold t. now rewrite dg_strtod_decimal.
Qed.

(** PEP 515 in [float]: an underscore between two digits is ignored, so
    [float("2_0")] reads what [float("20")] reads. *)
Theorem parse_float_underscore (a b : list ascii) (d c : ascii) :
  is_digit d = true -> is_digit c = true ->
  parse_float (string_of_list_ascii (a ++ d :: "_"%char :: c :: b))
  = parse_float (string_of_list_ascii (a ++ d :: c :: b)).
Proof.
  intros Hd Hc. unfold parse_float. rewrite !list_ascii_of_string_of_list_ascii.
  now rewrite strip_underscores_between.
Qed.

(** ** Texts [float] rejects *)

(** An underscore at the end of the text is never between two digits. *)
Lemma strip_underscores_trailing prev l :
  strip_underscores prev (l ++ ["_"%char]) = None.
Proof.
  revert prev; induction l as [|c l IH]; intros prev; cbn [app].
  - rewrite strip_underscores_cons. cbn. now destruct (is_digit prev).
  - rewrite strip_underscores_cons, IH.
    destruct (is_underscore c); [now destruct (is_digit prev)|].
    now destruct (is_underscore prev && negb (is_digit c))%bool.
Qed.

Lemma strip_underscores_spaces l :
  forallb is_space l = true -> strip_underscores Ascii.zero l = Some l.
Proof.
  intros Hl. apply strip_underscores_none_inside; [reflexivity|].
  apply forallb_forall. intros c Hc. apply negb_true_iff.
  pose proof (proj1 (forallb_forall _ _) Hl c Hc) as Hs.
  destruct (is_underscore c) eqn:U; [|reflexivity]. apply Nat.eqb_eq in U.
  unfold is_space in Hs. rewrite U in Hs. discriminate.
Qed.

Lemma drop_spaces_all l : forallb is_space l = true -> drop_spaces l = [].
Proof.
  induction l as [|c l IH]; [reflexivity|]. cbn. intros Hl.
  apply andb_true_iff in Hl as [-> Hl]. exact (IH Hl).
Qed.

(** [float] raises [ValueError], so the handler shows its message, on an
    empty or blank field, and on a text that starts or ends with an
    underscore (PEP 515 allows one only between digits). *)
Theorem parse_float_rejects (l : list ascii) :
  (forallb is_space l = true -> parse_float (string_of_list_ascii l) = None) /\
  parse_float (string_of_list_ascii ("_"%char :: l)) = None /\
  parse_float (string_of_list_ascii (l ++ ["_"%char])) = None.
Proof.
  unfold parse_float, float_from_string_inner. rewrite !list_ascii_of_string_of_list_ascii. split; [|split].
  - intros Hl. rewrite strip_underscores_spaces, drop_spaces_all by exact Hl. reflexivity.
  - reflexivity.
  - now rewrite strip_underscores_trailing.
Qed.

