(* ===== verification/Grammar.v ===== *)
(** * The texts [float] accepts: Python's grammar (src/sky.py lines 32-35)

    The reference manual of Python gives the texts [float(s)] accepts as a
    grammar: optional whitespace around

      floatvalue    ::= [sign] absfloatvalue
      absfloatvalue ::= floatnumber | infinity | nan
      floatnumber   ::= number [exponent]
      number        ::= [digitpart] "." digitpart | digitpart ["."]
      exponent      ::= ("e" | "E") [sign] digitpart
      digitpart     ::= digit (["_"] digit)*
      infinity      ::= "Infinity" | "inf"      nan ::= "nan"

    with the case of [inf], [infinity] and [nan] not significant.  This file
    writes the grammar as inductive predicates, parameterised by the
    predicate for [digitpart]: [float_text digits0] is the grammar without
    underscores, and [float_text digitpart], with the [digitpart] of
    [Underscores], the grammar of the manual.
    [decimal_value] is the decimal a literal denotes.

    The model of [Parse] follows CPython's code instead.  Reader by reader
    ([read_sign], [skip_zeros], [read_digits], [read_fraction],
    [read_exponent], [match_ci]) a forward lemma says what it consumes of
    a piece of the grammar and an inversion lemma what a text it consumes
    looks like.  They give: [float_from_string_inner] accepts a text
    without underscores of at most [MAX_DIGITS] characters exactly when
    it is in the grammar ([float_text_fwd], [float_text_inv]), and
    [float] reads each decimal literal as the decimal it denotes
    ([parse_float_value]).  [Underscores] adds the underscores. *)

From Stdlib Require Import ZArith NArith Ascii String List Bool Lia.
From S2P Require Import Prelude Binary64 Parse.
Import ListNotations.

(** ** The grammar *)

Definition optsign (s : list ascii) : Prop := s = [] \/ s = ["+"%char] \/ s = ["-"%char].

(** A text equal to [pat] up to case. *)
Definition word (w : list ascii) (pat : string) : Prop := map lower w = list_ascii_of_string pat.

Section Rules.
Variable dp : list ascii -> Prop.

Inductive number : list ascii -> Prop :=
| nb_frac b : dp b -> number ("."%char :: b)
| nb_int_frac a b : dp a -> dp b -> number (a ++ "."%char :: b)
| nb_int a : dp a -> number a
| nb_int_point a : dp a -> number (a ++ ["."%char]).

Definition exponent (x : list ascii) : Prop :=
  exists c s d, x = c :: s ++ d /\ (c = "e"%char \/ c = "E"%char) /\ optsign s /\ dp d.

Definition floatnumber (l : list ascii) : Prop :=
  exists a x, l = a ++ x /\ number a /\ (x = [] \/ exponent x).

Definition special (w : list ascii) : Prop := word w "inf" \/ word w "infinity" \/ word w "nan".

Definition floatvalue (v : list ascii) : Prop :=
  exists s a, v = s ++ a /\ optsign s /\ (floatnumber a \/ special a).

Definition float_text (l : list ascii) : Prop :=
  exists p v q, l = p ++ v ++ q /\ forallb is_space p = true /\ forallb is_space q = true /\
                floatvalue v.

End Rules.

(** A digit part without underscores. *)
Definition digits0 (l : list ascii) : Prop := l <> [] /\ forallb is_digit l = true.

(** ** The value a literal denotes

    A decimal literal [s a x] (sign, number, exponent) denotes the decimal
    whose mantissa is the digits of [a] and whose exponent is the written
    one minus the number of digits after the point.  A written exponent of
    [10^9] or more stands for [MAX_ABS_EXP]: such a literal overflows or
    underflows all the same. *)

Definition is_minus (c : ascii) : bool := Nat.eqb (nat_of_ascii c) 45.

Definition cap_exp (d : list ascii) : N :=
  let v := digits_value d in if (v <? 10 ^ 9)%N then v else max_abs_exp.

Definition exp_value (x : list ascii) : Z :=
  match x with
  | [] => 0%Z
  | _ :: r => let v := Z.of_N (cap_exp (filter is_digit r)) in if existsb is_minus r then (- v)%Z else v
  end.

Fixpoint after_point (a : list ascii) : nat :=
  match a with
  | [] => 0
  | c :: r => if Nat.eqb (nat_of_ascii c) 46 then length r else after_point r
  end.

Definition decimal_value (s a x : list ascii) : pylit :=
  PDec (existsb is_minus s) (digits_value (filter is_digit a)) (exp_value x - Z.of_nat (after_point a)).

Definition head_not (f : ascii -> bool) (l : list ascii) : Prop :=
  match l with c :: _ => f c = false | [] => True end.

(** ** Characters

    A property of one character is decided on the 256 of them. *)

Definition all_ascii : list ascii := map ascii_of_nat (seq 0 256).

Definition is_sign (c : ascii) : bool := Nat.eqb (nat_of_ascii c) 45 || Nat.eqb (nat_of_ascii c) 43.
Definition is_point (c : ascii) : bool := Nat.eqb (nat_of_ascii c) 46.
Definition is_e (c : ascii) : bool := Nat.eqb (nat_of_ascii c) 101 || Nat.eqb (nat_of_ascii c) 69.

(** The letters of [inf], [infinity] and [nan], in any case. *)
Definition in_letters (p : ascii) : bool := existsb (Ascii.eqb p) (list_ascii_of_string "infayt").
Definition letter (c : ascii) : bool := in_letters (lower c).

(** The characters a literal is made of. *)
Definition lit_char (c : ascii) : bool := is_digit c || is_sign c || is_point c || is_e c || letter c.

Lemma ascii_forall (f : ascii -> bool) : forallb f all_ascii = true -> forall c, f c = true.
Proof.
  intros H c. rewrite <- (ascii_nat_embedding c). apply (proj1 (forallb_forall _ _) H).
  apply in_map, in_seq. pose proof (nat_ascii_bounded c). lia.
Qed.

(** None of them is a space or an underscore; a letter is no digit, sign,
    point nor [e]. *)
Lemma lit_char_plain c :
  lit_char c = true -> is_space c = false /\ is_underscore c = false /\
  (letter c = true -> is_digit c = false /\ is_sign c = false /\ is_point c = false /\ is_e c = false).
Proof.
  revert c. assert (H : forall c, implb (lit_char c)
    (negb (is_space c) && negb (is_underscore c) &&
     implb (letter c) (negb (is_digit c) && negb (is_sign c) && negb (is_point c) && negb (is_e c))) = true)
    by (apply ascii_forall; vm_compute; reflexivity).
  intros c Hc. specialize (H c). rewrite Hc in H. cbn [implb] in H.
  rewrite !andb_true_iff, !negb_true_iff in H. destruct H as [[S U] L]. split; [exact S|]. split; [exact U|].
  intros Lc. rewrite Lc in L. cbn [implb] in L. rewrite !andb_true_iff, !negb_true_iff in L. tauto.
Qed.

(** ** Lists *)

Lemma last_cons {A} (x : A) l d : last (x :: l) d = last l x.
Proof.
  revert x d; induction l as [|a l IH]; intros x d; [reflexivity|].
  change (last (a :: l) d = last (a :: l) x). rewrite !IH. reflexivity.
Qed.

Lemma last_app {A} (l1 l2 : list A) d : last (l1 ++ l2) d = last l2 (last l1 d).
Proof.
  revert d; induction l1 as [|x l1 IH]; intros d; [reflexivity|].
  cbn [app]. rewrite !last_cons. apply IH.
Qed.

Lemma last_forall {A} (f : A -> bool) l d : f d = true -> forallb f l = true -> f (last l d) = true.
Proof.
  revert d; induction l as [|x l IH]; intros d Hd Hl; [exact Hd|].
  apply andb_true_iff in Hl as [Hx Hl]. rewrite last_cons. exact (IH x Hx Hl).
Qed.

Lemma head_not_app {f : ascii -> bool} a b : a <> [] -> head_not f a -> head_not f (a ++ b).
Proof. destruct a; [contradiction | trivial]. Qed.

Lemma head_not_digits (f : ascii -> bool) a b :
  a <> [] -> forallb is_digit a = true -> (forall c, is_digit c = true -> f c = false) -> head_not f (a ++ b).
Proof. intros Ha D Hf. destruct a as [|c a]; [contradiction|]. apply andb_true_iff in D as [D _]. exact (Hf c D). Qed.

(** ** What each reader of [_Py_dg_strtod] consumes *)

Lemma skip_zeros_inv l n z l' :
  skip_zeros l n = (z, l') ->
  exists zs, l = zs ++ l' /\ forallb is_zero zs = true /\ z = (n + length zs)%nat /\ head_not is_zero l'.
Proof.
  revert n; induction l as [|c r IH]; intros n; cbn [skip_zeros].
  - intros [= <- <-]. exists []. repeat split. cbn. lia.
  - destruct (is_zero c) eqn:Z.
    + intros E. destruct (IH _ E) as (zs & -> & Zs & -> & H). exists (c :: zs).
      cbn. rewrite Z, Zs. repeat split; [lia | exact H].
    + intros [= <- <-]. exists []. repeat split; [cbn; lia | exact Z].
Qed.

Lemma read_digits_inv l acc n v k r :
  read_digits l acc n = (v, k, r) ->
  exists ds, l = ds ++ r /\ forallb is_digit ds = true /\ k = (n + length ds)%nat /\
             v = fold_left (fun acc c => acc * 10 + digit_val c)%N ds acc /\ head_not is_digit r.
Proof.
  revert acc n; induction l as [|c l IH]; intros acc n; cbn [read_digits].
  - intros [= <- <- <-]. exists []. repeat split. cbn. lia.
  - destruct (is_digit c) eqn:D.
    + intros E. destruct (IH _ _ E) as (ds & -> & Ds & -> & -> & H). exists (c :: ds).
      cbn. rewrite D, Ds. repeat split; [lia | exact H].
    + intros [= <- <- <-]. exists []. repeat split; [cbn; lia | exact D].
Qed.

Lemma read_sign_inv l neg l1 : read_sign l = (neg, l1) -> exists s, l = s ++ l1 /\ optsign s.
Proof.
  unfold read_sign. destruct l as [|c r]; [intros [= <- <-]; exists []; split; [reflexivity | now left]|].
  destruct (Nat.eqb_spec (nat_of_ascii c) 45) as [E|E].
  - intros [= <- <-]. exists [c]. split; [reflexivity|]. right; right.
    rewrite <- (ascii_nat_embedding c), E. reflexivity.
  - destruct (Nat.eqb_spec (nat_of_ascii c) 43) as [E'|E']; intros [= <- <-].
    + exists [c]. split; [reflexivity|]. right; left. rewrite <- (ascii_nat_embedding c), E'. reflexivity.
    + exists []. split; [reflexivity | now left].
Qed.

Lemma read_sign_fwd s t : optsign s -> head_not is_sign t -> read_sign (s ++ t) = (existsb is_minus s, t).
Proof.
  intros [->|[->| ->]] Ht; [|reflexivity..].
  destruct t as [|c t]; [reflexivity|]. cbn in Ht |- *. apply orb_false_iff in Ht as [-> ->]. reflexivity.
Qed.

(** [skip_zeros] then [read_digits] take a digit string whole: its
    leading zeros, then the rest, whose value they accumulate. *)
Lemma skip_read ds r acc :
  forallb is_digit ds = true -> head_not is_digit r ->
  exists zs ds', ds = zs ++ ds' /\ forallb is_zero zs = true /\ head_not is_zero ds' /\
                 skip_zeros (ds ++ r) 0 = (length zs, ds' ++ r) /\
                 read_digits (ds' ++ r) acc 0 = (fold_left (fun acc c => acc * 10 + digit_val c)%N ds' acc, length ds', r).
Proof.
  intros D Hr. destruct (lead_zeros ds) as (zs & ds' & -> & Z & H). exists zs, ds'.
  rewrite forallb_app in D. apply andb_true_iff in D as [_ D].
  split; [reflexivity|]. split; [exact Z|]. split; [exact H|]. split; [|exact (read_digits_app ds' r acc 0 D Hr)].
  rewrite <- app_assoc, skip_zeros_app; [reflexivity | exact Z|].
  destruct ds' as [|c ds']; [exact (not_zero_head r Hr) | exact H].
Qed.

(** ** Values of digit strings *)

Lemma fold_digits t acc :
  fold_left (fun acc c => acc * 10 + digit_val c)%N t acc = (acc * 10 ^ N.of_nat (length t) + digits_value t)%N.
Proof.
  unfold digits_value. revert acc; induction t as [|c t IH]; intros acc; cbn [fold_left length]; [cbn; lia|].
  rewrite (IH (acc * 10 + _)%N), (IH (0 * 10 + _)%N), Nat2N.inj_succ, N.pow_succ_r'. ring.
Qed.

Lemma digits_value_cons c t : digits_value (c :: t) = (digit_val c * 10 ^ N.of_nat (length t) + digits_value t)%N.
Proof. unfold digits_value at 1. cbn [fold_left]. rewrite fold_digits. ring. Qed.

Lemma digit_val_bounds c : is_digit c = true -> (digit_val c < 10)%N /\ (is_zero c = false -> 1 <= digit_val c)%N.
Proof.
  unfold is_digit, is_zero, digit_val. intros D. apply andb_true_iff in D as [D1 D2].
  apply Nat.leb_le in D1, D2. split; [lia|]. intros Z. apply Nat.eqb_neq in Z. lia.
Qed.

Lemma digits_value_lt ds : forallb is_digit ds = true -> (digits_value ds < 10 ^ N.of_nat (length ds))%N.
Proof.
  induction ds as [|c t IH]; [reflexivity|]. intros D. apply andb_true_iff in D as [Dc Dt].
  rewrite digits_value_cons. cbn [length]. rewrite Nat2N.inj_succ, N.pow_succ_r'.
  pose proof (proj1 (digit_val_bounds c Dc)). specialize (IH Dt). nia.
Qed.

Lemma digits_value_ge c t :
  is_digit c = true -> is_zero c = false -> (10 ^ N.of_nat (length t) <= digits_value (c :: t))%N.
Proof. intros D Z. rewrite digits_value_cons. pose proof (proj2 (digit_val_bounds c D) Z). nia. Qed.

(** The exponent digits [_Py_dg_strtod] keeps after the zeros give
    [cap_exp]: more than 9 of them, or a value above [MAX_ABS_EXP], give
    [MAX_ABS_EXP]; otherwise their value, below [10^9]. *)
Lemma exponent_cap zs ds :
  forallb is_zero zs = true -> forallb is_digit ds = true -> head_not is_zero ds ->
  (if (9 <? length ds)%nat || (max_abs_exp <? digits_value ds)%N then max_abs_exp else digits_value ds)
  = cap_exp (zs ++ ds).
Proof.
  intros Z D H. unfold cap_exp. rewrite digits_value_zeros by exact Z.
  destruct (Nat.ltb_spec 9 (length ds)) as [L|L].
  - destruct ds as [|c t]; [cbn in L; lia|]. apply andb_true_iff in D as [Dc _].
    pose proof (digits_value_ge c t Dc H). cbn [length] in L.
    assert (10 ^ 9 <= 10 ^ N.of_nat (length t))%N by (apply N.pow_le_mono_r; lia).
    destruct (N.ltb_spec (digits_value (c :: t)) (10 ^ 9)); [lia | reflexivity].
  - pose proof (digits_value_lt ds D).
    assert (10 ^ N.of_nat (length ds) <= 10 ^ 9)%N by (apply N.pow_le_mono_r; lia).
    unfold max_abs_exp. destruct (N.ltb_spec 1100000000 (digits_value ds)); [lia|].
    destruct (N.ltb_spec (digits_value ds) (10 ^ 9)); [reflexivity | lia].
Qed.

Lemma zeros_value zs : forallb is_zero zs = true -> fold_left (fun acc c => acc * 10 + digit_val c)%N zs 0%N = 0%N.
Proof. intros Z. pose proof (digits_value_zeros zs [] Z) as E. rewrite app_nil_r in E. exact E. Qed.

Lemma filter_digits d : forallb is_digit d = true -> filter is_digit d = d.
Proof. induction d as [|c d IH]; [reflexivity|]. intros D. apply andb_true_iff in D as [Dc D]. cbn. now rewrite Dc, IH. Qed.

Lemma after_point_digits d t : forallb is_digit d = true -> after_point (d ++ t) = after_point t.
Proof.
  induction d as [|c d IH]; [reflexivity|]. intros D. apply andb_true_iff in D as [Dc D].
  cbn [app after_point]. rewrite (proj1 (proj2 (proj2 (digit_not_special c Dc)))). exact (IH D).
Qed.

Lemma ascii_code c n : Nat.eqb (nat_of_ascii c) n = true -> c = ascii_of_nat n.
Proof. intros E. apply Nat.eqb_eq in E. rewrite <- E. symmetry. apply ascii_nat_embedding. Qed.

Lemma digits_zeros_app zs ds :
  forallb is_zero zs = true -> forallb is_digit ds = true -> forallb is_digit (zs ++ ds) = true.
Proof. intros Z D. rewrite forallb_app, forallb_zeros_digits, D by exact Z. reflexivity. Qed.

(** The fraction: a point and digits [b], or no point at all.  The
    mantissa grows by the digits of [b] (the zeros skipped when there was
    no significant integer digit add nothing to a zero mantissa). *)
Lemma read_fraction_point ni ip b r :
  forallb is_digit b = true -> head_not is_digit r -> (ni = 0 -> ip = 0%N)%nat ->
  exists lzf nf, read_fraction ni ip ("."%char :: b ++ r)
                 = (lzf, fold_left (fun acc c => acc * 10 + digit_val c)%N b ip, nf, r) /\
                 (lzf + nf = length b)%nat /\ (ni <> 0 -> lzf = 0)%nat.
Proof.
  intros Hb Hr Hip. cbn [read_fraction]. change (Nat.eqb (nat_of_ascii ".") 46) with true. cbv iota.
  destruct (Nat.eqb_spec ni 0) as [->|Hni].
  - destruct (skip_read b r ip Hb Hr) as (zs & ds & -> & Z & _ & Ez & Ed). rewrite Ez, Ed, (Hip eq_refl).
    exists (length zs), (length ds). rewrite fold_left_app, (zeros_value zs Z).
    split; [reflexivity|]. rewrite length_app. split; [reflexivity | lia].
  - rewrite (read_digits_app b r ip 0 Hb Hr). do 2 eexists. split; [reflexivity|]. split; [reflexivity | auto].
Qed.

Lemma read_fraction_none ni ip r : head_not is_point r -> read_fraction ni ip r = (0, ip, 0, r).
Proof. intros H. destruct r as [|c r]; [reflexivity|]. cbn [read_fraction]. cbn in H. unfold is_point in H. now rewrite H. Qed.

Lemma read_fraction_inv ni ip l3 lzf mant nf l4 :
  read_fraction ni ip l3 = (lzf, mant, nf, l4) ->
  (lzf = 0 /\ nf = 0 /\ l4 = l3)%nat \/
  exists F, l3 = "."%char :: F ++ l4 /\ forallb is_digit F = true /\ length F = (lzf + nf)%nat.
Proof.
  intros H. destruct l3 as [|c r]; [injection H as <- _ <- <-; now left|]. cbn [read_fraction] in H.
  destruct (Nat.eqb (nat_of_ascii c) 46) eqn:E; [|injection H as <- _ <- <-; now left]. right.
  rewrite (ascii_code c 46 E).
  destruct (if Nat.eqb ni 0 then skip_zeros r 0 else (0, r)) as [zf r1] eqn:Ez.
  destruct (read_digits r1 ip 0) as [[m k] r2] eqn:Ed. injection H as <- <- <- <-.
  destruct (read_digits_inv _ _ _ _ _ _ Ed) as (ds & -> & D & -> & _ & _).
  assert (exists zs, r = zs ++ ds ++ r2 /\ forallb is_zero zs = true /\ zf = length zs) as (zs & -> & Z & ->).
  { destruct (Nat.eqb ni 0).
    - destruct (skip_zeros_inv _ _ _ _ Ez) as (zs & -> & Z & -> & _). eauto.
    - injection Ez as <- <-. exists []. auto. }
  exists (zs ++ ds). rewrite <- app_assoc, digits_zeros_app, length_app by assumption. auto.
Qed.

Lemma no_minus_digits d : forallb is_digit d = true -> existsb is_minus d = false.
Proof.
  induction d as [|c d IH]; [reflexivity|]. intros D. apply andb_true_iff in D as [Dc D]. cbn [existsb].
  unfold is_minus. rewrite (proj1 (proj2 (proj2 (proj2 (digit_not_special c Dc))))). exact (IH D).
Qed.

Lemma sign_digits s d :
  optsign s -> forallb is_digit d = true ->
  filter is_digit (s ++ d) = d /\ existsb is_minus (s ++ d) = existsb is_minus s.
Proof.
  intros Hs D. rewrite filter_app, existsb_app, (filter_digits d D), (no_minus_digits d D), orb_false_r.
  split; [|reflexivity]. now destruct Hs as [->|[->| ->]].
Qed.

(** The exponent: [e] or [E], a sign, digits, read as [exp_value]. *)
Lemma read_exponent_fwd x r :
  exponent digits0 x -> head_not is_digit r -> read_exponent (x ++ r) = (exp_value x, r).
Proof.
  intros (c & s & d & -> & Hc & Hs & Hd0 & Hd) Hr. cbn [app]. rewrite <- app_assoc. unfold read_exponent.
  replace (Nat.eqb (nat_of_ascii c) 101 || Nat.eqb (nat_of_ascii c) 69)%bool with true
    by (destruct Hc as [-> | ->]; reflexivity).
  rewrite (read_sign_fwd s (d ++ r) Hs).
  2: { apply head_not_digits; [exact Hd0 | exact Hd|]. intros c' D. apply orb_false_iff.
       pose proof (digit_not_special c' D) as (_ & _ & _ & ? & ? & _). auto. }
  destruct (skip_read d r 0 Hd Hr) as (zs & ds & E & Z & H0 & -> & ->).
  destruct (Nat.eqb (length ds) 0 && Nat.eqb (length zs) 0)%bool eqn:C.
  { exfalso. apply andb_true_iff in C as [C1 C2]. apply Nat.eqb_eq, length_zero_iff_nil in C1, C2.
    subst. exact (Hd0 eq_refl). }
  assert (Dds : forallb is_digit ds = true) by (rewrite E, forallb_app in Hd; now apply andb_true_iff in Hd as [_ ?]).
  change (fold_left (fun acc c => acc * 10 + digit_val c)%N ds 0%N) with (digits_value ds).
  rewrite (exponent_cap zs ds Z Dds H0), <- E. unfold exp_value. destruct (sign_digits s d Hs Hd) as [-> ->].
  reflexivity.
Qed.

Lemma read_exponent_inv l e r :
  read_exponent l = (e, r) -> r = l \/ exists x, l = x ++ r /\ exponent digits0 x.
Proof.
  unfold read_exponent. destruct l as [|c t]; [intros [= _ <-]; now left|].
  destruct (Nat.eqb (nat_of_ascii c) 101 || Nat.eqb (nat_of_ascii c) 69)%bool eqn:Ec;
    [|intros [= _ <-]; now left].
  destruct (read_sign t) as [eneg r1] eqn:Es. destruct (skip_zeros r1 0) as [z r2] eqn:Ez.
  destruct (read_digits r2 0 0) as [[v n] r3] eqn:Ed.
  destruct (Nat.eqb n 0 && Nat.eqb z 0)%bool eqn:C; [intros [= _ <-]; now left|]. intros [= _ <-]. right.
  destruct (read_sign_inv _ _ _ Es) as (s & -> & Hs).
  destruct (skip_zeros_inv _ _ _ _ Ez) as (zs & -> & Z & -> & _).
  destruct (read_digits_inv _ _ _ _ _ _ Ed) as (ds & -> & D & -> & _ & _).
  exists (c :: s ++ zs ++ ds). split; [cbn [app]; now rewrite <- !app_assoc|].
  exists c, s, (zs ++ ds). split; [reflexivity|]. split; [|split; [exact Hs|]].
  - apply orb_true_iff in Ec as [E|E]; [left | right]; exact (ascii_code c _ E).
  - split; [|exact (digits_zeros_app zs ds Z D)]. intros Hn. apply app_eq_nil in Hn as [-> ->].
    discriminate C.
Qed.

(** ** [_Py_dg_strtod] reads exactly the numbers of the grammar *)

Lemma exponent_head x : x = [] \/ exponent digits0 x -> head_not is_digit x /\ head_not is_point x.
Proof. intros [->|(c & s & d & -> & [-> | ->] & _)]; split; reflexivity. Qed.

Lemma digits0_len d : digits0 d -> (0 < length d)%nat.
Proof. intros [Hd _]. destruct d; [contradiction | cbn; lia]. Qed.

(** A number is integer digits [I], then, with a point, fraction digits
    [F]; there is at least one digit. *)
Lemma number_shape a :
  number digits0 a ->
  exists I (pt : bool) F, a = I ++ (if pt then "."%char :: F else []) /\ forallb is_digit I = true /\
    forallb is_digit F = true /\ I ++ F <> [] /\ (pt = false -> F = []).
Proof.
  intros [b [Hb D] | a' b [Ha Da] [Hb Db] | a' [Ha Da] | a' [Ha Da]];
    [exists [], true, b | exists a', true, b | exists a', false, [] | exists a', true, []];
    rewrite ?app_nil_r; (split; [reflexivity|]); repeat split; try assumption; try discriminate.
  intros E. apply app_eq_nil in E as [E _]. contradiction.
Qed.

(** The mantissa of a number: the counts [lz], [ni], [lzf], [nf] of
    [_Py_dg_strtod] add up to its digits, the mantissa is their value, and
    the fraction reader stops where the number ends. *)
Lemma mantissa_reads I (pt : bool) F x :
  forallb is_digit I = true -> forallb is_digit F = true -> (pt = false -> F = []) ->
  head_not is_digit x -> head_not is_point x ->
  exists lz l2 ip ni l3 lzf nf,
    skip_zeros ((I ++ (if pt then "."%char :: F else [])) ++ x) 0 = (lz, l2) /\ read_digits l2 0 0 = (ip, ni, l3) /\
    read_fraction ni ip l3 = (lzf, digits_value (I ++ F), nf, x) /\ (lzf + nf = length F)%nat /\
    (lz + ni + lzf + nf = length I + length F)%nat.
Proof.
  intros DI DF Hpt Xd Xp. rewrite <- app_assoc.
  assert (Hh : head_not is_digit ((if pt then "."%char :: F else []) ++ x)) by (destruct pt; [reflexivity | exact Xd]).
  destruct (skip_read I _ 0 DI Hh) as (zs & ds & -> & Z & _ & Sz & Rd).
  rewrite <- (app_assoc zs ds F), (digits_value_zeros zs (ds ++ F) Z), length_app.
  destruct pt.
  - destruct (read_fraction_point (length ds) (fold_left (fun acc c => acc * 10 + digit_val c)%N ds 0%N) F x DF Xd)
      as (lzf & nf & Fr & L & _).
    { intros E. apply length_zero_iff_nil in E. now subst. }
    cbn [app] in Sz, Rd. do 5 eexists. exists lzf, nf. split; [exact Sz|]. split; [exact Rd|].
    rewrite Fr. unfold digits_value. rewrite fold_left_app. split; [reflexivity|]. split; [exact L | lia].
  - rewrite (Hpt eq_refl), app_nil_r in *. do 5 eexists. exists 0, 0. split; [exact Sz|]. split; [exact Rd|].
    rewrite read_fraction_none by exact Xp. split; [reflexivity|]. cbn. split; [reflexivity | lia].
Qed.

Lemma number_reads a x :
  number digits0 a -> x = [] \/ exponent digits0 x ->
  exists lz l2 ip ni l3 lzf nf,
    skip_zeros (a ++ x) 0 = (lz, l2) /\ read_digits l2 0 0 = (ip, ni, l3) /\
    read_fraction ni ip l3 = (lzf, digits_value (filter is_digit a), nf, x) /\ (lzf + nf = after_point a)%nat /\
    (0 < lz + ni + lzf + nf <= length a)%nat.
Proof.
  intros Ha Hx. destruct (exponent_head x Hx) as [Xd Xp].
  destruct (number_shape a Ha) as (I & pt & F & -> & DI & DF & Hne & Hpt).
  destruct (mantissa_reads I pt F x DI DF Hpt Xd Xp) as (lz & l2 & ip & ni & l3 & lzf & nf & Sz & Rd & Fr & L & S).
  assert (Hl : (0 < length I + length F)%nat) by (destruct I, F; cbn; [exfalso; apply Hne; reflexivity | lia..]).
  exists lz, l2, ip, ni, l3, lzf, nf. rewrite filter_app, after_point_digits, (filter_digits I DI) by exact DI.
  destruct pt.
  - replace (filter is_digit ("."%char :: F)) with F by (symmetry; exact (filter_digits F DF)).
    change (after_point ("."%char :: F)) with (length F). rewrite length_app. cbn [length].
    repeat split; assumption || lia.
  - rewrite (Hpt eq_refl), !app_nil_r in *. cbn [after_point length] in *. repeat split; assumption || lia.
Qed.

Lemma number_first a : number digits0 a -> exists c t, a = c :: t /\ (is_digit c = true \/ c = "."%char).
Proof.
  assert (D : forall d r, digits0 d -> exists c t, d ++ r = c :: t /\ (is_digit c = true \/ c = "."%char)).
  { intros [|c d] r [Hd D]; [contradiction|]. apply andb_true_iff in D as [D _]. exists c, (d ++ r). auto. }
  intros [b _ | a' b Ha _ | a' Ha | a' Ha]; [exists "."%char, b; auto | apply D; exact Ha | | apply D; exact Ha].
  rewrite <- (app_nil_r a'). apply D; exact Ha.
Qed.

Lemma digit_no_sign c : is_digit c = true -> is_sign c = false.
Proof. intros D. pose proof (digit_not_special c D) as (_ & _ & _ & ? & ? & _). now apply orb_false_iff. Qed.

Lemma number_no_sign a r : number digits0 a -> head_not is_sign (a ++ r).
Proof. intros Ha. destruct (number_first a Ha) as (c & t & -> & [D| ->]); [exact (digit_no_sign c D) | reflexivity]. Qed.

Lemma guards lz ni lzf nf n :
  (0 < lz + ni + lzf + nf <= n)%nat -> (N.of_nat n <= max_digits)%N ->
  (Nat.eqb (ni + nf) 0 && Nat.eqb (lz + lzf) 0)%bool = false /\
  ((max_digits <? N.of_nat (ni + nf))%N || (max_digits <? N.of_nat (lzf + nf))%N)%bool = false.
Proof.
  intros L M. split.
  - apply andb_false_iff. destruct (Nat.eqb_spec (ni + nf) 0); [right; apply Nat.eqb_neq; lia | now left].
  - apply orb_false_iff. split; apply N.ltb_ge; lia.
Qed.

(** A sign, a number and an optional exponent are read whole, when the
    number has at most [MAX_DIGITS] characters. *)
(** A sign, a number and an optional exponent are read whole, as the
    decimal they denote, when the number has at most [MAX_DIGITS]
    characters. *)
Lemma dg_strtod_fwd s a x :
  optsign s -> number digits0 a -> x = [] \/ exponent digits0 x -> (N.of_nat (length a) <= max_digits)%N ->
  dg_strtod (s ++ a ++ x) = Some (decimal_value s a x, []).
Proof.
  intros Hs Ha Hx M. destruct (number_reads a x Ha Hx) as (lz & l2 & ip & ni & l3 & lzf & nf & Sz & Rd & Fr & V & L).
  destruct (guards lz ni lzf nf (length a) L M) as [G1 G2].
  assert (Ex : read_exponent x = (exp_value x, [])).
  { destruct Hx as [->|Hx]; [reflexivity|]. rewrite <- (app_nil_r x) at 1. exact (read_exponent_fwd x [] Hx I). }
  unfold dg_strtod. rewrite (read_sign_fwd s (a ++ x) Hs (number_no_sign a x Ha)), Sz, Rd, Fr.
  cbv beta iota zeta. rewrite G1, G2, Ex. unfold decimal_value. now rewrite V.
Qed.

Lemma number_point I F :
  forallb is_digit I = true -> forallb is_digit F = true -> I ++ F <> [] -> number digits0 (I ++ "."%char :: F).
Proof.
  intros HI HF Hne. destruct I as [|i I']; [apply nb_frac; split; [exact Hne | exact HF]|].
  destruct F as [|f F']; [apply nb_int_point | apply nb_int_frac]; repeat split; (assumption || discriminate).
Qed.

(** What [_Py_dg_strtod] reads whole is a sign and a number of the grammar. *)
Lemma dg_strtod_inv l v :
  dg_strtod l = Some (v, []) -> exists s a, l = s ++ a /\ optsign s /\ floatnumber digits0 a.
Proof.
  unfold dg_strtod. intros H.
  destruct (read_sign l) as [neg l1] eqn:Es. destruct (skip_zeros l1 0) as [lz l2] eqn:Ez.
  destruct (read_digits l2 0 0) as [[ip ni] l3] eqn:Ed.
  destruct (read_fraction ni ip l3) as [[[lzf mant] nf] l4] eqn:Ef.
  destruct (Nat.eqb (ni + nf) 0 && Nat.eqb (lz + lzf) 0)%bool eqn:G; [discriminate|].
  destruct (_ || _)%bool; [discriminate|]. destruct (read_exponent l4) as [e l5] eqn:Ex. injection H as _ ->.
  destruct (read_sign_inv _ _ _ Es) as (s & -> & Hs).
  destruct (skip_zeros_inv _ _ _ _ Ez) as (zs & -> & Z & -> & _).
  destruct (read_digits_inv _ _ _ _ _ _ Ed) as (ds & -> & D & -> & _ & _).
  assert (X : l4 = [] \/ exponent digits0 l4).
  { destruct (read_exponent_inv _ _ _ Ex) as [<-|(x & -> & Hx)]; [now left | right; now rewrite app_nil_r]. }
  pose proof (digits_zeros_app zs ds Z D) as ID. exists s.
  destruct (read_fraction_inv _ _ _ _ _ _ _ Ef) as [(-> & -> & <-)|(F & -> & HF & LF)].
  - exists (zs ++ ds ++ l4). split; [reflexivity|]. split; [exact Hs|].
    exists (zs ++ ds), l4. rewrite app_assoc. split; [reflexivity|]. split; [|exact X].
    apply nb_int. split; [|exact ID]. intros E. apply app_eq_nil in E as [-> ->]. discriminate G.
  - exists (zs ++ ds ++ "."%char :: F ++ l4). split; [reflexivity|]. split; [exact Hs|].
    exists (zs ++ ds ++ "."%char :: F), l4. rewrite <- !app_assoc. split; [reflexivity|]. split; [|exact X].
    rewrite app_assoc. apply number_point; [exact ID | exact HF|]. intros E.
    rewrite <- app_assoc in E. apply app_eq_nil in E as (-> & E). apply app_eq_nil in E as (-> & ->).
    cbn in LF. assert (lzf = 0 /\ nf = 0)%nat as [-> ->] by lia. discriminate G.
Qed.

(** ** [inf], [infinity] and [nan] *)

Lemma match_ci_word w pat r : map lower w = pat -> match_ci pat (w ++ r) = Some r.
Proof.
  intros <-. induction w as [|c w IH]; [destruct r; reflexivity|].
  cbn [map app match_ci]. now rewrite Ascii.eqb_refl.
Qed.

Lemma match_ci_inv pat l r : match_ci pat l = Some r -> exists w, l = w ++ r /\ map lower w = pat.
Proof.
  revert l; induction pat as [|p ps IH]; intros l; [intros [= ->]; now exists []|].
  destruct l as [|c l]; [discriminate|]. cbn [match_ci].
  destruct (Ascii.eqb_spec p (lower c)) as [->|]; [|discriminate].
  intros E. destruct (IH l E) as (w & -> & W). exists (c :: w). cbn. now rewrite W.
Qed.

Lemma forallb_letter w : forallb letter w = forallb in_letters (map lower w).
Proof. induction w as [|c w IH]; [reflexivity|]. cbn. now rewrite IH. Qed.

Lemma special_letters w : special w -> exists c t, w = c :: t /\ forallb letter w = true.
Proof.
  intros Hw. rewrite forallb_letter.
  destruct Hw as [W|[W|W]]; unfold word in W; rewrite W;
    (destruct w as [|c t]; [discriminate|]); exists c, t; split; reflexivity.
Qed.

Lemma letter_char c : letter c = true -> lit_char c = true.
Proof. intros L. unfold lit_char. rewrite L. now rewrite !orb_true_r. Qed.

(** [_Py_dg_strtod] reads nothing of a sign followed by a word. *)
Lemma dg_strtod_special s w : optsign s -> special w -> dg_strtod (s ++ w) = None.
Proof.
  intros Hs Hw. destruct (special_letters w Hw) as (c & t & -> & L). apply andb_true_iff in L as [L _].
  destruct (proj2 (proj2 (lit_char_plain c (letter_char c L))) L) as (D & S & P & _).
  unfold dg_strtod. rewrite (read_sign_fwd s (c :: t) Hs S).
  cbn [skip_zeros]. rewrite (not_zero_head (c :: t) D). cbn [read_digits]. rewrite D.
  rewrite (read_fraction_none 0 0 (c :: t) P). reflexivity.
Qed.

Lemma parse_inf_or_nan_special s w : optsign s -> special w -> exists v, parse_inf_or_nan (s ++ w) = Some (v, []).
Proof.
  intros Hs Hw. destruct (special_letters w Hw) as (c & t & E & L). rewrite E in L. apply andb_true_iff in L as [L _].
  assert (Es : read_sign (s ++ w) = (existsb is_minus s, w)).
  { apply read_sign_fwd; [exact Hs|]. rewrite E. exact (proj1 (proj2 (proj2 (proj2 (lit_char_plain c (letter_char c L))) L))). }
  unfold parse_inf_or_nan. rewrite Es. rewrite <- (app_nil_r w). unfold special, word in Hw.
  destruct Hw as [W|[W|W]].
  - rewrite (match_ci_word _ _ _ W). eexists; reflexivity.
  - destruct (map_eq_app _ _ (list_ascii_of_string "inf") (list_ascii_of_string "inity") W)
      as (w1 & w2 & -> & W1 & W2).
    rewrite <- app_assoc, (match_ci_word _ _ _ W1), (match_ci_word _ _ _ W2). eexists; reflexivity.
  - assert (N : match_ci (list_ascii_of_string "inf") (w ++ []) = None)
      by (rewrite E in W |- *; injection W as Wc _; cbn [app match_ci list_ascii_of_string]; now rewrite Wc).
    rewrite N, (match_ci_word _ _ _ W). eexists; reflexivity.
Qed.

Lemma parse_inf_or_nan_inv l v :
  parse_inf_or_nan l = Some (v, []) -> exists s w, l = s ++ w /\ optsign s /\ special w.
Proof.
  unfold parse_inf_or_nan. destruct (read_sign l) as [neg l1] eqn:Es.
  destruct (read_sign_inv _ _ _ Es) as (s & -> & Hs). intros H. exists s.
  destruct (match_ci (list_ascii_of_string "inf") l1) as [r|] eqn:M1.
  - destruct (match_ci_inv _ _ _ M1) as (w1 & -> & W1).
    destruct (match_ci (list_ascii_of_string "inity") r) as [r'|] eqn:M2; injection H as _ ->.
    + destruct (match_ci_inv _ _ _ M2) as (w2 & -> & W2). exists (w1 ++ w2).
      rewrite !app_nil_r. split; [reflexivity|]. split; [exact Hs|]. right; left.
      unfold word. rewrite map_app, W1, W2. reflexivity.
    + exists w1. rewrite app_nil_r. split; [reflexivity|]. split; [exact Hs|]. now left.
  - destruct (match_ci (list_ascii_of_string "nan") l1) as [r|] eqn:M2; [|discriminate].
    injection H as _ ->. destruct (match_ci_inv _ _ _ M2) as (w & -> & W). exists w.
    rewrite app_nil_r. split; [reflexivity|]. split; [exact Hs|]. right; right. exact W.
Qed.

(** ** Whitespace *)

Lemma forallb_rev (f : ascii -> bool) l : forallb f (rev l) = forallb f l.
Proof. induction l as [|c l IH]; [reflexivity|]. cbn [rev]. rewrite forallb_app, IH. cbn [forallb]. now rewrite andb_true_r, andb_comm. Qed.

Lemma forallb_impl (f g : ascii -> bool) l :
  (forall c, f c = true -> g c = true) -> forallb f l = true -> forallb g l = true.
Proof. intros Hfg H. apply forallb_forall. intros c Hc. apply Hfg. exact (proj1 (forallb_forall _ _) H c Hc). Qed.

Lemma drop_spaces_inv l :
  exists p, l = p ++ drop_spaces l /\ forallb is_space p = true /\ head_not is_space (drop_spaces l).
Proof.
  induction l as [|c l (p & E & P & H)]; [exists []; repeat split|]. cbn [drop_spaces].
  destruct (is_space c) eqn:S; [exists (c :: p); cbn; rewrite S, P, <- E; repeat split; exact H|].
  exists []. repeat split. exact S.
Qed.

Lemma drop_spaces_app p t : forallb is_space p = true -> head_not is_space t -> drop_spaces (p ++ t) = t.
Proof.
  induction p as [|c p IH]; cbn [app drop_spaces forallb].
  - destruct t as [|c t]; [reflexivity|]. cbn. now intros _ ->.
  - intros P Ht. apply andb_true_iff in P as [-> P]. exact (IH P Ht).
Qed.

Lemma head_lit t r : t <> [] -> forallb lit_char t = true -> head_not is_space (t ++ r).
Proof.
  destruct t as [|c t]; [contradiction|]. intros _ L. apply andb_true_iff in L as [L _].
  exact (proj1 (lit_char_plain c L)).
Qed.

(** A literal of the grammar is made of literal characters. *)
Lemma digits_lit d : forallb is_digit d = true -> forallb lit_char d = true.
Proof. apply forallb_impl. intros c D. unfold lit_char. now rewrite D. Qed.

Lemma optsign_lit s : optsign s -> forallb lit_char s = true.
Proof. intros [->|[->| ->]]; reflexivity. Qed.

Lemma number_lit a : number digits0 a -> forallb lit_char a = true.
Proof.
  intros [b [_ Hb] | a' b [_ Ha] [_ Hb] | a' [_ Ha] | a' [_ Ha]]; rewrite ?forallb_app; cbn [forallb];
    rewrite ?digits_lit by assumption; reflexivity.
Qed.

Lemma floatvalue_lit v : floatvalue digits0 v -> v <> [] /\ forallb lit_char v = true.
Proof.
  intros (s & a & -> & Hs & [(a' & x & -> & Ha & Hx)|Hw]); rewrite !forallb_app, optsign_lit by exact Hs.
  - destruct (number_first a' Ha) as (c & t & E & _). split; [rewrite E; now destruct s|].
    rewrite number_lit by exact Ha. destruct Hx as [->|(c' & s' & d & -> & Hc & Hs' & _ & Hd)]; [reflexivity|].
    cbn. rewrite forallb_app, optsign_lit, digits_lit by assumption. now destruct Hc as [-> | ->].
  - destruct (special_letters a Hw) as (c & t & -> & L). split; [now destruct s|].
    exact (forallb_impl _ _ _ letter_char L).
Qed.

Lemma float_from_string_inner_eq m :
  drop_spaces m <> [] ->
  float_from_string_inner m =
  let l2 := rev (drop_spaces (rev (drop_spaces m))) in
  match match dg_strtod l2 with Some p => Some p | None => parse_inf_or_nan l2 end with
  | Some (v, []) => Some v
  | _ => None
  end.
Proof. unfold float_from_string_inner. destruct (drop_spaces m); [contradiction | reflexivity]. Qed.

(** ** The text after the underscores: [float_from_string_inner] *)

(** Around a literal of the grammar, [float_from_string_inner] strips
    exactly the surrounding whitespace. *)
Lemma inner_trim p v q :
  forallb is_space p = true -> forallb is_space q = true -> floatvalue digits0 v ->
  float_from_string_inner (p ++ v ++ q) =
  match match dg_strtod v with Some r => Some r | None => parse_inf_or_nan v end with
  | Some (w, []) => Some w
  | _ => None
  end.
Proof.
  intros Sp Sq Hv. destruct (floatvalue_lit v Hv) as [Hne Lv].
  assert (D1 : drop_spaces (p ++ v ++ q) = v ++ q) by (apply drop_spaces_app; [exact Sp | exact (head_lit v q Hne Lv)]).
  assert (D2 : rev (drop_spaces (rev (v ++ q))) = v).
  { rewrite rev_app_distr, drop_spaces_app, rev_involutive; [reflexivity | now rewrite forallb_rev|].
    rewrite <- (app_nil_r (rev v)). apply head_lit; [now intros E%(f_equal (@rev _)); rewrite rev_involutive in E|].
    now rewrite forallb_rev. }
  rewrite float_from_string_inner_eq by (rewrite D1; now destruct v). cbv zeta. now rewrite D1, D2.
Qed.

Lemma float_text_fwd m :
  (N.of_nat (length m) <= max_digits)%N -> float_text digits0 m -> exists v, float_from_string_inner m = Some v.
Proof.
  intros M (p & v & q & -> & Sp & Sq & Hv). rewrite inner_trim by assumption.
  destruct Hv as (s & a & -> & Hs & [(a' & x & -> & Ha & Hx)|Hw]).
  - assert (La : (N.of_nat (length a') <= max_digits)%N) by (rewrite !length_app in M; lia).
    rewrite (dg_strtod_fwd s a' x Hs Ha Hx La). eauto.
  - rewrite dg_strtod_special by assumption. destruct (parse_inf_or_nan_special s a Hs Hw) as [w ->]. eauto.
Qed.

Lemma float_text_inv m v : float_from_string_inner m = Some v -> float_text digits0 m.
Proof.
  intros H. destruct (drop_spaces m) as [|c0 t0] eqn:D; [unfold float_from_string_inner in H; now rewrite D in H|].
  rewrite float_from_string_inner_eq in H by (rewrite D; discriminate). cbv zeta in H.
  destruct (drop_spaces_inv m) as (p & Em & Sp & _). destruct (drop_spaces_inv (rev (drop_spaces m))) as (q & Eq & Sq & _).
  set (l2 := rev (drop_spaces (rev (drop_spaces m)))) in H.
  assert (Hv : floatvalue digits0 l2).
  { destruct (dg_strtod l2) as [[w r]|] eqn:E.
    - destruct r; [|discriminate]. destruct (dg_strtod_inv _ _ E) as (s & a & -> & Hs & Ha). exists s, a; auto.
    - destruct (parse_inf_or_nan l2) as [[w [|]]|] eqn:E'; try discriminate.
      destruct (parse_inf_or_nan_inv _ _ E') as (s & a & -> & Hs & Ha). exists s, a; auto. }
  exists p, l2, (rev q). split; [|split; [exact Sp|split; [now rewrite forallb_rev | exact Hv]]].
  rewrite Em at 1. f_equal. unfold l2. rewrite <- rev_app_distr, <- Eq. symmetry. apply rev_involutive.
Qed.

(** C26: [float] reads a decimal literal of the grammar (an optional
    sign, digits with an optional point, an optional exponent, at most
    [MAX_DIGITS] digits) as the decimal it denotes: the mantissa is the
    digits without the point, leading zeros included, the exponent the
    written one minus the number of digits after the point; a written
    exponent of [10^9] or more is read as [MAX_ABS_EXP]. *)
Theorem parse_float_value s a x :
  optsign s -> number digits0 a -> x = [] \/ exponent digits0 x -> (N.of_nat (length a) <= max_digits)%N ->
  parse_float (string_of_list_ascii (s ++ a ++ x)) = Some (decimal_value s a x).
Proof.
  intros Hs Ha Hx M. assert (Hv : floatvalue digits0 (s ++ a ++ x)) by (exists s, (a ++ x); split; [reflexivity|]; split; [exact Hs|]; left; exists a, x; auto).
  unfold parse_float. rewrite list_ascii_of_string_of_list_ascii, strip_underscores_none_inside; [|reflexivity|].
  - pose proof (inner_trim [] (s ++ a ++ x) [] eq_refl eq_refl Hv) as T. cbn [app] in T. rewrite app_nil_r in T.
    now rewrite T, (dg_strtod_fwd s a x Hs Ha Hx M).
  - apply (forallb_impl lit_char); [|exact (proj2 (floatvalue_lit _ Hv))].
    intros c L. apply negb_true_iff. exact (proj1 (proj2 (lit_char_plain c L))).
Qed.

(** [-12.50e-003] is [-1250 * 10^-5]; in [1e1000000000] the exponent
    [10^9] is read as [MAX_ABS_EXP]. *)
Lemma parse_float_value_witness :
  parse_float "-12.50e-003" = Some (PDec true 1250 (-5)) /\
  parse_float "1e1000000000" = Some (PDec false 1 1100000000).
Proof.
  split.
  - assert (P : parse_float (string_of_list_ascii (["-"%char] ++ (["1"; "2"]%char ++ "."%char :: ["5"; "0"]%char) ++
                  ["e"; "-"; "0"; "0"; "3"]%char))
                = Some (decimal_value ["-"%char] (["1"; "2"]%char ++ "."%char :: ["5"; "0"]%char) ["e"; "-"; "0"; "0"; "3"]%char)).
    { apply parse_float_value; [right; right; reflexivity | | right | vm_compute; discriminate].
      - apply nb_int_frac; split; [discriminate | reflexivity | discriminate | reflexivity].
      - exists "e"%char, ["-"%char], ["0"; "0"; "3"]%char. split; [reflexivity|]. split; [now left|].
        split; [now right; right|]. split; [discriminate | reflexivity]. }
    exact P.
  - assert (P : parse_float (string_of_list_ascii ([] ++ ["1"%char] ++ ("e" :: "1" :: repeat "0" 9)%char))
                = Some (decimal_value [] ["1"%char] ("e" :: "1" :: repeat "0" 9)%char)).
    { apply parse_float_value; [now left | | right | vm_compute; discriminate].
      - apply nb_int; split; [discriminate | reflexivity].
      - exists "e"%char, [], ("1" :: repeat "0" 9)%char. split; [reflexivity|]. split; [now left|].
        split; [now left|]. split; [discriminate | reflexivity]. }
    exact P.
Defined.
