(* ===== verification/Underscores.v ===== *)
(** * Underscores in [float] texts (src/sky.py lines 32-35)

    [_Py_string_to_number_with_underscores] removes the underscores of a
    text before [float_from_string_inner] reads it: an underscore must
    follow a digit and precede one.  This file relates the grammar with
    digit parts [digitpart] (single underscores between digits) to the
    grammar with [digits0] (no underscores) of [Grammar]:

    - forwards, [sim l m] says that after any character but an underscore
      [strip_underscores] turns [l] into [m] and [l] does not end with an
      underscore; [sim] is closed under concatenation ([sim_app]), a
      digit part is [sim] to its digits, and the other pieces of a
      literal, [plain] characters, are [sim] to themselves;
    - backwards, a text that loses its underscores and becomes a
      concatenation splits at the same places, as long as a non-digit
      stands at each cut ([strip_plain_back], [strip_digits_back]).

    Together with [Grammar.float_text_fwd] and [Grammar.float_text_inv]
    this gives [parse_float_grammar]: the texts [float] accepts are
    exactly those of the reference manual's grammar. *)

From Stdlib Require Import ZArith NArith Ascii String List Bool Lia.
From S2P Require Import Prelude Binary64 Parse Grammar.
Import ListNotations.

(** [digitpart ::= digit (["_"] digit)*]. *)
Inductive digitpart : list ascii -> Prop :=
| dp_one c : is_digit c = true -> digitpart [c]
| dp_more c l : is_digit c = true -> digitpart l -> digitpart (c :: l)
| dp_under c l : is_digit c = true -> digitpart l -> digitpart (c :: "_"%char :: l).

(** [sim l m]: after any character but an underscore, [l] loses its
    underscores and becomes [m], and does not end with an underscore. *)
Definition sim (l m : list ascii) : Prop :=
  forall prev, is_underscore prev = false ->
  strip_underscores prev l = Some m /\ is_underscore (last l prev) = false.

(** The characters around the digit parts: neither underscores nor digits. *)
Definition plain (c : ascii) : bool := negb (is_underscore c) && negb (is_digit c).

(** ** Removing the underscores *)

Lemma strip_app prev l1 l2 :
  is_underscore (last l1 prev) = false ->
  strip_underscores prev (l1 ++ l2) =
  match strip_underscores prev l1 with
  | Some m1 => option_map (app m1) (strip_underscores (last l1 prev) l2)
  | None => None
  end.
Proof.
  revert prev; induction l1 as [|c l1 IH]; intros prev Hl; cbn [app].
  - cbn in Hl |- *. rewrite Hl. now destruct (strip_underscores prev l2).
  - rewrite last_cons in Hl. rewrite !strip_underscores_cons, (IH c Hl), last_cons.
    destruct (is_underscore c); [now destruct (is_digit prev)|].
    destruct (is_underscore prev && negb (is_digit c))%bool; [reflexivity|].
    destruct (strip_underscores c l1), (strip_underscores (last l1 c) l2); reflexivity.
Qed.

Lemma strip_digit_head prev c r :
  is_digit c = true -> strip_underscores prev (c :: r) = option_map (cons c) (strip_underscores c r).
Proof.
  intros D. rewrite strip_underscores_cons, (proj1 (digit_not_special c D)), D.
  now rewrite andb_false_r.
Qed.

Lemma strip_length prev l m : strip_underscores prev l = Some m -> (length m <= length l)%nat.
Proof.
  revert prev m; induction l as [|c l IH]; intros prev m; cbn [strip_underscores].
  - destruct (is_underscore prev); intros [= <-]; reflexivity.
  - destruct (is_underscore c); [destruct (is_digit prev); [intros E; cbn; specialize (IH _ _ E); lia | discriminate]|].
    destruct (is_underscore prev && negb (is_digit c))%bool; [discriminate|].
    destruct (strip_underscores c l) as [m'|] eqn:E; [|discriminate]. intros [= <-]. cbn. specialize (IH _ _ E). lia.
Qed.

Lemma sim_app l1 m1 l2 m2 : sim l1 m1 -> sim l2 m2 -> sim (l1 ++ l2) (m1 ++ m2).
Proof.
  intros H1 H2 prev Hp. destruct (H1 prev Hp) as [E1 U1]. destruct (H2 _ U1) as [E2 U2].
  rewrite strip_app, E1, E2, last_app by exact U1. split; [reflexivity | exact U2].
Qed.

Lemma sim_plain w : forallb (fun c => negb (is_underscore c)) w = true -> sim w w.
Proof.
  intros Hw prev Hp. split; [exact (strip_underscores_none_inside prev w Hp Hw)|].
  apply negb_true_iff. apply (last_forall (fun c => negb (is_underscore c))); [now rewrite Hp | exact Hw].
Qed.

Lemma strip_digitpart l :
  digitpart l -> exists d, digits0 d /\ (forall prev, strip_underscores prev l = Some d) /\
                           (forall prev, is_digit (last l prev) = true).
Proof.
  induction 1 as [c D | c l D _ (d & [_ Hd] & S & L) | c l D _ (d & [_ Hd] & S & L)].
  - exists [c]. split; [split; [discriminate | cbn; now rewrite D]|]. split; [|intros; exact D].
    intros prev. rewrite strip_digit_head by exact D. cbn. now rewrite (proj1 (digit_not_special c D)).
  - exists (c :: d). split; [split; [discriminate | cbn; now rewrite D, Hd]|].
    split; [|intros prev; rewrite last_cons; apply L]. intros prev. rewrite strip_digit_head, S by exact D. reflexivity.
  - exists (c :: d). split; [split; [discriminate | cbn; now rewrite D, Hd]|].
    split; [|intros prev; rewrite !last_cons; apply L]. intros prev.
    rewrite strip_digit_head by exact D. rewrite strip_underscores_cons. cbn [is_underscore nat_of_ascii Nat.eqb].
    rewrite D, S. reflexivity.
Qed.

Lemma sim_digitpart l : digitpart l -> exists d, digits0 d /\ sim l d.
Proof.
  intros H. destruct (strip_digitpart l H) as (d & Hd & S & L). exists d. split; [exact Hd|].
  intros prev _. split; [apply S|]. exact (proj1 (digit_not_special _ (L prev))).
Qed.

Lemma plain_chars c :
  (is_space c = true -> plain c = true) /\ (letter c = true -> plain c = true).
Proof.
  revert c. assert (H : forall c, implb (is_space c || letter c) (plain c) = true)
    by (apply ascii_forall; vm_compute; reflexivity).
  intros c. specialize (H c). split; intros E; rewrite E, ?orb_true_r in H; exact H.
Qed.

Lemma optsign_plain s : optsign s -> forallb plain s = true.
Proof. intros [->|[->| ->]]; reflexivity. Qed.

Lemma plain_sim w : forallb plain w = true -> sim w w.
Proof.
  intros Hw. apply sim_plain. apply (forallb_impl plain); [|exact Hw].
  intros c P. apply andb_true_iff in P as [P _]. exact P.
Qed.

Lemma sim_point : sim ["."%char] ["."%char].
Proof. apply plain_sim. reflexivity. Qed.

Lemma number_sim a : number digitpart a -> exists a', number digits0 a' /\ sim a a'.
Proof.
  intros [b Hb | a0 b Ha Hb | a0 Ha | a0 Ha].
  - destruct (sim_digitpart b Hb) as (b' & Hb' & Sb). exists ("."%char :: b').
    split; [apply nb_frac; exact Hb' | exact (sim_app _ _ _ _ sim_point Sb)].
  - destruct (sim_digitpart a0 Ha) as (a' & Ha' & Sa). destruct (sim_digitpart b Hb) as (b' & Hb' & Sb).
    exists (a' ++ "."%char :: b'). split; [apply nb_int_frac; assumption|].
    apply sim_app; [exact Sa | exact (sim_app _ _ _ _ sim_point Sb)].
  - destruct (sim_digitpart a0 Ha) as (a' & Ha' & Sa). exists a'. split; [apply nb_int; exact Ha' | exact Sa].
  - destruct (sim_digitpart a0 Ha) as (a' & Ha' & Sa). exists (a' ++ ["."%char]).
    split; [apply nb_int_point; exact Ha' | exact (sim_app _ _ _ _ Sa sim_point)].
Qed.

Lemma exponent_sim x : exponent digitpart x -> exists x', exponent digits0 x' /\ sim x x'.
Proof.
  intros (c & s & d & -> & Hc & Hs & Hd). destruct (sim_digitpart d Hd) as (d' & Hd' & S).
  exists (c :: s ++ d'). split; [exists c, s, d'; auto|].
  apply (sim_app (c :: s) (c :: s)); [|exact S]. apply plain_sim.
  cbn [forallb]. rewrite optsign_plain by exact Hs. now destruct Hc as [-> | ->].
Qed.

Lemma special_plain w : special w -> forallb plain w = true.
Proof.
  intros Hw. destruct (special_letters w Hw) as (c & t & _ & L).
  exact (forallb_impl _ _ _ (fun c => proj2 (plain_chars c)) L).
Qed.

Lemma floatvalue_sim v : floatvalue digitpart v -> exists v', floatvalue digits0 v' /\ sim v v'.
Proof.
  intros (s & a & -> & Hs & [(a0 & x & -> & Ha & Hx)|Hw]).
  - destruct (number_sim a0 Ha) as (a' & Ha' & Sa).
    destruct Hx as [->|Hx].
    + exists (s ++ a' ++ []). split; [exists s, (a' ++ []); split; [reflexivity|]; split; [exact Hs|];
        left; exists a', []; auto|].
      apply sim_app; [exact (plain_sim s (optsign_plain s Hs))|]. apply sim_app; [exact Sa|]. apply plain_sim; reflexivity.
    + destruct (exponent_sim x Hx) as (x' & Hx' & Sx). exists (s ++ a' ++ x').
      split; [exists s, (a' ++ x'); split; [reflexivity|]; split; [exact Hs|]; left; exists a', x'; auto|].
      apply sim_app; [exact (plain_sim s (optsign_plain s Hs))|]. exact (sim_app _ _ _ _ Sa Sx).
  - exists (s ++ a). split; [exists s, a; auto|].
    apply sim_app; apply plain_sim; [exact (optsign_plain s Hs) | exact (special_plain a Hw)].
Qed.

Lemma spaces_plain p : forallb is_space p = true -> forallb plain p = true.
Proof. apply forallb_impl. intros c. apply plain_chars. Qed.

(** A text of the grammar loses its underscores and becomes a text of the
    grammar without them. *)
Lemma float_text_strip l :
  float_text digitpart l -> exists m, float_text digits0 m /\ strip_underscores Ascii.zero l = Some m.
Proof.
  intros (p & v & q & -> & Sp & Sq & Hv). destruct (floatvalue_sim v Hv) as (v' & Hv' & S).
  exists (p ++ v' ++ q). split; [exists p, v', q; auto|].
  refine (proj1 (sim_app _ _ _ _ (plain_sim p (spaces_plain p Sp)) (sim_app _ _ _ _ S (plain_sim q (spaces_plain q Sq))) Ascii.zero eq_refl)).
Qed.

(** ** Putting the underscores back *)

Lemma underscore_eq x : is_underscore x = true -> x = "_"%char.
Proof. exact (ascii_code x 95). Qed.

(** After an underscore the next character kept is a digit. *)
Lemma strip_after_underscore r t :
  strip_underscores "_"%char r = Some t -> exists y t', t = y :: t' /\ is_digit y = true.
Proof.
  destruct r as [|c r]; [discriminate|]. rewrite strip_underscores_cons.
  destruct (is_underscore c); [discriminate|]. cbn [is_underscore nat_of_ascii Nat.eqb andb].
  destruct (is_digit c) eqn:D; [|discriminate]. cbn [negb].
  destruct (strip_underscores c r); [|discriminate]. intros [= <-]. eauto.
Qed.

Lemma strip_nil prev l : strip_underscores prev l = Some [] -> l = [].
Proof.
  destruct l as [|c r]; [reflexivity|]. rewrite strip_underscores_cons.
  destruct (is_underscore c) eqn:U; [|destruct (_ && _)%bool; [discriminate|]; now destruct (strip_underscores c r)].
  destruct (is_digit prev); [|discriminate]. rewrite (underscore_eq c U). intros E.
  destruct (strip_after_underscore r [] E) as (? & ? & ? & _). discriminate.
Qed.

Lemma strip_head_nondigit prev l m :
  is_digit prev = false -> strip_underscores prev l = Some m -> head_not is_underscore l.
Proof.
  intros Dp. destruct l as [|c r]; [intros _; exact I|]. rewrite strip_underscores_cons, Dp.
  cbn [head_not]. now destruct (is_underscore c).
Qed.

Lemma last_default {A} (l : list A) a b : l <> [] -> last l a = last l b.
Proof. destruct l as [|x l]; [contradiction|]. now rewrite !last_cons. Qed.

Lemma last_plain w prev : is_digit prev = false -> forallb plain w = true -> is_digit (last w prev) = false.
Proof.
  intros Dp Hw. apply negb_true_iff. apply (last_forall (fun c => negb (is_digit c))); [now rewrite Dp|].
  apply (forallb_impl plain); [|exact Hw]. intros c P. apply andb_true_iff in P as [_ P]. exact P.
Qed.

(** A piece without digits nor underscores is copied as it stands. *)
Lemma strip_plain_back w prev l m2 :
  forallb plain w = true -> strip_underscores prev l = Some (w ++ m2) ->
  exists l2, l = w ++ l2 /\ strip_underscores (last w prev) l2 = Some m2.
Proof.
  revert prev l; induction w as [|c w IH]; intros prev l Hw S; [exists l; auto|].
  apply andb_true_iff in Hw as [Pc Hw]. unfold plain in Pc. apply andb_true_iff in Pc as [Uc Dc].
  apply negb_true_iff in Uc, Dc.
  destruct l as [|x r]; [cbn in S; destruct (is_underscore prev); discriminate|].
  rewrite strip_underscores_cons in S. destruct (is_underscore x) eqn:Ux.
  - destruct (is_digit prev); [|discriminate]. rewrite (underscore_eq x Ux) in S.
    destruct (strip_after_underscore r _ S) as (y & t & [= <- _] & D). congruence.
  - destruct (_ && _)%bool; [discriminate|]. destruct (strip_underscores x r) as [t|] eqn:E; [|discriminate].
    injection S as <- ->. destruct (IH x r Hw E) as (l2 & -> & S2). exists l2. rewrite last_cons. auto.
Qed.

(** A run of digits comes from a digit part, underscores put back. *)
Lemma strip_digits_back d :
  forallb is_digit d = true -> d <> [] ->
  forall prev l m2, head_not is_underscore l -> head_not is_digit m2 ->
  strip_underscores prev l = Some (d ++ m2) ->
  exists l1 l2, l = l1 ++ l2 /\ digitpart l1 /\ strip_underscores (last d prev) l2 = Some m2.
Proof.
  induction d as [|c d IH]; intros Dd Hne prev l m2 Hl Hm S; [contradiction|].
  apply andb_true_iff in Dd as [Dc Dd].
  destruct l as [|x r]; [cbn in S; destruct (is_underscore prev); discriminate|]. cbn in Hl.
  rewrite strip_underscores_cons, Hl in S. destruct (_ && _)%bool; [discriminate|].
  destruct (strip_underscores x r) as [t|] eqn:E; [|discriminate]. injection S as <- ->.
  rewrite last_cons. assert (Hd : d = [] \/ d <> []) by (destruct d; [left | right]; congruence).
  destruct Hd as [->|Hd]; [exists [x], r; split; [reflexivity|]; split; [apply dp_one|]; assumption|].
  destruct r as [|y r]; [cbn in E; rewrite (proj1 (digit_not_special x Dc)) in E; injection E as E; now destruct d|].
  destruct (is_underscore y) eqn:Uy.
  - apply underscore_eq in Uy. subst y. rewrite strip_underscores_cons, Dc in E. change (is_underscore "_"%char) with true in E.
    cbv iota in E. pose proof (strip_head_nondigit "_"%char r _ eq_refl E) as Hr.
    destruct (IH Dd Hd "_"%char r m2 Hr Hm E) as (l1 & l2 & -> & P & S2).
    exists (x :: "_"%char :: l1), l2. split; [reflexivity|]. split; [exact (dp_under x l1 Dc P)|].
    now rewrite (last_default d x "_"%char Hd).
  - destruct (IH Dd Hd x (y :: r) m2 Uy Hm E) as (l1 & l2 & E2 & P & S2).
    exists (x :: l1), l2. rewrite E2. split; [reflexivity|]. split; [exact (dp_more x l1 Dc P) | exact S2].
Qed.

Lemma plain_head w r : forallb plain w = true -> w <> [] -> head_not is_digit (w ++ r).
Proof.
  destruct w as [|c w]; [contradiction|]. intros P _. apply andb_true_iff in P as [P _].
  apply andb_true_iff in P as [_ P]. exact (proj1 (negb_true_iff _) P).
Qed.

Lemma digits_back d prev l m2 :
  digits0 d -> is_digit prev = false -> head_not is_digit m2 ->
  strip_underscores prev l = Some (d ++ m2) ->
  exists l1 l2, l = l1 ++ l2 /\ digitpart l1 /\ strip_underscores (last d prev) l2 = Some m2.
Proof.
  intros [Hne Hd] Dp Hm S. exact (strip_digits_back d Hd Hne prev l m2 (strip_head_nondigit prev l _ Dp S) Hm S).
Qed.

Lemma point_back prev l m2 :
  strip_underscores prev l = Some ("."%char :: m2) ->
  exists l2, l = "."%char :: l2 /\ strip_underscores "."%char l2 = Some m2.
Proof. intros S. exact (strip_plain_back ["."%char] prev l m2 eq_refl S). Qed.

Lemma number_back a prev l m2 :
  number digits0 a -> is_digit prev = false -> head_not is_digit m2 ->
  strip_underscores prev l = Some (a ++ m2) ->
  exists l1 l2, l = l1 ++ l2 /\ number digitpart l1 /\ strip_underscores (last a prev) l2 = Some m2.
Proof.
  intros Ha Dp Hm S. destruct Ha as [b Hb | a b Ha Hb | a Ha | a Ha].
  - destruct (point_back prev l _ S) as (l' & -> & S1).
    destruct (digits_back b "."%char l' m2 Hb eq_refl Hm S1) as (lb & l2 & -> & Pb & S2).
    exists ("."%char :: lb), l2. split; [reflexivity|]. split; [now apply nb_frac|]. now rewrite last_cons.
  - rewrite <- app_assoc in S. destruct (digits_back a prev l ("."%char :: b ++ m2) Ha Dp eq_refl S) as (la & l' & -> & Pa & S1).
    destruct (point_back _ l' _ S1) as (l'' & -> & S2).
    destruct (digits_back b "."%char l'' m2 Hb eq_refl Hm S2) as (lb & l2 & -> & Pb & S3).
    exists (la ++ "."%char :: lb), l2. rewrite <- app_assoc. split; [reflexivity|].
    split; [now apply nb_int_frac|]. now rewrite last_app, last_cons.
  - destruct (digits_back a prev l m2 Ha Dp Hm S) as (la & l2 & -> & Pa & S1).
    exists la, l2. split; [reflexivity|]. split; [now apply nb_int | exact S1].
  - rewrite <- app_assoc in S. destruct (digits_back a prev l ("."%char :: m2) Ha Dp eq_refl S) as (la & l' & -> & Pa & S1).
    destruct (point_back _ l' _ S1) as (l2 & -> & S2).
    exists (la ++ ["."%char]), l2. rewrite <- app_assoc. split; [reflexivity|].
    split; [now apply nb_int_point|]. now rewrite last_last.
Qed.

Lemma exponent_back x prev l m2 :
  exponent digits0 x -> head_not is_digit m2 -> strip_underscores prev l = Some (x ++ m2) ->
  exists l1 l2, l = l1 ++ l2 /\ exponent digitpart l1 /\ strip_underscores (last x prev) l2 = Some m2.
Proof.
  intros (c & s & d & -> & Hc & Hs & Hd) Hm S.
  assert (P : forallb plain (c :: s) = true)
    by (cbn [forallb]; rewrite optsign_plain by exact Hs; now destruct Hc as [-> | ->]).
  replace ((c :: s ++ d) ++ m2) with ((c :: s) ++ d ++ m2) in S by (cbn [app]; now rewrite <- app_assoc).
  destruct (strip_plain_back (c :: s) prev l _ P S) as (l' & -> & S1).
  assert (Dl : is_digit (last (c :: s) prev) = false).
  { rewrite last_cons. apply last_plain; [|exact (proj2 (proj1 (andb_true_iff _ _) P))].
    now destruct Hc as [-> | ->]. }
  destruct (digits_back d _ l' m2 Hd Dl Hm S1) as (ld & l2 & -> & Pd & S2).
  exists (c :: s ++ ld), l2. split; [cbn [app]; now rewrite <- app_assoc|]. split; [exists c, s, ld; auto|].
  change (c :: s ++ d) with ((c :: s) ++ d). now rewrite last_app.
Qed.

Lemma floatnumber_back a prev l m2 :
  floatnumber digits0 a -> is_digit prev = false -> head_not is_digit m2 ->
  strip_underscores prev l = Some (a ++ m2) ->
  exists l1 l2, l = l1 ++ l2 /\ floatnumber digitpart l1 /\ strip_underscores (last a prev) l2 = Some m2.
Proof.
  intros (n & x & -> & Hn & Hx) Dp Hm S. rewrite <- app_assoc in S.
  assert (Hxm : head_not is_digit (x ++ m2)) by (destruct Hx as [->|(c & s & d & -> & [-> | ->] & _)]; easy).
  destruct (number_back n prev l _ Hn Dp Hxm S) as (ln & l' & -> & Pn & S1).
  destruct Hx as [->|Hx].
  - exists ln, l'. split; [reflexivity|]. split; [exists ln, []; rewrite app_nil_r; auto|]. now rewrite app_nil_r.
  - destruct (exponent_back x _ l' m2 Hx Hm S1) as (lx & l2 & -> & Px & S2).
    exists (ln ++ lx), l2. split; [now rewrite app_assoc|]. split; [exists ln, lx; auto|]. now rewrite last_app.
Qed.

Lemma floatvalue_back v prev l m2 :
  floatvalue digits0 v -> is_digit prev = false -> head_not is_digit m2 ->
  strip_underscores prev l = Some (v ++ m2) ->
  exists l1 l2, l = l1 ++ l2 /\ floatvalue digitpart l1 /\ strip_underscores (last v prev) l2 = Some m2.
Proof.
  intros (s & a & -> & Hs & Ha) Dp Hm S. rewrite <- app_assoc in S.
  destruct (strip_plain_back s prev l _ (optsign_plain s Hs) S) as (l' & -> & S1).
  pose proof (last_plain s prev Dp (optsign_plain s Hs)) as Dl.
  assert (exists la l2, l' = la ++ l2 /\ (floatnumber digitpart la \/ special la) /\
                        strip_underscores (last a (last s prev)) l2 = Some m2) as (la & l2 & -> & Pa & S2).
  { destruct Ha as [Ha|Ha].
    - destruct (floatnumber_back a _ l' m2 Ha Dl Hm S1) as (la & l2 & E & P & S2). exists la, l2. auto.
    - destruct (strip_plain_back a _ l' m2 (special_plain a Ha) S1) as (l2 & -> & S2). exists a, l2. auto. }
  exists (s ++ la), l2. split; [now rewrite app_assoc|]. split; [exists s, la; auto|]. now rewrite last_app.
Qed.

(** What loses its underscores and becomes a text of the grammar without
    them is a text of the grammar with them. *)
Lemma float_text_back l m :
  float_text digits0 m -> strip_underscores Ascii.zero l = Some m -> float_text digitpart l.
Proof.
  intros (p & v & q & -> & Sp & Sq & Hv) S.
  destruct (strip_plain_back p _ l _ (spaces_plain p Sp) S) as (l' & -> & S1).
  pose proof (last_plain p Ascii.zero eq_refl (spaces_plain p Sp)) as Dl.
  assert (Hq : head_not is_digit q).
  { destruct q as [|c q]; [exact I|]. rewrite <- (app_nil_r (c :: q)). apply plain_head; [exact (spaces_plain _ Sq) | discriminate]. }
  destruct (floatvalue_back v _ l' q Hv Dl Hq S1) as (lv & l2 & -> & Pv & S2).
  rewrite <- (app_nil_r q) in S2. destruct (strip_plain_back q _ l2 [] (spaces_plain q Sq) S2) as (l3 & -> & S3).
  rewrite (strip_nil _ _ S3), app_nil_r. exists p, lv, q. auto.
Qed.

(** ** The grammar is what [float] accepts *)

(** C27 (refinement): on an ASCII text of at most [MAX_DIGITS] characters,
    [float] returns a value exactly when the text belongs to the grammar
    of the reference manual: optional whitespace, a sign, then a decimal
    number with an optional exponent, whose digit parts may have single
    underscores between digits, or [inf], [infinity], [nan] in any case.
    Removing the underscores, stripping the whitespace, [_Py_dg_strtod]
    and [_Py_parse_inf_or_nan] together implement the grammar. *)
Theorem parse_float_grammar (l : list ascii) :
  (N.of_nat (length l) <= max_digits)%N ->
  (float_text digitpart l <-> exists v, parse_float (string_of_list_ascii l) = Some v).
Proof.
  intros M. unfold parse_float. rewrite list_ascii_of_string_of_list_ascii. split.
  - intros H. destruct (float_text_strip l H) as (m & Hm & S). rewrite S.
    apply float_text_fwd; [|exact Hm]. pose proof (strip_length _ _ _ S). lia.
  - destruct (strip_underscores Ascii.zero l) as [m|] eqn:S; [|intros (v & [=])].
    intros (v & E). exact (float_text_back l m (float_text_inv m v E) S).
Qed.

(** [" -1_0.5e-0_3 "] is a literal of the grammar; [1__0], with two
    underscores in a row, is not. *)
Lemma parse_float_grammar_witness :
  float_text digitpart (list_ascii_of_string " -1_0.5e-0_3 ") /\
  ~ float_text digitpart (list_ascii_of_string "1__0").
Proof.
  split.
  - apply (proj2 (parse_float_grammar (list_ascii_of_string " -1_0.5e-0_3 ") ltac:(vm_compute; discriminate))).
    eexists. vm_compute. reflexivity.
  - intros H. apply (proj1 (parse_float_grammar (list_ascii_of_string "1__0") ltac:(vm_compute; discriminate)))
      in H as (v & E).
    vm_compute in E. discriminate E.
Defined.
