(* ===== verification/Shell.v ===== *)
(** * The presentation shell: the handler [simular_salto] as a state
    transformer (src/sky.py lines 10-23, 26-126, 129-171)

    [ui] is everything the handler reads or writes: the state of the
    [Saltar] button, the text of [label_resultado], the axes (face colour,
    limits, decorations, artists), a store of the matplotlib artists by
    identity, the three module globals [linea_trayectoria], [esquiador] and
    [ani], the [FuncAnimation] objects that are still running, Tk's pending
    [after] timers and the clock.  [simular_salto] follows the source
    statement by statement: disable the button, parse the four fields,
    run the engine, clear and redraw the axes, create the animated artists,
    schedule [on_animation_end] after [len(t) * 10] ms, start the animation
    (its first draw calls [actualizar(0)]), write the summary.  Two early
    exits return with the button enabled again (parse error, no
    intersection: [parse_error_recovers], [no_intersection_recovers]); the
    axis-limit calls of lines 89-90 raise [ValueError] on a NaN or infinite
    limit (matplotlib's [_validate_converted_limits]), and Tk swallows the
    exception after the state changes already made, so the button stays
    disabled ([invalid_limits_leave_button_disabled]).  A valid launch has
    the effects of [launch_effects]; every path keeps the invariant
    [ui_wf].

    [actualizar] is the closure of lines 110-113: it captures the arrays
    [x], [y] of its own call but reads the globals [linea_trayectoria] and
    [esquiador] when it runs.  Python's [float] is [py_float] of the class
    [PyFloat] (file [Parse]). *)

From Stdlib Require Import ZArith Bool List Lia String Reals Lra Floats.
From S2P Require Import RealInst.
From S2P Require Import Prelude Linspace Trajectory Sweep Engine Binary64 Parse.
Import ListNotations.

Inductive btn_state := NORMAL | DISABLED.

(** The face of the axes: the mountain image of line 15 before the first
    jump, the colour [skyblue] of line 88 after. *)
Inductive face := Fondo | SkyBlue.

Section Model.
Context {T : Type} `{Scalar T} `{PyFloat T}.
Local Open Scope scalar_scope.

(** The texts of [label_resultado]: empty (line 160), the two error
    messages of lines 37 and 54, and the summary of lines 124-126. *)
Inductive mensaje :=
| MsgVacio
| MsgNoNumerico
| MsgSinInterseccion
| MsgResultado (distancia mejor_ang mejor_dist : T).

(** The four entries of lines 138-155, as typed. *)
Record entradas := mk_entradas {
  e_velocidad : string; e_angulo : string; e_pendiente : string; e_altura : string }.

(** The matplotlib artists the program creates. *)
Inductive artist :=
| ALinea (xs ys : list T)            (** [ax.plot([], [], "b")], [set_data] *)
| ARellenoPista (xs ys : list T) (base : T)   (** [ax.fill_between] of line 99 *)
| APista (xs ys : list T)            (** the dashed ramp of line 100 *)
| AEsquiador (x y : T)               (** the [AnnotationBbox] sprite, [.xy] *)
| AAterrizaje (x y : T).             (** the red landing marker of line 107 *)

Record axes := mk_axes {
  ax_face : face;
  ax_xlim : option (T * T);
  ax_ylim : option (T * T);
  ax_decor : bool;                   (** title, axis labels and grid, lines 91-94 *)
  ax_artists : list nat }.           (** the artists drawn, by identity *)

(** A running [FuncAnimation]: the arrays its [actualizar] closure
    captured, the number of frames, and the next frame index. *)
Record animacion := mk_anim { an_x : list T; an_y : list T; an_frames : nat; an_next : nat }.

(** Tk [after] callbacks: the animation timer of an animation, and
    [on_animation_end]. *)
Inductive callback := CbFrame (a : nat) | CbEnd.

Record timer := mk_timer { tm_due : nat; tm_cb : callback }.

Record ui := mk_ui {
  boton : btn_state;
  etiqueta : mensaje;
  ejes : axes;
  store : list (nat * artist);       (** newest binding first *)
  next_id : nat;
  g_linea : nat;                     (** global [linea_trayectoria] *)
  g_esquiador : option nat;          (** global [esquiador] *)
  g_ani : option nat;                (** global [ani] *)
  anims : list animacion;
  timers : list timer;               (** in scheduling order *)
  clock : nat }.

(** ** Field updates *)

Definition set_boton b s :=
  mk_ui b (etiqueta s) (ejes s) (store s) (next_id s) (g_linea s) (g_esquiador s)
        (g_ani s) (anims s) (timers s) (clock s).
Definition set_etiqueta l s :=
  mk_ui (boton s) l (ejes s) (store s) (next_id s) (g_linea s) (g_esquiador s)
        (g_ani s) (anims s) (timers s) (clock s).
Definition set_ejes a s :=
  mk_ui (boton s) (etiqueta s) a (store s) (next_id s) (g_linea s) (g_esquiador s)
        (g_ani s) (anims s) (timers s) (clock s).

(** [artist.set_data(...)] / [artist.xy = ...]: rebind an identity. *)
Definition set_artist (id : nat) (a : artist) s :=
  mk_ui (boton s) (etiqueta s) (ejes s) ((id, a) :: store s) (next_id s) (g_linea s)
        (g_esquiador s) (g_ani s) (anims s) (timers s) (clock s).

Definition lookup_artist (id : nat) (s : ui) : option artist :=
  match find (fun p => Nat.eqb (fst p) id) (store s) with
  | Some (_, a) => Some a
  | None => None
  end.

(** [ventana.after(ms, cb)]: append a timer due [ms] from now. *)
Definition add_timer (ms : nat) (cb : callback) s :=
  mk_ui (boton s) (etiqueta s) (ejes s) (store s) (next_id s) (g_linea s) (g_esquiador s)
        (g_ani s) (anims s) (timers s ++ [mk_timer (clock s + ms) cb]) (clock s).

(** ** The handler *)

(** Lines 32-35, in order: the first field that [float] rejects raises
    [ValueError]; the slope is negated. *)
Definition parse_entradas (e : entradas) : option (inputs T) :=
  match py_float (e_velocidad e) with
  | None => None
  | Some v =>
    match py_float (e_angulo e) with
    | None => None
    | Some a =>
      match py_float (e_pendiente e) with
      | None => None
      | Some p =>
        match py_float (e_altura e) with
        | None => None
        | Some hh => Some (mk_inputs v a (s_opp p) hh)
        end
      end
    end
  end.

(** Lines 110-113: [linea_trayectoria.set_data(x[:frame], y[:frame])] and
    [esquiador.xy = (x[frame], y[frame])]; [x], [y] are the closure's, the
    two artists are whatever the globals name when the frame runs. *)
Definition actualizar (x y : list T) (frame : nat) (s : ui) : ui :=
  let s := set_artist (g_linea s) (ALinea (firstn frame x) (firstn frame y)) s in
  match g_esquiador s with
  | Some e => set_artist e (AEsquiador (nth frame x (#0)) (nth frame y (#0))) s
  | None => s
  end.

(** Matplotlib accepts only finite axis limits. *)
Definition finite2 (a b : T) : bool := (s_isfinite a && s_isfinite b)%bool.

(** The axes right after [ax.clear()] and [ax.set_facecolor("skyblue")]
    (lines 87-88). *)
Definition ejes_limpios : axes := mk_axes SkyBlue None None false [].

(** Lines 96-126, once the limits are valid: the ramp polygon and line
    over [np.linspace(x0, xmax, 400)], the empty trajectory line, the
    sprite at [(x[0], y[0])], the landing marker; [ani = FuncAnimation(...,
    frames=len(t))]; [ventana.after(len(t) * 10, on_animation_end)];
    [canvas.draw()], which renders the figure in [r] ms and whose draw
    event then starts the animation with [actualizar(0)] and its 1 ms
    timer; finally the summary.  The end timer is due [len(t) * 10] ms
    after the press, the first tick [r + 1] ms after it. *)
Definition lanzar (r : nat) (i : inputs T) (tr : trajectory T) (md ma : T) (L : limits T) (s : ui) : ui :=
  let xp := linspace x0 (xmax L) 400 in
  let yp := map (ramp i) xp in
  let n := next_id s in
  let a := List.length (anims s) in
  let xs := tr_x tr in
  let ys := tr_y tr in
  let ax := mk_axes SkyBlue (Some (#0, xmax L)) (Some (ymin L, ymax L)) true
                    [n; n + 1; n + 2; n + 3; n + 4] in
  let st := (n + 4, AAterrizaje (x_land tr) (y_land tr))
            :: (n + 3, AEsquiador (nth 0 xs (#0)) (nth 0 ys (#0)))
            :: (n + 2, ALinea [] []) :: (n + 1, APista xp yp)
            :: (n, ARellenoPista xp yp (ymin L)) :: store s in
  let s1 := mk_ui (boton s) (etiqueta s) ax st (n + 5) (n + 2) (Some (n + 3)) (Some a)
                  (anims s ++ [mk_anim xs ys (List.length (tr_t tr)) 0])
                  (timers s ++ [mk_timer (clock s + List.length (tr_t tr) * 10) CbEnd]) (clock s + r) in
  let s2 := add_timer 1 (CbFrame a) (actualizar xs ys 0 s1) in
  set_etiqueta (MsgResultado (x_land tr -! x0) ma md) s2.

(** Lines 26-126. *)
Definition simular_salto (r : nat) (e : entradas) (s : ui) : ui :=
  let s := set_boton DISABLED s in
  match parse_entradas e with
  | None => set_boton NORMAL (set_etiqueta MsgNoNumerico s)
  | Some i =>
    match simula i with
    | NoIntersection => set_boton NORMAL (set_etiqueta MsgSinInterseccion s)
    | Flight tr (md, ma) =>
      match limites i tr md with
      | None => s
      | Some L =>
        if negb (finite2 (#0) (xmax L)) then set_ejes ejes_limpios s
        else if negb (finite2 (ymin L) (ymax L)) then
          set_ejes (mk_axes SkyBlue (Some (#0, xmax L)) None false []) s
        else lanzar r i tr md ma L s
      end
    end
  end.

(** Lines 115-116. *)
Definition on_animation_end (s : ui) : ui := set_boton NORMAL s.

(** ** The state built at start-up *)

(** Lines 10-23 and 129-171: the axes show the mountain image (artist 0)
    over its extent and the empty global line (artist 1); the entries hold
    their defaults; the button is enabled and the label empty. *)
Definition entradas_iniciales : entradas := mk_entradas "25" "22.8" "1" "20".

Definition ui_inicial : ui :=
  mk_ui NORMAL MsgVacio
        (mk_axes Fondo (Some (s_opp (#50), #120)) (Some (s_opp (#10), #40)) false [0; 1])
        [(1, ALinea [] [])] 2 1 None None [] [] 0.
End Model.

Arguments mensaje T : clear implicits.
Arguments artist T : clear implicits.
Arguments axes T : clear implicits.
Arguments animacion T : clear implicits.
Arguments ui T : clear implicits.

(** ** The handler's paths *)

Section Paths.
Context {T : Type} `{Scalar T} `{PyFloat T}.
Local Open Scope scalar_scope.

(** The parts of the state the drawing and the animation own: untouched
    by an early exit. *)
Definition same_canvas (s s' : ui T) : Prop :=
  ejes s' = ejes s /\ store s' = store s /\ next_id s' = next_id s /\
  g_linea s' = g_linea s /\ g_esquiador s' = g_esquiador s /\ g_ani s' = g_ani s /\
  anims s' = anims s /\ timers s' = timers s /\ clock s' = clock s.

Lemma same_canvas_set_boton b s : same_canvas s (set_boton b s).
Proof. repeat split. Qed.

Lemma same_canvas_set_etiqueta l s : same_canvas s (set_etiqueta l s).
Proof. repeat split. Qed.

Lemma same_canvas_trans s1 s2 s3 : same_canvas s1 s2 -> same_canvas s2 s3 -> same_canvas s1 s3.
Proof. unfold same_canvas. intuition congruence. Qed.

Lemma parse_entradas_none e :
  parse_entradas e = None <->
  py_float (e_velocidad e) = None \/ py_float (e_angulo e) = None \/
  py_float (e_pendiente e) = None \/ py_float (e_altura e) = None.
Proof.
  unfold parse_entradas.
  destruct (py_float (e_velocidad e)), (py_float (e_angulo e)),
           (py_float (e_pendiente e)), (py_float (e_altura e)); intuition discriminate.
Qed.

(** The early exits of lines 36-39 and 53-56. *)
Lemma simular_salto_early r e s msg :
  simular_salto r e s = set_boton NORMAL (set_etiqueta msg (set_boton DISABLED s)) ->
  boton (simular_salto r e s) = NORMAL /\ etiqueta (simular_salto r e s) = msg /\
  same_canvas s (simular_salto r e s).
Proof.
  intros ->. split; [reflexivity|]. split; [reflexivity|].
  eapply same_canvas_trans; [apply same_canvas_set_boton|].
  eapply same_canvas_trans; [apply same_canvas_set_etiqueta|]. apply same_canvas_set_boton.
Qed.
End Paths.

(** C17: a text that [float] rejects in any one of the four fields shows
    the non-numeric message and re-enables the button, and leaves the
    canvas, the globals, the animations and the timers as they were. *)
Theorem parse_error_recovers {T} `{Scalar T} `{PyFloat T} (r : nat) (e : entradas) (s : ui T) :
  py_float (e_velocidad e) = None \/ py_float (e_angulo e) = None \/
  py_float (e_pendiente e) = None \/ py_float (e_altura e) = None ->
  boton (simular_salto r e s) = NORMAL /\ etiqueta (simular_salto r e s) = MsgNoNumerico /\
  same_canvas s (simular_salto r e s).
Proof.
  intros Hbad. apply simular_salto_early. unfold simular_salto.
  now rewrite (proj2 (parse_entradas_none e) Hbad).
Qed.

(** C18: parameters whose landing time is not positive show the
    no-intersection message and re-enable the button, with the canvas,
    the globals, the animations and the timers untouched. *)
Theorem no_intersection_recovers {T} `{Scalar T} `{PyFloat T} (r : nat) (e : entradas) (s : ui T) i :
  parse_entradas e = Some i -> simula i = NoIntersection ->
  boton (simular_salto r e s) = NORMAL /\ etiqueta (simular_salto r e s) = MsgSinInterseccion /\
  same_canvas s (simular_salto r e s).
Proof.
  intros Hp Hs. apply simular_salto_early. unfold simular_salto. now rewrite Hp, Hs.
Qed.

(** C19: when the axis limits of lines 82-84 are not all finite,
    [set_xlim] or [set_ylim] raises after line 29 disabled the button: the
    handler ends with the button disabled, the label unchanged, and no
    [on_animation_end] scheduled to enable it again. *)
Theorem invalid_limits_leave_button_disabled {T} `{Scalar T} `{PyFloat T}
    (r : nat) (e : entradas) (s : ui T) i tr md ma L :
  parse_entradas e = Some i -> simula i = Flight tr (md, ma) -> limites i tr md = Some L ->
  (finite2 (#0)%sc (xmax L) && finite2 (ymin L) (ymax L))%bool = false ->
  boton (simular_salto r e s) = DISABLED /\ etiqueta (simular_salto r e s) = etiqueta s /\
  timers (simular_salto r e s) = timers s /\ anims (simular_salto r e s) = anims s.
Proof.
  intros Hp Hs HL Hf. unfold simular_salto. rewrite Hp, Hs, HL.
  destruct (finite2 _ (xmax L)); simpl in Hf |- *; [rewrite Hf|]; repeat split.
Qed.

(** ** Well-formedness of the UI state *)

Section WellFormed.
Context {T : Type} `{Scalar T} `{PyFloat T}.
Local Open Scope scalar_scope.

(** Artist identities are below the allocation counter, the globals name
    allocated artists and a created animation, and every animation timer
    belongs to a created animation. *)
Definition ui_wf (s : ui T) : Prop :=
  (forall id a, In (id, a) (store s) -> id < next_id s) /\
  g_linea s < next_id s /\
  (forall e, g_esquiador s = Some e -> e < next_id s) /\
  (forall a, g_ani s = Some a -> a < List.length (anims s)) /\
  (forall t a, In t (timers s) -> tm_cb t = CbFrame a -> a < List.length (anims s)) /\
  g_esquiador s <> Some (g_linea s).

Ltac wf_split := split; [|split; [|split; [|split; [|split]]]].

Lemma ui_wf_inicial : ui_wf ui_inicial.
Proof.
  wf_split; cbn.
  - intros id a [E|[]]. injection E as <- _. lia.
  - lia.
  - intros e' E; discriminate.
  - intros a' E; discriminate.
  - intros t a' [].
  - discriminate.
Qed.

Lemma ui_wf_set_boton b s : ui_wf s -> ui_wf (set_boton b s).
Proof. exact (fun H => H). Qed.

Lemma ui_wf_set_etiqueta l s : ui_wf s -> ui_wf (set_etiqueta l s).
Proof. exact (fun H => H). Qed.

Lemma ui_wf_set_ejes a s : ui_wf s -> ui_wf (set_ejes a s).
Proof. exact (fun H => H). Qed.

Lemma ui_wf_set_artist id a s : id < next_id s -> ui_wf s -> ui_wf (set_artist id a s).
Proof.
  intros Hid (W1 & W2 & W3 & W4 & W5 & W6). wf_split; cbn; auto.
  intros id' a' [E|Hin]; [injection E as <- _; exact Hid | eauto].
Qed.

Lemma ui_wf_actualizar x y k s : ui_wf s -> ui_wf (actualizar x y k s).
Proof.
  intros W. pose proof W as (_ & W2 & W3 & _ & _ & _). unfold actualizar.
  assert (W' : ui_wf (set_artist (g_linea s) (ALinea (firstn k x) (firstn k y)) s))
    by (apply ui_wf_set_artist; [exact W2 | exact W]).
  cbn [g_esquiador set_artist]. destruct (g_esquiador s) as [e'|] eqn:Ee; [|exact W'].
  apply ui_wf_set_artist; [exact (W3 e' eq_refl) | exact W'].
Qed.

Lemma ui_wf_add_timer ms cb s :
  (forall a, cb = CbFrame a -> a < List.length (anims s)) -> ui_wf s -> ui_wf (add_timer ms cb s).
Proof.
  intros Hcb (W1 & W2 & W3 & W4 & W5 & W6). wf_split; cbn; auto.
  intros t a Hin Ht. apply in_app_or in Hin as [Hin|[<-|[]]]; eauto.
Qed.

Lemma anims_actualizar x y k s : anims (actualizar x y k s) = anims s.
Proof. unfold actualizar. cbn. now destruct (g_esquiador s). Qed.

Lemma ui_wf_lanzar r i tr md ma L s : ui_wf s -> ui_wf (lanzar r i tr md ma L s).
Proof.
  intros W. unfold lanzar. cbv zeta. generalize (linspace x0 (xmax L) 400); intros xp.
  apply ui_wf_set_etiqueta. set (s1 := mk_ui _ _ _ _ _ _ _ _ _ _ _).
  assert (W1 : ui_wf s1).
  { destruct W as (W1 & W2 & W3 & W4 & W5 & W6). subst s1.
    wf_split; cbn; rewrite ?length_app; cbn.
    - intros id a Hin. destruct Hin as [E|[E|[E|[E|[E|Hin]]]]];
        try (injection E as <- _; lia). specialize (W1 id a Hin). lia.
    - lia.
    - intros e' E. injection E as <-. lia.
    - intros a' E. injection E as <-. lia.
    - intros t a' Hin Ht. apply in_app_or in Hin as [Hin|[<-|[]]]; [|discriminate].
      specialize (W5 t a' Hin Ht). lia.
    - intros E. injection E. lia. }
  apply ui_wf_add_timer; [|now apply ui_wf_actualizar].
  intros a' E. injection E as <-. rewrite anims_actualizar. subst s1. cbn.
  rewrite length_app. cbn. lia.
Qed.

#[local] Hint Resolve ui_wf_set_boton ui_wf_set_etiqueta ui_wf_set_ejes ui_wf_lanzar : skijump.

(** The handler keeps the UI state well formed, whichever path it takes. *)
Lemma ui_wf_simular_salto (r : nat) (e : entradas) (s : ui T) : ui_wf s -> ui_wf (simular_salto r e s).
Proof.
  intros W. unfold simular_salto.
  destruct (parse_entradas e) as [i|]; [|auto with skijump].
  destruct (simula i) as [|tr [md ma]]; [auto with skijump|].
  destruct (limites i tr md) as [L|]; [|auto with skijump].
  destruct (negb _); [auto with skijump|]. destruct (negb _); auto with skijump.
Qed.
End WellFormed.

#[export] Hint Resolve ui_wf_set_boton ui_wf_set_etiqueta ui_wf_set_ejes ui_wf_actualizar
  ui_wf_lanzar : skijump.

(** The launch path of the handler: parse, flight, finite limits. *)
Lemma simular_salto_launch {T} `{Scalar T} `{PyFloat T} (r : nat) (e : entradas) (s : ui T) i tr md ma L :
  parse_entradas e = Some i -> simula i = Flight tr (md, ma) -> limites i tr md = Some L ->
  (finite2 (#0)%sc (xmax L) && finite2 (ymin L) (ymax L))%bool = true ->
  simular_salto r e s = lanzar r i tr md ma L (set_boton DISABLED s).
Proof.
  intros Hp Hs HL Hf. unfold simular_salto. rewrite Hp, Hs, HL.
  apply andb_true_iff in Hf as [-> ->]. reflexivity.
Qed.

(** What a launch schedules and starts, from any state. *)
Lemma lanzar_schedule {T} `{Scalar T} r i tr md ma L (s : ui T) :
  boton (lanzar r i tr md ma L s) = boton s /\
  timers (lanzar r i tr md ma L s)
  = timers s ++ [mk_timer (clock s + List.length (tr_t tr) * 10) CbEnd;
                 mk_timer (clock s + r + 1) (CbFrame (List.length (anims s)))] /\
  anims (lanzar r i tr md ma L s) = anims s ++ [mk_anim (tr_x tr) (tr_y tr) (List.length (tr_t tr)) 0] /\
  clock (lanzar r i tr md ma L s) = clock s + r.
Proof.
  unfold lanzar, add_timer, actualizar. cbv zeta.
  generalize (linspace x0 (xmax L) 400); intros xp. cbn. rewrite <- app_assoc.
  repeat split.
Qed.

(** What a launch draws: the globals name the fresh line [next_id + 2],
    still empty after the first draw, and the fresh sprite [next_id + 3]
    at the first sample. *)
Lemma lanzar_draws {T} `{Scalar T} r i tr md ma L (s : ui T) :
  g_linea (lanzar r i tr md ma L s) = next_id s + 2 /\
  g_esquiador (lanzar r i tr md ma L s) = Some (next_id s + 3) /\
  lookup_artist (next_id s + 2) (lanzar r i tr md ma L s) = Some (ALinea [] []) /\
  lookup_artist (next_id s + 3) (lanzar r i tr md ma L s)
  = Some (AEsquiador (nth 0 (tr_x tr) (#0)%sc) (nth 0 (tr_y tr) (#0)%sc)).
Proof.
  unfold lanzar. cbv zeta. generalize (linspace x0 (xmax L) 400); intros xp.
  unfold set_etiqueta, add_timer, actualizar, lookup_artist. cbn.
  rewrite !Nat.eqb_refl. destruct (Nat.eqb_spec (next_id s + 2) (next_id s + 3)); [lia|].
  destruct (Nat.eqb_spec (next_id s + 3) (next_id s + 2)); [lia|]. repeat split.
Qed.

(** C20: a valid launch disables the button, schedules exactly two timers
    ([on_animation_end] [len(t) * 10] ms after the press, then the
    animation's first tick [1] ms after [canvas.draw()] has rendered the
    figure in [r] ms), starts one animation over the trajectory's arrays,
    points the three globals at it and at freshly allocated artists, and
    reports the landing distance [x_land - x0] with the sweep's pair. *)
Theorem launch_effects {T} `{Scalar T} `{PyFloat T} (r : nat) (e : entradas) (s : ui T) i tr md ma L :
  ui_wf s ->
  parse_entradas e = Some i -> simula i = Flight tr (md, ma) -> limites i tr md = Some L ->
  (finite2 (#0)%sc (xmax L) && finite2 (ymin L) (ymax L))%bool = true ->
  boton (simular_salto r e s) = DISABLED /\
  etiqueta (simular_salto r e s) = MsgResultado (x_land tr -! x0)%sc ma md /\
  timers (simular_salto r e s)
  = timers s ++ [mk_timer (clock s + List.length (tr_t tr) * 10) CbEnd;
                 mk_timer (clock s + r + 1) (CbFrame (List.length (anims s)))] /\
  anims (simular_salto r e s) = anims s ++ [mk_anim (tr_x tr) (tr_y tr) (List.length (tr_t tr)) 0] /\
  g_ani (simular_salto r e s) = Some (List.length (anims s)) /\
  g_linea (simular_salto r e s) = next_id s + 2 /\
  g_esquiador (simular_salto r e s) = Some (next_id s + 3) /\
  (forall a, In (next_id s + 2, a) (store s) \/ In (next_id s + 3, a) (store s) -> False).
Proof.
  intros (W1 & _) Hp Hs HL Hf. unfold simular_salto. rewrite Hp, Hs, HL.
  apply andb_true_iff in Hf as [-> ->]. cbn [negb].
  unfold lanzar, add_timer, actualizar. cbn. rewrite <- app_assoc.
  repeat (split; [reflexivity|]).
  intros a [Ha|Ha]; [apply W1 in Ha | apply W1 in Ha]; cbn in Ha; lia.
Qed.

(** What a frame draws: the trajectory line bound to the global
    [linea_trayectoria] holds the prefix [x[:k]], and the sprite bound to
    the global [esquiador] sits at [(x[k], y[k])]. *)
Lemma lookup_actualizar_line {T} `{Scalar T} (x y : list T) (k : nat) (s : ui T) :
  g_esquiador s <> Some (g_linea s) ->
  lookup_artist (g_linea s) (actualizar x y k s) = Some (ALinea (firstn k x) (firstn k y)).
Proof.
  intros Hne. unfold actualizar, lookup_artist. cbn.
  destruct (g_esquiador s) as [e'|]; cbn; [|now rewrite Nat.eqb_refl].
  destruct (Nat.eqb_spec e' (g_linea s)) as [->|_]; [congruence|]. cbn.
  now rewrite Nat.eqb_refl.
Qed.

Lemma lookup_actualizar_sprite {T} `{Scalar T} (x y : list T) (k e : nat) (s : ui T) :
  g_esquiador s = Some e ->
  lookup_artist e (actualizar x y k s) = Some (AEsquiador (nth k x (#0)%sc) (nth k y (#0)%sc)).
Proof.
  intros He. unfold actualizar, lookup_artist. cbn. rewrite He. cbn. now rewrite Nat.eqb_refl.
Qed.

Lemma actualizar_globals {T} `{Scalar T} (x y : list T) (k : nat) (s : ui T) :
  g_linea (actualizar x y k s) = g_linea s /\ g_esquiador (actualizar x y k s) = g_esquiador s.
Proof. unfold actualizar. destruct (g_esquiador s) eqn:E; cbn; rewrite ?E; auto. Qed.

(** ** Concrete runs *)

Local Open Scope R_scope.

(** The default form with a horizontal launch: speed 25, angle 0, slope 1,
    height 20. *)
Definition entradas_horizontal : entradas := mk_entradas "25" "0" "1" "20".

Lemma parse_entradas_horizontal :
  @parse_entradas R R_scalar PyFloat_R entradas_horizontal = Some salto_horizontal.
Proof. vm_compute. do 2 f_equal; ring. Qed.

Lemma limites_some {T} `{Scalar T} (i : inputs T) (tr : trajectory T) md :
  tr_y tr <> [] -> exists L, limites i tr md = Some L.
Proof.
  unfold limites, np_min, np_max. destruct (tr_y tr); [easy|]. intros _. eexists. reflexivity.
Qed.

Lemma parse_error_recovers_witness :
  @py_float R PyFloat_R "abc" = None /\
  boton (simular_salto 0 (mk_entradas "abc" "22.8" "1" "20") ui_inicial) = NORMAL /\
  etiqueta (simular_salto 0 (mk_entradas "abc" "22.8" "1" "20") ui_inicial) = MsgNoNumerico /\
  same_canvas ui_inicial (simular_salto 0 (mk_entradas "abc" "22.8" "1" "20") ui_inicial).
Proof.
  assert (E : @py_float R PyFloat_R "abc" = None) by (vm_compute; reflexivity).
  split; [exact E|]. apply parse_error_recovers. now left.
Defined.

(** Angle 0 on a flat ramp at height 0. *)
Lemma no_intersection_recovers_witness :
  @parse_entradas R R_scalar PyFloat_R (mk_entradas "25" "0" "0" "0") = Some (mk_inputs 25 0 0 0) /\
  simula (mk_inputs 25 0 0 0) = NoIntersection /\
  boton (simular_salto 0 (mk_entradas "25" "0" "0" "0") ui_inicial) = NORMAL /\
  etiqueta (simular_salto 0 (mk_entradas "25" "0" "0" "0") ui_inicial) = MsgSinInterseccion /\
  same_canvas ui_inicial (simular_salto 0 (mk_entradas "25" "0" "0" "0") ui_inicial).
Proof.
  assert (Hp : @parse_entradas R R_scalar PyFloat_R (mk_entradas "25" "0" "0" "0")
               = Some (mk_inputs 25 0 0 0)) by (vm_compute; do 2 f_equal; ring).
  assert (Hs : simula (mk_inputs 25 0 0 0) = NoIntersection).
  { apply simula_no_intersection.
    assert (Ht : t_aterrizaje (mk_inputs 25 0 0 0) = 0)
      by (rewrite t_aterrizaje_R; cbn; rewrite Rmult_0_l, sin_0, cos_0; field).
    rewrite Ht. rsimpl. rcmp. reflexivity. }
  split; [exact Hp|]. split; [exact Hs|]. exact (no_intersection_recovers 0 _ ui_inicial _ Hp Hs).
Defined.


(** The C20 launch on the horizontal jump, at the reals. *)
Lemma launch_effects_witness :
  boton (simular_salto 0 entradas_horizontal (@ui_inicial R R_scalar)) = DISABLED /\
  etiqueta (simular_salto 0 entradas_horizontal (@ui_inicial R R_scalar))
  = MsgResultado (x_land (trayectoria salto_horizontal (t_aterrizaje salto_horizontal)) -! x0)%sc
                 (snd (mejor_angulo 25 (-1))) (fst (mejor_angulo 25 (-1))).
Proof.
  destruct (limites_some salto_horizontal (trayectoria salto_horizontal (t_aterrizaje salto_horizontal))
              (fst (mejor_angulo 25 (-1)))) as [L HL].
  { intros E. apply (f_equal (@List.length R)) in E.
    rewrite (proj2 (proj2 (trayectoria_lengths _ _))) in E. discriminate. }
  destruct (launch_effects 0 entradas_horizontal ui_inicial salto_horizontal
              (trayectoria salto_horizontal (t_aterrizaje salto_horizontal))
              (fst (mejor_angulo 25 (-1))) (snd (mejor_angulo 25 (-1))) L
              ui_wf_inicial parse_entradas_horizontal) as (Hb & He & _).
  - rewrite <- surjective_pairing. exact salto_horizontal_flies.
  - exact HL.
  - apply andb_true_iff. split; reflexivity.
  - split; [exact Hb | exact He].
Defined.

(** ** A NaN speed at binary64 *)

(** The text ["nan"] in the speed field, the other fields at their
    defaults, with the libm of [Binary64]. *)
Definition entradas_nan : entradas := mk_entradas "nan" "22.8" "1" "20".

Definition inputs_nan : inputs float :=
  mk_inputs nan 0x1.6cccccccccccdp+4%float (-1)%float 20%float.

Definition tr_nan : trajectory float :=
  @trayectoria float (b64 taylor_libm) inputs_nan (@t_aterrizaje float (b64 taylor_libm) inputs_nan).

Lemma invalid_limits_leave_button_disabled_witness :
  @parse_entradas float (b64 taylor_libm) PyFloat_b64 entradas_nan = Some inputs_nan /\
  @limites float (b64 taylor_libm) inputs_nan tr_nan (float_of_Z 0)
  = Some (mk_limits 20%float nan 30%float) /\
  boton (@simular_salto float (b64 taylor_libm) PyFloat_b64 0%nat entradas_nan (@ui_inicial float (b64 taylor_libm))) = DISABLED /\
  timers (@simular_salto float (b64 taylor_libm) PyFloat_b64 0%nat entradas_nan (@ui_inicial float (b64 taylor_libm))) = [].
Proof.
  assert (Hp : @parse_entradas float (b64 taylor_libm) PyFloat_b64 entradas_nan = Some inputs_nan)
    by (vm_compute; reflexivity).
  assert (HL : @limites float (b64 taylor_libm) inputs_nan tr_nan (float_of_Z 0)
               = Some (mk_limits 20%float nan 30%float)) by (vm_compute; reflexivity).
  destruct (@invalid_limits_leave_button_disabled float (b64 taylor_libm) PyFloat_b64
              0%nat entradas_nan (@ui_inicial float (b64 taylor_libm)) inputs_nan tr_nan (float_of_Z 0) (float_of_Z 0)
              (mk_limits 20%float nan 30%float) Hp ltac:(vm_compute; reflexivity) HL
              ltac:(vm_compute; reflexivity)) as (Hb & _ & Ht & _).
  split; [exact Hp|]. split; [exact HL|]. split; [exact Hb | exact Ht].
Defined.
