(* ===== verification/EventLoop.v ===== *)
(** * The Tk event loop: frames, the end timer and clicks
    (src/sky.py lines 115-121 and 171)

    After [simular_salto] returns, [ventana.mainloop()] runs what the
    handler scheduled.  Two kinds of Tk [after] timers are pending:
    [on_animation_end], due [len(t) * 10] ms after the launch (line 119),
    and the animation's timer, which matplotlib's [TimerTk] starts with
    interval [max(int(0.5), 1) = 1] ms when [canvas.draw()] (line 121)
    emits its first draw event.  Each tick of that timer runs
    [TimedAnimation._step]: the next frame index is passed to
    [actualizar], then [TimerTk._on_timer] schedules the next tick [1] ms
    after the callback returned; when the frames are exhausted the tick
    draws nothing and the timer is not rescheduled.  Tcl fires the timer
    with the earliest due time, the first scheduled among equal ones.

    [fire d] is one iteration of the loop, where a frame (the callback and
    its blit) takes [d] ms; [run d n] is [n] iterations; [step d] adds the
    user's clicks on the button, possible only while it is enabled and
    before the next pending timer.  A press schedules the end timer
    [len(t) * 10] ms after the click and then spends [r] ms in
    [canvas.draw()] before the animation's timer starts; [r] is chosen per
    press ([step_click]), the rest of the handler is taken to run in no
    time.

    Every state the loop reaches keeps the invariant [ui_wf] of [Shell]
    ([reachable_wf]).  The 300 ticks of a launch come before its end timer
    exactly when [r + 299 * d < 2700]: then the button comes back only
    after the last frame ([reenabled_after_last_frame]), and otherwise
    while frames remain ([reenabled_mid_animation]), so that a second
    launch can start a second animation beside the first.  A speed of
    [nan] leaves the button disabled with no timer to enable it: the loop
    has no step left ([nan_speed_deadlock]).  Whatever the frame and
    render times, a valid launch from a quiet window comes to rest after
    exactly 302 iterations with the button enabled ([launch_completes]). *)

From Stdlib Require Import ZArith Bool List Lia String Reals Floats Relations.
From S2P Require Import Prelude Linspace Trajectory Sweep Engine Binary64 Parse Shell.
Import ListNotations.

Section Loop.
Context {T : Type} `{Scalar T} `{PyFloat T}.

(** ** Field updates used by the loop *)

Definition set_clock (c : nat) (s : ui T) : ui T :=
  mk_ui (boton s) (etiqueta s) (ejes s) (store s) (next_id s) (g_linea s) (g_esquiador s)
        (g_ani s) (anims s) (timers s) c.

Definition set_timers (ts : list timer) (s : ui T) : ui T :=
  mk_ui (boton s) (etiqueta s) (ejes s) (store s) (next_id s) (g_linea s) (g_esquiador s)
        (g_ani s) (anims s) ts (clock s).

Definition set_anims (l : list (animacion T)) (s : ui T) : ui T :=
  mk_ui (boton s) (etiqueta s) (ejes s) (store s) (next_id s) (g_linea s) (g_esquiador s)
        (g_ani s) l (timers s) (clock s).

Fixpoint update_nth {A} (k : nat) (f : A -> A) (l : list A) : list A :=
  match l, k with
  | [], _ => []
  | x :: r, 0 => f x :: r
  | x :: r, S k => x :: update_nth k f r
  end.

Fixpoint remove_nth {A} (k : nat) (l : list A) : list A :=
  match l, k with
  | [], _ => []
  | _ :: r, 0 => r
  | x :: r, S k => x :: remove_nth k r
  end.

(** ** One iteration of [mainloop] *)

(** Tcl's timer queue: the position and the timer of the earliest due
    time, the first scheduled among equal ones. *)
Fixpoint earliest (i : nat) (ts : list timer) : option (nat * timer) :=
  match ts with
  | [] => None
  | t :: r =>
      match earliest (S i) r with
      | Some (j, u) => if tm_due u <? tm_due t then Some (j, u) else Some (i, t)
      | None => Some (i, t)
      end
  end.

Definition advance (an : animacion T) : animacion T :=
  mk_anim (an_x an) (an_y an) (an_frames an) (S (an_next an)).

(** A tick of animation [a]: [TimedAnimation._step] draws the next frame
    with the closure of its own launch, then [TimerTk._on_timer] schedules
    the next tick [1] ms after the frame's [d] ms; once the frames are
    exhausted the tick draws nothing and the timer stops. *)
Definition frame_tick (d a : nat) (s : ui T) : ui T :=
  match nth_error (anims s) a with
  | Some an =>
      if an_next an <? an_frames an then
        let s1 := actualizar (an_x an) (an_y an) (an_next an) s in
        let s2 := set_anims (update_nth a advance (anims s1)) s1 in
        add_timer 1 (CbFrame a) (set_clock (clock s2 + d) s2)
      else s
  | None => s
  end.

Definition run_cb (d : nat) (cb : callback) (s : ui T) : ui T :=
  match cb with
  | CbEnd => on_animation_end s
  | CbFrame a => frame_tick d a s
  end.

(** Wait for the earliest pending timer, remove it, run its callback;
    [None] when nothing is pending. *)
Definition fire (d : nat) (s : ui T) : option (ui T) :=
  match earliest 0 (timers s) with
  | None => None
  | Some (k, tm) =>
      Some (run_cb d (tm_cb tm)
              (set_clock (Nat.max (clock s) (tm_due tm)) (set_timers (remove_nth k (timers s)) s)))
  end.

Fixpoint run (d n : nat) (s : ui T) : ui T :=
  match n with
  | 0 => s
  | S n => match fire d s with Some s' => run d n s' | None => s end
  end.

(** The loop with the user: a timer fires, or the user presses the
    enabled button at a time [t] no later than any pending timer, and the
    [canvas.draw()] of that press renders in some [r] ms. *)
Inductive step (d : nat) : ui T -> ui T -> Prop :=
| step_fire s s' : fire d s = Some s' -> step d s s'
| step_click e t r s :
    boton s = NORMAL -> clock s <= t -> Forall (fun tm => t <= tm_due tm) (timers s) ->
    step d s (simular_salto r e (set_clock t s)).

Definition reach (d : nat) : ui T -> ui T -> Prop := clos_refl_trans_1n _ (step d).

End Loop.

(** ** Generic facts of the loop *)

Section Facts.
Context {T : Type} `{Scalar T} `{PyFloat T}.

Lemma actualizar_fields (x y : list T) k (s : ui T) :
  boton (actualizar x y k s) = boton s /\ timers (actualizar x y k s) = timers s /\
  anims (actualizar x y k s) = anims s /\ clock (actualizar x y k s) = clock s.
Proof. unfold actualizar. cbn. now destruct (g_esquiador s). Qed.

Lemma nth_error_update_nth {A} (f : A -> A) (l : list A) k j :
  nth_error (update_nth k f l) j = if Nat.eqb j k then option_map f (nth_error l j) else nth_error l j.
Proof.
  revert k j; induction l as [|x l IH]; intros [|k] [|j]; cbn; try rewrite IH;
    try reflexivity; now destruct (Nat.eqb j k).
Qed.

Lemma length_update_nth {A} k (f : A -> A) l : List.length (update_nth k f l) = List.length l.
Proof. revert k; induction l as [|x l IH]; intros [|k]; cbn; auto. Qed.

Lemma in_remove_nth {A} k (x : A) l : In x (remove_nth k l) -> In x l.
Proof. revert k; induction l as [|y l IH]; intros [|k]; cbn; intuition eauto. Qed.

Lemma run_none d n (s : ui T) : fire d s = None -> run d n s = s.
Proof. destruct n; cbn; [reflexivity|]. now intros ->. Qed.

Lemma run_add d m n (s : ui T) : run d (m + n) s = run d n (run d m s).
Proof.
  revert s; induction m as [|m IH]; intros s; [reflexivity|]. cbn.
  destruct (fire d s) eqn:E; [apply IH | symmetry; now apply run_none].
Qed.

(** A tick never touches an animation whose frames are all drawn. *)
Lemma fire_keeps_finished d (s s' : ui T) a an :
  nth_error (anims s) a = Some an -> an_next an = an_frames an -> fire d s = Some s' ->
  nth_error (anims s') a = Some an.
Proof.
  intros Ha Hf. unfold fire. destruct (earliest 0 (timers s)) as [[k [due cb]]|]; intros E;
    [|discriminate]. injection E as <-. destruct cb as [b|]; cbn [run_cb tm_cb]; [|exact Ha].
  unfold frame_tick. cbn [anims set_clock set_timers].
  destruct (nth_error (anims s) b) as [bn|] eqn:Eb; [|exact Ha].
  destruct (Nat.ltb_spec (an_next bn) (an_frames bn)) as [Hlt|]; [|exact Ha].
  cbn [anims add_timer set_clock set_anims]. rewrite (proj1 (proj2 (proj2 (actualizar_fields _ _ _ _)))).
  cbn [anims set_clock set_timers]. rewrite nth_error_update_nth.
  destruct (Nat.eqb_spec a b) as [->|]; [|exact Ha].
  rewrite Ha in Eb. injection Eb as ->. lia.
Qed.

Lemma run_keeps_finished d k (s : ui T) a an :
  nth_error (anims s) a = Some an -> an_next an = an_frames an ->
  nth_error (anims (run d k s)) a = Some an.
Proof.
  revert s; induction k as [|k IH]; intros s Ha Hf; [exact Ha|]. cbn.
  destruct (fire d s) as [s'|] eqn:E; [|exact Ha].
  apply IH; [exact (fire_keeps_finished d s s' a an Ha Hf E) | exact Hf].
Qed.

(** A tick of an animation with frames left: it draws the next frame
    with its own arrays into whatever the globals name, advances the
    animation and schedules the next tick [d + 1] ms later. *)
Lemma frame_tick_draw d a (s : ui T) an :
  nth_error (anims s) a = Some an -> an_next an < an_frames an ->
  boton (frame_tick d a s) = boton s /\
  timers (frame_tick d a s) = timers s ++ [mk_timer (clock s + d + 1) (CbFrame a)] /\
  nth_error (anims (frame_tick d a s)) a = Some (advance an) /\
  clock (frame_tick d a s) = clock s + d /\
  g_linea (frame_tick d a s) = g_linea s /\ g_esquiador (frame_tick d a s) = g_esquiador s /\
  (forall id, lookup_artist id (frame_tick d a s)
              = lookup_artist id (actualizar (an_x an) (an_y an) (an_next an) s)).
Proof.
  intros Ha Hlt. unfold frame_tick. rewrite Ha, (proj2 (Nat.ltb_lt _ _) Hlt).
  destruct (actualizar_fields (an_x an) (an_y an) (an_next an) s) as (B & Ti & A & C).
  destruct (actualizar_globals (an_x an) (an_y an) (an_next an) s) as (GL & GE).
  cbn [add_timer set_clock set_anims boton timers anims clock g_linea g_esquiador].
  rewrite B, Ti, A, C, GL, GE, nth_error_update_nth, Nat.eqb_refl, Ha.
  repeat split.
Qed.

End Facts.

(** ** One animation playing alone after a launch *)

Section Playing.
Context {T : Type} `{Scalar T} `{PyFloat T}.

(** An animation [a] of [N] frames over [xs], [ys] whose timer started
    at [c]: the end timer is due at [E] and frame [j] at
    [c + 1 + j * (d + 1)]. *)
Variables (d c E N a : nat) (xs ys : list T) (lid eid : nat).

(** After [j] frames the button is still disabled, the two timers are
    the end timer and the next tick, the clock is where frame [j - 1]
    finished, and the globals name the line [lid] of the launch, showing
    [x[:j-1]], and its sprite [eid], at sample [j - 1]. *)
Definition playing (j : nat) (s : ui T) : Prop :=
  boton s = DISABLED /\
  timers s = [mk_timer (E) CbEnd; mk_timer (c + 1 + j * S d) (CbFrame a)] /\
  nth_error (anims s) a = Some (mk_anim xs ys N j) /\
  clock s = c + j * S d /\
  g_linea s = lid /\ g_esquiador s = Some eid /\ lid <> eid /\
  lookup_artist lid s = Some (ALinea (firstn (pred j) xs) (firstn (pred j) ys)) /\
  lookup_artist eid s = Some (AEsquiador (nth (pred j) xs (#0)%sc) (nth (pred j) ys (#0)%sc)).

Lemma fire_frame j s :
  playing j s -> j < N -> c + 1 + j * S d < E ->
  exists s', fire d s = Some s' /\ playing (S j) s'.
Proof.
  intros (Hb & Ht & Ha & Hc & HL & HE & Hne & _ & _) Hj Hlt. unfold fire. rewrite Ht.
  cbn [earliest tm_due tm_cb]. rewrite (proj2 (Nat.ltb_lt _ _) Hlt).
  eexists; split; [reflexivity|]. cbn [run_cb tm_cb tm_due remove_nth].
  set (s0 := set_clock _ (set_timers _ s)).
  destruct (frame_tick_draw d a s0 (mk_anim xs ys N j) Ha Hj) as (B & Ti & A & C & GL & GE & LK).
  cbn [an_x an_y an_next] in LK. unfold playing. rewrite B, Ti, A, C, GL, GE, !LK.
  assert (HL0 : g_linea s0 = lid) by exact HL. assert (HE0 : g_esquiador s0 = Some eid) by exact HE.
  replace (lookup_artist lid (actualizar xs ys j s0))
    with (lookup_artist (g_linea s0) (actualizar xs ys j s0)) by now rewrite HL0.
  rewrite lookup_actualizar_line by congruence.
  rewrite lookup_actualizar_sprite by exact HE0. cbn [pred].
  split; [exact Hb|]. split; [cbn; rewrite Hc; do 3 f_equal; lia|]. split; [reflexivity|].
  split; [cbn; lia|]. auto.
Qed.

Lemma fire_end j s :
  playing j s -> E <= c + 1 + j * S d ->
  exists s', fire d s = Some s' /\ boton s' = NORMAL /\
             nth_error (anims s') a = Some (mk_anim xs ys N j).
Proof.
  intros (Hb & Ht & Ha & Hc) Hle. unfold fire. rewrite Ht. cbn [earliest tm_due tm_cb].
  destruct (Nat.ltb_spec (c + 1 + j * S d) (E)) as [|_]; [lia|].
  eexists; split; [reflexivity|]. split; [reflexivity | exact Ha].
Qed.

(** While every tick so far came before the end timer, [k] iterations
    draw [k] frames. *)
Lemma run_playing k j s :
  playing j s -> j + k <= N ->
  (forall j', j <= j' < j + k -> c + 1 + j' * S d < E) ->
  playing (j + k) (run d k s).
Proof.
  revert j s; induction k as [|k IH]; intros j s Hp Hk Hfirst.
  - now rewrite Nat.add_0_r.
  - destruct (fire_frame j s Hp) as (s' & F & Hp'); [lia | apply Hfirst; lia|].
    cbn. rewrite F. replace (j + S k) with (S j + k) by lia.
    apply IH; [exact Hp' | lia | intros j' Hj'; apply Hfirst; lia].
Qed.

(** Once the end timer comes before the next tick at some frame [j' < N],
    some iteration enables the button with frames still to draw. *)
Lemma run_reaches_end j j' s :
  playing j s -> j <= j' -> j' < N -> E <= c + 1 + j' * S d ->
  exists k jj, jj < N /\ boton (run d k s) = NORMAL /\
               nth_error (anims (run d k s)) a = Some (mk_anim xs ys N jj).
Proof.
  intros Hp Hj Hj' Hend. remember (j' - j) as n eqn:En. revert j s Hp Hj En.
  induction n as [|n IH]; intros j s Hp Hj En.
  - replace j' with j in Hend by lia. destruct (fire_end j s Hp Hend) as (s' & F & B & A).
    exists 1, j. cbn. rewrite F. split; [lia | auto].
  - destruct (Nat.ltb_spec (c + 1 + j * S d) (E)) as [Hlt|Hge].
    + destruct (fire_frame j s Hp) as (s' & F & Hp'); [lia | exact Hlt|].
      destruct (IH (S j) s' Hp' ltac:(lia) ltac:(lia)) as (k & jj & Hjj & B & A).
      exists (S k), jj. cbn. rewrite F. auto.
    + destruct (fire_end j s Hp Hge) as (s' & F & B & A).
      exists 1, j. cbn. rewrite F. split; [lia | auto].
Qed.

(** When every tick comes before the end timer, the button can only
    come back after the [N] frames, which leave the state [playing N]. *)
Lemma run_all_frames k s :
  (forall j, j < N -> c + 1 + j * S d < E) ->
  playing 0 s -> boton (run d k s) = NORMAL -> N < k /\ playing N (run d N s).
Proof.
  intros Hfirst P0 Hk. split.
  - destruct (Nat.le_gt_cases k N) as [Hle|]; [|assumption].
    destruct (run_playing k 0 s P0 ltac:(lia) ltac:(intros j Hj; apply Hfirst; lia)) as (B & _).
    congruence.
  - exact (run_playing N 0 s P0 ltac:(lia) ltac:(intros j Hj; apply Hfirst; lia)).
Qed.

End Playing.

(** ** Timers that can no longer draw *)

Section Inert.
Context {T : Type} `{Scalar T} `{PyFloat T}.

(** Every pending timer is [on_animation_end] or a tick of an animation
    whose frames are all drawn. *)
Definition inert (s : ui T) : Prop :=
  Forall (fun tm => match tm_cb tm with
                    | CbEnd => True
                    | CbFrame b => exists an, nth_error (anims s) b = Some an /\ an_next an = an_frames an
                    end) (timers s).

Lemma earliest_in i ts k tm : earliest i ts = Some (k, tm) -> In tm ts.
Proof.
  revert i; induction ts as [|t ts IH]; intros i; cbn [earliest]; [discriminate|].
  destruct (earliest (S i) ts) as [[j u]|] eqn:E.
  - destruct (tm_due u <? tm_due t); intros F; injection F as <- <-; [right; exact (IH _ E)|now left].
  - intros F; injection F as <- <-. now left.
Qed.

(** Such a timer changes neither the drawing nor the animations. *)
Lemma fire_inert d (s s' : ui T) :
  inert s -> fire d s = Some s' ->
  inert s' /\ store s' = store s /\ g_linea s' = g_linea s /\ g_esquiador s' = g_esquiador s /\
  anims s' = anims s.
Proof.
  intros I. unfold fire. destruct (earliest 0 (timers s)) as [[k tm]|] eqn:E; [|discriminate].
  intros F; injection F as <-. pose proof (earliest_in _ _ _ _ E) as Hin.
  assert (Ir : inert (set_clock (Nat.max (clock s) (tm_due tm)) (set_timers (remove_nth k (timers s)) s))).
  { unfold inert in *. cbn [timers anims set_clock set_timers]. apply Forall_forall.
    intros t Ht. apply in_remove_nth in Ht. exact (proj1 (Forall_forall _ _) I t Ht). }
  pose proof (proj1 (Forall_forall _ _) I tm Hin) as Htm. cbv beta in Htm.
  destruct (tm_cb tm) as [b|]; cbn [run_cb]; [|now repeat split].
  destruct Htm as (an & Ha & Hf). unfold frame_tick. cbn [anims set_clock set_timers].
  rewrite Ha, Hf, Nat.ltb_irrefl. now repeat split.
Qed.

Lemma run_inert d k (s : ui T) :
  inert s ->
  store (run d k s) = store s /\ g_linea (run d k s) = g_linea s /\
  g_esquiador (run d k s) = g_esquiador s.
Proof.
  revert s; induction k as [|k IH]; intros s I; cbn; [auto|].
  destruct (fire d s) as [s'|] eqn:E; [|auto].
  destruct (fire_inert d s s' I E) as (I' & S & GL & GE & _).
  destruct (IH s' I') as (S' & GL' & GE'). rewrite S', GL', GE'. auto.
Qed.

Lemma lookup_artist_store id (s s' : ui T) :
  store s' = store s -> lookup_artist id s' = lookup_artist id s.
Proof. intros E. unfold lookup_artist. now rewrite E. Qed.

End Inert.

(** ** Every launch comes to rest *)

Section Completion.
Context {T : Type} `{Scalar T} `{PyFloat T}.

(** One launch's timers, whatever the frame time: the end timer due at
    [E] while [e] holds, then the animation's tick while [t] holds; the
    animation has drawn [j] of its [N] frames; the button is enabled once
    the end timer has fired. *)
Variables (d E N a : nat) (xs ys : list T).

Definition pending (e t : bool) (j : nat) (s : ui T) : Prop :=
  (exists f, timers s = (if e then [mk_timer E CbEnd] else []) ++
                        (if t then [mk_timer f (CbFrame a)] else [])) /\
  nth_error (anims s) a = Some (mk_anim xs ys N j) /\
  boton s = (if e then DISABLED else NORMAL) /\
  (t = false -> j = N) /\ j <= N.

(** What is left to fire: the end timer, the ticks that draw, and the
    last tick that stops. *)
Definition remaining (e t : bool) (j : nat) : nat := Nat.b2n e + Nat.b2n t + (N - j).

Lemma tick_pending e j f s :
  pending e true j s ->
  timers s = (if e then [mk_timer E CbEnd] else []) ++ [mk_timer f (CbFrame a)] ->
  let s0 := set_clock (Nat.max (clock s) f) (set_timers (if e then [mk_timer E CbEnd] else []) s) in
  exists t' j', pending e t' j' (frame_tick d a s0) /\ remaining e t' j' + 1 = remaining e true j.
Proof.
  intros (_ & Ha & Hb & _ & Hj) Ht s0.
  assert (Ha0 : nth_error (anims s0) a = Some (mk_anim xs ys N j)) by exact Ha.
  destruct (Nat.lt_ge_cases j N) as [Hlt|Hge].
  - destruct (frame_tick_draw d a s0 _ Ha0 Hlt) as (B & Ti & A & _).
    exists true, (S j). split; [|unfold remaining; lia].
    split; [eexists; rewrite Ti; reflexivity|]. split; [exact A|].
    split; [rewrite B; exact Hb|]. split; [discriminate | exact Hlt].
  - assert (j = N) as -> by lia.
    unfold frame_tick. rewrite Ha0, Nat.ltb_irrefl.
    exists false, N. split; [|unfold remaining; cbn; lia].
    split; [exists 0; cbn; now rewrite app_nil_r|]. split; [exact Ha|].
    split; [exact Hb|]. split; [reflexivity | lia].
Qed.

Lemma fire_pending e t j s :
  pending e t j s -> (e || t)%bool = true ->
  exists e' t' j' s', fire d s = Some s' /\ pending e' t' j' s' /\
                      remaining e' t' j' + 1 = remaining e t j.
Proof.
  intros P Het. pose proof P as ((f & Ht) & Ha & Hb & Hjt & Hj).
  destruct e, t; cbn in Het, Ht; try discriminate.
  - (* the end timer and a tick *)
    unfold fire. rewrite Ht. cbn [earliest tm_due tm_cb].
    destruct (Nat.ltb_spec f E) as [Hf|Hf]; cbn [remove_nth run_cb tm_cb tm_due].
    + destruct (tick_pending true j f s P Ht) as (t' & j' & P' & M).
      exists true, t', j'; eexists. split; [reflexivity|]. exact (conj P' M).
    + exists false, true, j; eexists. split; [reflexivity|]. split; [|unfold remaining; cbn; lia].
      split; [exists f; reflexivity|]. split; [exact Ha|]. split; [reflexivity|]. auto.
  - (* the end timer alone *)
    unfold fire. rewrite Ht. cbn. exists false, false, j; eexists. split; [reflexivity|].
    split; [|unfold remaining; cbn; lia].
    split; [exists 0; reflexivity|]. split; [exact Ha|]. split; [reflexivity|]. auto.
  - (* a tick alone *)
    unfold fire. rewrite Ht. cbn [earliest tm_due tm_cb remove_nth run_cb].
    destruct (tick_pending false j f s P Ht) as (t' & j' & P' & M).
    exists false, t', j'; eexists. split; [reflexivity|]. exact (conj P' M).
Qed.

(** The loop fires exactly [remaining] timers and comes to rest: no
    timer pending, the button enabled, every frame drawn. *)
Lemma run_pending n e t j s :
  pending e t j s -> remaining e t j = n ->
  timers (run d n s) = [] /\ boton (run d n s) = NORMAL /\
  nth_error (anims (run d n s)) a = Some (mk_anim xs ys N N).
Proof.
  revert e t j s; induction n as [|n IH]; intros e t j s P Hn.
  - destruct P as ((f & Ht) & Ha & Hb & Hjt & Hj). unfold remaining in Hn.
    destruct e, t; cbn in Hn; try lia. rewrite (Hjt eq_refl) in Ha. cbn in Ht, Hb |- *. auto.
  - assert (Het : (e || t)%bool = true).
    { destruct e, t; [reflexivity..|]. destruct P as (_ & _ & _ & Hjt & _).
      rewrite (Hjt eq_refl) in Hn. unfold remaining in Hn. cbn in Hn. lia. }
    destruct (fire_pending e t j s P Het) as (e' & t' & j' & s' & F & P' & M).
    cbn. rewrite F. apply (IH e' t' j'); [exact P' | lia].
Qed.

End Completion.

(** ** The button after a launch *)

Lemma simula_flight_inv {T} `{Scalar T} (i : inputs T) tr best :
  simula i = Flight tr best -> tr = trayectoria i (t_aterrizaje i) /\ best = mejor_angulo (v0 i) (m i).
Proof. unfold simula. destruct (_ <=! _)%sc; [discriminate|]. intros E. now injection E as <- <-. Qed.

Lemma simula_flight_samples {T} `{Scalar T} (i : inputs T) tr best :
  simula i = Flight tr best -> List.length (tr_t tr) = num_samples.
Proof.
  intros E. destruct (simula_flight_inv i tr best E) as [-> _].
  apply (proj1 (trayectoria_lengths _ _)).
Qed.

(** The sprite's last position [x[299]], [y[299]] is the landing point. *)
Lemma last_sample_landing {T} `{Scalar T} (i : inputs T) tr best :
  simula i = Flight tr best ->
  nth 299 (tr_x tr) (#0)%sc = x_land tr /\ nth 299 (tr_y tr) (#0)%sc = y_land tr.
Proof.
  intros E. destruct (simula_flight_inv i tr best E) as [-> _].
  destruct (trayectoria_lengths i (t_aterrizaje i)) as (_ & Lx & Ly).
  unfold num_samples in Lx, Ly. change 299 with (Nat.pred 300).
  rewrite <- Lx at 1. rewrite <- Ly at 1. rewrite !nth_pred_length. split; reflexivity.
Qed.

(** A launch from a state with no pending timer starts the animation
    alone: [playing] at frame 0, its timer started when [canvas.draw()]
    has rendered, [r] ms after the press, and the end timer due
    [len(t) * 10] ms after the press. *)
Lemma launch_playing {T} `{Scalar T} `{PyFloat T} d r (e : entradas) (s : ui T) i tr md ma L :
  timers s = [] ->
  parse_entradas e = Some i -> simula i = Flight tr (md, ma) -> limites i tr md = Some L ->
  (finite2 (#0)%sc (xmax L) && finite2 (ymin L) (ymax L))%bool = true ->
  playing d (clock s + r) (clock s + List.length (tr_t tr) * 10) (List.length (tr_t tr))
          (List.length (anims s)) (tr_x tr) (tr_y tr)
          (next_id s + 2) (next_id s + 3) 0 (simular_salto r e s).
Proof.
  intros Ht Hp Hs HL Hf. rewrite (simular_salto_launch r e s i tr md ma L Hp Hs HL Hf).
  destruct (lanzar_schedule r i tr md ma L (set_boton DISABLED s)) as (B & Ti & A & C).
  destruct (lanzar_draws r i tr md ma L (set_boton DISABLED s)) as (GL & GE & LL & LE).
  cbn [boton timers anims clock next_id set_boton] in B, Ti, A, C, GL, GE, LL, LE.
  unfold playing. rewrite B, Ti, A, C, GL, GE, LL, LE, Ht, nth_error_app2, Nat.sub_diag by lia. cbn.
  rewrite Nat.add_0_r. repeat split; [lia|lia].
Qed.

(** With a render of [r] ms and frames of [d] ms where
    [r + 299 * d < 2700], each of the 300 ticks is due before the end
    timer [300 * 10] ms after the press. *)
Lemma ticks_before_end c r d :
  r + 299 * d < 2700 -> forall j, j < 300 -> c + r + 1 + j * S d < c + 300 * 10.
Proof. intros Hd j Hj. assert (j * S d <= 299 * S d) by (apply Nat.mul_le_mono_r; lia). lia. Qed.



(** A launch from a quiet window leaves the end timer and the first tick
    pending, with the animation at frame 0 of 300. *)
Lemma launch_pending {T} `{Scalar T} `{PyFloat T} r (e : entradas) (s : ui T) i tr md ma L :
  timers s = [] ->
  parse_entradas e = Some i -> simula i = Flight tr (md, ma) -> limites i tr md = Some L ->
  (finite2 (#0)%sc (xmax L) && finite2 (ymin L) (ymax L))%bool = true ->
  pending (clock s + 300 * 10) 300 (List.length (anims s)) (tr_x tr) (tr_y tr) true true 0
          (simular_salto r e s).
Proof.
  intros Ht Hp Hs HL Hf.
  pose proof (launch_playing 0 r e s i tr md ma L Ht Hp Hs HL Hf) as (Hb & Ti & Ha & _).
  pose proof (simula_flight_samples i tr (md, ma) Hs) as HN. unfold num_samples in HN.
  rewrite HN in Ti, Ha.
  split; [eexists; exact Ti|]. split; [exact Ha|]. split; [exact Hb|]. split; [discriminate | lia].
Qed.

(** C31: whatever a frame takes and [canvas.draw()] renders in, a launch
    from a quiet window comes to rest after exactly 302 iterations of the
    loop (300 frame ticks, the tick that stops the animation, and
    [on_animation_end], in whatever order their times give): no timer is
    left, the button is enabled again, every frame has been drawn, and
    the loop waits for the user. *)
Theorem launch_completes {T} `{Scalar T} `{PyFloat T} d r (e : entradas) (s : ui T) i tr md ma L :
  timers s = [] ->
  parse_entradas e = Some i -> simula i = Flight tr (md, ma) -> limites i tr md = Some L ->
  (finite2 (#0)%sc (xmax L) && finite2 (ymin L) (ymax L))%bool = true ->
  timers (run d 302 (simular_salto r e s)) = [] /\ boton (run d 302 (simular_salto r e s)) = NORMAL /\
  nth_error (anims (run d 302 (simular_salto r e s))) (List.length (anims s))
  = Some (mk_anim (tr_x tr) (tr_y tr) 300 300) /\
  fire d (run d 302 (simular_salto r e s)) = None.
Proof.
  intros Ht Hp Hs HL Hf. pose proof (launch_pending r e s i tr md ma L Ht Hp Hs HL Hf) as P.
  destruct (run_pending d _ _ _ _ _ 302 true true 0 _ P eq_refl) as (T0 & B & A).
  split; [exact T0|]. split; [exact B|]. split; [exact A|]. unfold fire. now rewrite T0.
Qed.

(** C23: when [2700 <= r + 299 * d] (frames of 10 ms or more, or a slow
    render), the timer of line 119 enables the button again while the
    animation still has frames to draw; with [reenabled_after_last_frame]
    the bound [2700] is exact. *)
Theorem reenabled_mid_animation {T} `{Scalar T} `{PyFloat T} d r (e : entradas) (s : ui T)
    i tr md ma L :
  2700 <= r + 299 * d -> timers s = [] ->
  parse_entradas e = Some i -> simula i = Flight tr (md, ma) -> limites i tr md = Some L ->
  (finite2 (#0)%sc (xmax L) && finite2 (ymin L) (ymax L))%bool = true ->
  exists k j, j < List.length (tr_t tr) /\ boton (run d k (simular_salto r e s)) = NORMAL /\
    nth_error (anims (run d k (simular_salto r e s))) (List.length (anims s))
    = Some (mk_anim (tr_x tr) (tr_y tr) (List.length (tr_t tr)) j).
Proof.
  intros Hd Ht Hp Hs HL Hf.
  pose proof (launch_playing d r e s i tr md ma L Ht Hp Hs HL Hf) as P0.
  pose proof (simula_flight_samples i tr (md, ma) Hs) as HN. unfold num_samples in HN.
  rewrite HN in P0 |- *.
  apply (run_reaches_end d _ _ 300 _ _ _ _ _ 0 299 _ P0); lia.
Qed.

(** ** Runs of the loop *)

Section Reach.
Context {T : Type} `{Scalar T} `{PyFloat T}.

Lemma reach_trans d (s1 s2 s3 : ui T) : reach d s1 s2 -> reach d s2 s3 -> reach d s1 s3.
Proof.
  intros R1 R2. unfold reach in *. apply clos_rt_rt1n. apply clos_rt1n_rt in R1, R2. eapply rt_trans; eauto.
Qed.

Lemma reach_run d n (s : ui T) : reach d s (run d n s).
Proof.
  revert s; induction n as [|n IH]; intros s; [apply rt1n_refl|]. cbn.
  destruct (fire d s) as [s'|] eqn:E; [|apply rt1n_refl].
  econstructor; [apply step_fire; exact E | apply IH].
Qed.

Lemma reach_click d r e t (s : ui T) :
  boton s = NORMAL -> clock s <= t -> forallb (fun tm => t <=? tm_due tm) (timers s) = true ->
  reach d s (simular_salto r e (set_clock t s)).
Proof.
  intros Hb Hc Hf. econstructor; [|apply rt1n_refl]. apply step_click; [exact Hb | exact Hc|].
  apply Forall_forall. intros tm Hin. apply Nat.leb_le. exact (proj1 (forallb_forall _ _) Hf tm Hin).
Qed.

End Reach.

(** ** Every reachable state is well formed *)

Section LoopWf.
Context {T : Type} `{Scalar T} `{PyFloat T}.

Lemma ui_wf_set_clock c (s : ui T) : ui_wf s -> ui_wf (set_clock c s).
Proof. exact (fun W => W). Qed.

Lemma ui_wf_set_timers ts (s : ui T) :
  (forall t, In t ts -> In t (timers s)) -> ui_wf s -> ui_wf (set_timers ts s).
Proof. intros Hts (W1 & W2 & W3 & W4 & W5 & W6). repeat split; cbn; eauto. Qed.

Lemma ui_wf_set_anims l (s : ui T) :
  List.length l = List.length (anims s) -> ui_wf s -> ui_wf (set_anims l s).
Proof.
  intros Hl (W1 & W2 & W3 & W4 & W5 & W6). repeat split; cbn; rewrite ?Hl; eauto.
Qed.

#[local] Hint Resolve ui_wf_set_clock ui_wf_set_timers ui_wf_set_anims ui_wf_add_timer : skijump.

Lemma ui_wf_frame_tick d a (s : ui T) : ui_wf s -> ui_wf (frame_tick d a s).
Proof.
  intros W. unfold frame_tick.
  destruct (nth_error (anims s) a) as [an|] eqn:Ea; [|exact W].
  destruct (an_next an <? an_frames an); [|exact W].
  assert (Ha : a < List.length (anims s)) by (apply nth_error_Some; congruence).
  apply ui_wf_add_timer; [|auto 6 with skijump].
  - intros a' E. injection E as <-. cbn.
    rewrite length_update_nth, (proj1 (proj2 (proj2 (actualizar_fields _ _ _ _)))). exact Ha.
  - apply ui_wf_set_clock, ui_wf_set_anims; [|auto with skijump].
    now rewrite length_update_nth.
Qed.

Lemma ui_wf_fire d (s s' : ui T) : ui_wf s -> fire d s = Some s' -> ui_wf s'.
Proof.
  intros W. unfold fire. destruct (earliest 0 (timers s)) as [[k tm]|]; [|discriminate].
  intros E. injection E as <-.
  assert (W' : ui_wf (set_clock (Nat.max (clock s) (tm_due tm)) (set_timers (remove_nth k (timers s)) s)))
    by (apply ui_wf_set_clock, ui_wf_set_timers; [intros t; apply in_remove_nth | exact W]).
  destruct (tm_cb tm); cbn [run_cb]; [now apply ui_wf_frame_tick | now apply ui_wf_set_boton].
Qed.

Lemma ui_wf_step d (s s' : ui T) : ui_wf s -> step d s s' -> ui_wf s'.
Proof.
  intros W S. revert W. destruct S as [s1 s2 E | e t r s1 _ _ _]; intros W;
    [exact (ui_wf_fire d s1 s2 W E)|].
  apply ui_wf_simular_salto, ui_wf_set_clock, W.
Qed.

(** The window's invariant holds in every state the loop can reach:
    artist identities are allocated, the globals name allocated artists
    and a created animation, and every pending frame timer belongs to a
    created animation, whatever the timers fire and the user presses. *)
Theorem reachable_wf d (s s' : ui T) : ui_wf s -> reach d s s' -> ui_wf s'.
Proof.
  intros W R. induction R as [s|s1 s2 s3 S _ IH]; [exact W|].
  exact (IH (ui_wf_step d s1 s2 W S)).
Qed.
End LoopWf.

(** ** A NaN speed deadlocks the window *)

(** C28: typing [nan] in the speed field, with numbers in the other three,
    ends the press with the button disabled and, from a window with no
    pending timer, leaves the loop with nothing to do: no timer can fire
    and the disabled button cannot be pressed, so no step of the loop is
    possible, for every libm, frame time and render time.  The spec asks a
    numeric fault to end with the input enabled again. *)
Theorem nan_speed_deadlock (L : libm) d r (ea em eh : string) (a mm hh : float) (s : ui float) :
  timers s = [] -> py_float ea = Some a -> py_float em = Some mm -> py_float eh = Some hh ->
  boton (@simular_salto float (b64 L) PyFloat_b64 r (mk_entradas "nan" ea em eh) s) = DISABLED /\
  @fire float (b64 L) d (@simular_salto float (b64 L) PyFloat_b64 r (mk_entradas "nan" ea em eh) s)
  = None /\
  forall s', ~ @step float (b64 L) PyFloat_b64 d
                 (@simular_salto float (b64 L) PyFloat_b64 r (mk_entradas "nan" ea em eh) s) s'.
Proof.
  intros Ht Ha Hm Hh.
  set (i := mk_inputs nan a (@s_opp float (b64 L) mm) hh).
  assert (Hp : @parse_entradas float (b64 L) PyFloat_b64 (mk_entradas "nan" ea em eh) = Some i).
  { unfold parse_entradas. cbn [e_velocidad e_angulo e_pendiente e_altura].
    rewrite Ha, Hm, Hh. reflexivity. }
  assert (Ht0 : @t_aterrizaje float (b64 L) i = nan) by apply landing_time_nan.
  assert (Hs : @simula float (b64 L) i
               = Flight (@trayectoria float (b64 L) i (@t_aterrizaje float (b64 L) i))
                        (float_of_Z 0, float_of_Z 0)).
  { rewrite (@simula_flight float (b64 L) i).
    - change (v0 i) with nan. now rewrite (mejor_angulo_nan L).
    - rewrite Ht0. apply leb_nan_l. }
  assert (Hdone : @simular_salto float (b64 L) PyFloat_b64 r (mk_entradas "nan" ea em eh) s
                  = set_ejes (mk_axes SkyBlue (Some (float_of_Z 0, (float_of_Z 0 + float_of_Z 20)%float))
                                      None false [])
                             (set_boton DISABLED s)).
  { unfold simular_salto. rewrite Hp, Hs. cbv beta iota zeta. unfold i.
    rewrite (limites_nan L). reflexivity. }
  rewrite Hdone. assert (Hf : @fire float (b64 L) d (set_ejes (mk_axes SkyBlue (Some (float_of_Z 0,
                   (float_of_Z 0 + float_of_Z 20)%float)) None false []) (set_boton DISABLED s)) = None)
    by (unfold fire; cbn; now rewrite Ht).
  split; [reflexivity|]. split; [exact Hf|].
  intros s' S. inversion S as [? ? E|]; subst; [congruence | discriminate].
Qed.

(** ** The default jump at binary64 *)

#[local] Instance b64_taylor : Scalar float := b64 taylor_libm.

(** The default form as [float] reads it, its flight, its sweep result and
    its axis limits. *)
Definition inputs_iniciales : inputs float :=
  mk_inputs 25%float 0x1.6cccccccccccdp+4%float (-1)%float 20%float.

Definition tr_iniciales : trajectory float :=
  trayectoria inputs_iniciales (t_aterrizaje inputs_iniciales).

Definition mejor_iniciales : float * float :=
  mejor_angulo (v0 inputs_iniciales) (m inputs_iniciales).

Definition limites_iniciales : limits float :=
  mk_limits 0x1.5b9fbcdeb7ab0p+7%float (-0x1.339d651916193p+7)%float 0x1.1644a14c6c250p+5%float.

(** The first press of the button on the start-up window, with a
    [canvas.draw()] of 20 ms. *)
Definition primer_salto : ui float := simular_salto 20 entradas_iniciales (set_clock 0 ui_inicial).

Lemma primer_salto_launch :
  parse_entradas entradas_iniciales = Some inputs_iniciales /\
  simula inputs_iniciales = Flight tr_iniciales (fst mejor_iniciales, snd mejor_iniciales) /\
  limites inputs_iniciales tr_iniciales (fst mejor_iniciales) = Some limites_iniciales /\
  (finite2 (#0)%sc (xmax limites_iniciales) && finite2 (ymin limites_iniciales) (ymax limites_iniciales))%bool
  = true.
Proof. repeat split; vm_compute; reflexivity. Qed.



(** The default jump with 12 ms frames. *)
Lemma launch_completes_witness :
  timers (run 12 302 primer_salto) = [] /\ boton (run 12 302 primer_salto) = NORMAL.
Proof.
  destruct primer_salto_launch as (Hp & Hs & HL & Hf).
  destruct (launch_completes 12 20 entradas_iniciales (set_clock 0 ui_inicial) inputs_iniciales
              tr_iniciales _ _ limites_iniciales eq_refl Hp Hs HL Hf) as (T0 & B & _).
  split; [exact T0 | exact B].
Defined.

Lemma reenabled_mid_animation_witness :
  exists k j, j < 300 /\ boton (run 10 k primer_salto) = NORMAL /\
    nth_error (anims (run 10 k primer_salto)) 0
    = Some (mk_anim (tr_x tr_iniciales) (tr_y tr_iniciales) 300 j).
Proof.
  destruct primer_salto_launch as (Hp & Hs & HL & Hf).
  exact (reenabled_mid_animation 10 20 entradas_iniciales (set_clock 0 ui_inicial) inputs_iniciales
           tr_iniciales _ _ limites_iniciales ltac:(lia) eq_refl Hp Hs HL Hf).
Defined.

(** ** Two runs at once *)

(** With 10 ms frames: the default jump, then the loop until the end timer
    has enabled the button (271 of the 300 frames drawn), then a second press
    with speed 30 and angle 30, then one more tick. *)
Definition segundo_salto : ui float :=
  let s := run 10 272 primer_salto in
  simular_salto 20 (mk_entradas "30" "30" "1" "20") (set_clock (clock s) s).

Definition tras_segundo_salto : ui float := run 10 1 segundo_salto.

(** The second press is a step of the loop: the button is enabled and no
    timer is due before it. *)
Lemma tras_segundo_salto_reachable : reach 10 (set_clock 0 ui_inicial) tras_segundo_salto.
Proof.
  unfold tras_segundo_salto, segundo_salto. set (s1 := run 10 272 primer_salto).
  eapply reach_trans; [|apply reach_run].
  eapply reach_trans; [|apply (reach_click 10 20 _ (clock s1) s1)];
    [|vm_compute; reflexivity | apply le_n | vm_compute; reflexivity].
  eapply reach_trans; [|apply reach_run].
  apply (reach_click 10 20 entradas_iniciales 0 (set_clock 0 ui_inicial));
    [reflexivity | apply le_n | reflexivity].
Defined.

(** A press with [nan] as speed and the other defaults, on the start-up
    window. *)
Lemma nan_speed_deadlock_witness :
  boton (simular_salto 20 (mk_entradas "nan" "22.8" "1" "20") (set_clock 0 ui_inicial)) = DISABLED /\
  fire 10 (simular_salto 20 (mk_entradas "nan" "22.8" "1" "20") (set_clock 0 ui_inicial)) = None.
Proof.
  destruct (nan_speed_deadlock taylor_libm 10 20 "22.8" "1" "20" 0x1.6cccccccccccdp+4%float 1%float 20%float
              (set_clock 0 ui_inicial) eq_refl ltac:(vm_compute; reflexivity)
              ltac:(vm_compute; reflexivity) ltac:(vm_compute; reflexivity)) as (B & F & _).
  split; [exact B | exact F].
Defined.

(** A finite speed also freezes the window: with [1e200] the
    sweep's distances overflow to [inf], so [xmax = inf] and [set_xlim]
    raises after the button was disabled; from the start-up window no step
    of the loop remains. *)
Lemma huge_speed_deadlock :
  boton (simular_salto 20 (mk_entradas "1e200" "22.8" "1" "20") (set_clock 0 ui_inicial)) = DISABLED /\
  forall s', ~ step 10 (simular_salto 20 (mk_entradas "1e200" "22.8" "1" "20") (set_clock 0 ui_inicial)) s'.
Proof.
  assert (Hb : boton (simular_salto 20 (mk_entradas "1e200" "22.8" "1" "20") (set_clock 0 ui_inicial))
               = DISABLED) by (vm_compute; reflexivity).
  assert (Hf : fire 10 (simular_salto 20 (mk_entradas "1e200" "22.8" "1" "20") (set_clock 0 ui_inicial))
               = None) by (vm_compute; reflexivity).
  split; [exact Hb|]. revert Hb Hf.
  generalize (simular_salto 20 (mk_entradas "1e200" "22.8" "1" "20") (set_clock 0 ui_inicial)).
  intros s0 Hb Hf s' S. destruct S as [? ? E|]; congruence.
Qed.
