(* ===== verification/Quiescence.v ===== *)
(** * Without the user, the Tk loop goes idle (src/sky.py lines 115-119, 171)

    [ventana.mainloop()] keeps firing what the handler scheduled: the
    [on_animation_end] timers of line 119 and the ticks of the animations
    of line 118, each of which reschedules itself while its animation has
    frames left.  Whatever the state, the frame time and the number of
    animations running side by side, the loop of [EventLoop] fires finitely
    many timers: each firing lowers [pending_work], the number of timers
    pending plus the frames their ticks still have to draw
    ([fire_pending_work]), so after [pending_work s] iterations nothing is
    pending ([loop_goes_idle]).  A pending [on_animation_end] is never
    lost on the way: the loop always ends with the button enabled
    ([end_timer_reenables]).

    The measure is the variant of the loop in the style of a well-founded
    iteration: a [nat] that every step decreases. *)

From Stdlib Require Import Arith Bool List Lia Floats.
From S2P Require Import Prelude Binary64 Parse Shell EventLoop.
Import ListNotations.

Section Drain.
Context {T : Type} `{Scalar T} `{PyFloat T}.

(** The frames a callback still draws: an animation's tick draws the
    frames [an_next .. an_frames - 1]; [on_animation_end] draws none. *)
Definition frames_left (l : list (animacion T)) (cb : callback) : nat :=
  match cb with
  | CbEnd => 0
  | CbFrame a =>
      match nth_error l a with
      | Some an => an_frames an - an_next an
      | None => 0
      end
  end.

(** Every pending timer fires once, and a tick reschedules itself once
    per frame it draws. *)
Definition pending_work (s : ui T) : nat :=
  list_sum (map (fun tm => S (frames_left (anims s) (tm_cb tm))) (timers s)).

(** ** Arithmetic of the measure *)

Lemma earliest_nth i ts k tm :
  earliest i ts = Some (k, tm) -> i <= k /\ nth_error ts (k - i) = Some tm.
Proof.
  revert i k tm; induction ts as [|t ts IH]; intros i k tm; cbn [earliest]; [discriminate|].
  destruct (earliest (S i) ts) as [[j u]|] eqn:E.
  - destruct (IH _ _ _ E) as [Hij Hj].
    destruct (tm_due u <? tm_due t); intros F; injection F as <- <-.
    + split; [lia|]. replace (j - i) with (S (j - S i)) by lia. exact Hj.
    + rewrite Nat.sub_diag. now split.
  - intros F; injection F as <- <-. rewrite Nat.sub_diag. now split.
Qed.

Lemma list_sum_remove_nth {A} (f : A -> nat) l k x :
  nth_error l k = Some x ->
  list_sum (map f l) = f x + list_sum (map f (remove_nth k l)).
Proof.
  revert k; induction l as [|y l IH]; intros [|k]; cbn [nth_error remove_nth map]; try discriminate.
  - now intros [= ->].
  - intros Hk. change (f y + list_sum (map f l) = f x + (f y + list_sum (map f (remove_nth k l)))).
    rewrite (IH k Hk). lia.
Qed.

Lemma list_sum_map_le {A} (f g : A -> nat) l :
  (forall x, In x l -> f x <= g x) -> list_sum (map f l) <= list_sum (map g l).
Proof.
  induction l as [|x l IH]; intros Hle; [reflexivity|].
  change (f x + list_sum (map f l) <= g x + list_sum (map g l)).
  pose proof (Hle x (or_introl eq_refl)). pose proof (IH (fun y Hy => Hle y (or_intror Hy))). lia.
Qed.

(** Advancing animation [a] lowers the frames left of every callback,
    and those of [a]'s own tick by one. *)
Lemma frames_left_advance l a cb :
  frames_left (update_nth a advance l) cb <= frames_left l cb.
Proof.
  destruct cb as [b|]; cbn; [|lia]. rewrite nth_error_update_nth.
  destruct (Nat.eqb b a); [|lia]. destruct (nth_error l b); cbn; lia.
Qed.

Lemma frames_left_advance_self l a an :
  nth_error l a = Some an -> an_next an < an_frames an ->
  S (frames_left (update_nth a advance l) (CbFrame a)) = frames_left l (CbFrame a).
Proof.
  intros Ha Hlt. cbn. rewrite nth_error_update_nth, Nat.eqb_refl, Ha. cbn. lia.
Qed.

(** Removing the timer that fires takes its share off the measure. *)
Lemma pending_work_remove s k tm :
  earliest 0 (timers s) = Some (k, tm) ->
  pending_work s
  = S (frames_left (anims s) (tm_cb tm))
    + pending_work (set_clock (Nat.max (clock s) (tm_due tm)) (set_timers (remove_nth k (timers s)) s)).
Proof.
  intros E. destruct (earliest_nth _ _ _ _ E) as [_ Hk]. rewrite Nat.sub_0_r in Hk.
  unfold pending_work at 1. rewrite (list_sum_remove_nth _ _ _ _ Hk). reflexivity.
Qed.

(** A frame tick adds at most what its own firing took off. *)
Lemma pending_work_frame_tick d a s :
  pending_work (frame_tick d a s) <= frames_left (anims s) (CbFrame a) + pending_work s.
Proof.
  unfold frame_tick. destruct (nth_error (anims s) a) as [an|] eqn:Ha; [|lia].
  destruct (Nat.ltb_spec (an_next an) (an_frames an)) as [Hlt|]; [|lia].
  destruct (actualizar_fields (an_x an) (an_y an) (an_next an) s) as (_ & Ti & A & _).
  unfold pending_work. cbn [add_timer set_clock set_anims anims timers].
  rewrite Ti, A, map_app, list_sum_app. cbn [map list_sum fold_right tm_cb].
  rewrite (frames_left_advance_self _ _ _ Ha Hlt).
  enough (list_sum (map (fun tm => S (frames_left (update_nth a advance (anims s)) (tm_cb tm))) (timers s))
          <= list_sum (map (fun tm => S (frames_left (anims s) (tm_cb tm))) (timers s))) by lia.
  apply list_sum_map_le. intros tm _. pose proof (frames_left_advance (anims s) a (tm_cb tm)). lia.
Qed.

Lemma pending_work_set_boton b s : pending_work (set_boton b s) = pending_work s.
Proof. reflexivity. Qed.

(** ** The variant *)

(** Every firing strictly lowers the measure. *)
Lemma fire_pending_work d s s' :
  fire d s = Some s' -> pending_work s' < pending_work s.
Proof.
  unfold fire. destruct (earliest 0 (timers s)) as [[k tm]|] eqn:E; [|discriminate].
  intros F; injection F as <-. rewrite (pending_work_remove s k tm E).
  destruct (tm_cb tm) as [a|]; cbn [run_cb frames_left].
  - pose proof (pending_work_frame_tick d a
      (set_clock (Nat.max (clock s) (tm_due tm)) (set_timers (remove_nth k (timers s)) s))).
    cbn [anims set_clock set_timers frames_left] in *. lia.
  - unfold on_animation_end. rewrite pending_work_set_boton. lia.
Qed.

Lemma fire_none_timers d s : fire d s = None <-> timers s = [].
Proof.
  unfold fire. destruct (timers s) as [|t ts] eqn:Et; cbn [earliest]; [easy|].
  split; [|discriminate]. destruct (earliest 1 ts) as [[j u]|];
    [destruct (tm_due u <? tm_due t)|]; discriminate.
Qed.

Lemma run_idle d n s : pending_work s <= n -> timers (run d n s) = [].
Proof.
  revert s; induction n as [|n IH]; intros s Hn.
  - cbn. destruct (timers s) as [|t ts] eqn:Et; [reflexivity|].
    unfold pending_work in Hn. rewrite Et in Hn. cbn in Hn. lia.
  - cbn. destruct (fire d s) as [s'|] eqn:F.
    + apply IH. pose proof (fire_pending_work d s s' F). lia.
    + exact (proj1 (fire_none_timers d s) F).
Qed.

(** ** The end timer is never lost *)

Definition is_end (tm : timer) : bool := match tm_cb tm with CbEnd => true | CbFrame _ => false end.

Lemma existsb_remove_nth {A} (f : A -> bool) l k x :
  nth_error l k = Some x -> f x = false -> existsb f (remove_nth k l) = existsb f l.
Proof.
  revert k; induction l as [|y l IH]; intros [|k]; cbn; try discriminate.
  - now intros [= ->] ->.
  - intros Hk Hf. now rewrite (IH k Hk Hf).
Qed.

(** A tick keeps the button and only appends to the timers. *)
Lemma frame_tick_shape d a s :
  boton (frame_tick d a s) = boton s /\ exists l, timers (frame_tick d a s) = timers s ++ l.
Proof.
  unfold frame_tick. destruct (nth_error (anims s) a) as [an|]; [|split; [|exists []; rewrite app_nil_r]; reflexivity].
  destruct (an_next an <? an_frames an); [|split; [|exists []; rewrite app_nil_r]; reflexivity].
  destruct (actualizar_fields (an_x an) (an_y an) (an_next an) s) as (B & Ti & _).
  cbn [add_timer set_clock set_anims boton timers]. rewrite B, Ti. split; [reflexivity|]. eexists; reflexivity.
Qed.

(** While the button is disabled an [on_animation_end] is pending, in
    every state the loop passes through. *)
Definition end_pending (s : ui T) : Prop := boton s = NORMAL \/ existsb is_end (timers s) = true.

Lemma fire_end_pending d s s' : end_pending s -> fire d s = Some s' -> end_pending s'.
Proof.
  unfold fire. destruct (earliest 0 (timers s)) as [[k tm]|] eqn:E; [|discriminate].
  intros P F; injection F as <-. destruct (earliest_nth _ _ _ _ E) as [_ Hk]. rewrite Nat.sub_0_r in Hk.
  destruct (tm_cb tm) as [a|] eqn:Hcb; cbn [run_cb]; [|left; reflexivity].
  destruct (frame_tick_shape d a
    (set_clock (Nat.max (clock s) (tm_due tm)) (set_timers (remove_nth k (timers s)) s))) as (B & l & Ti).
  unfold end_pending. rewrite B, Ti, existsb_app. cbn [boton timers set_clock set_timers].
  rewrite (existsb_remove_nth is_end _ _ _ Hk) by (unfold is_end; now rewrite Hcb).
  destruct P as [P|P]; [now left | right; now rewrite P].
Qed.

Lemma run_end_pending d n s : end_pending s -> end_pending (run d n s).
Proof.
  revert s; induction n as [|n IH]; intros s P; cbn; [exact P|].
  destruct (fire d s) as [s'|] eqn:F; [exact (IH s' (fire_end_pending d s s' P F)) | exact P].
Qed.

End Drain.

(** ** The loop ends *)

(** C32 (termination): without clicks, the loop of [ventana.mainloop()]
    fires at most [pending_work s] timers from any state [s], for every
    frame time: after that many iterations no timer is pending. *)
Theorem loop_goes_idle {T} `{Scalar T} `{PyFloat T} d (s : ui T) :
  timers (run d (pending_work s) s) = [] /\ fire d (run d (pending_work s) s) = None.
Proof.
  pose proof (run_idle d (pending_work s) s (le_n _)) as I.
  split; [exact I | now apply fire_none_timers].
Qed.

(** C33 (liveness): while an [on_animation_end] is pending, whatever the
    other timers, animations and frame time, the loop comes to rest with
    the button enabled. *)
Theorem end_timer_reenables {T} `{Scalar T} `{PyFloat T} d (s : ui T) tm :
  In tm (timers s) -> tm_cb tm = CbEnd ->
  timers (run d (pending_work s) s) = [] /\ boton (run d (pending_work s) s) = NORMAL.
Proof.
  intros Hin Hcb.
  assert (P : end_pending s) by (right; apply existsb_exists; exists tm; unfold is_end; now rewrite Hcb).
  pose proof (run_idle d (pending_work s) s (le_n _)) as I. split; [exact I|].
  destruct (run_end_pending d (pending_work s) s P) as [B|B]; [exact B|]. now rewrite I in B.
Qed.

(** ** On the two runs of [EventLoop] *)

#[local] Instance b64_taylor : Scalar float := b64 taylor_libm.

(** With two animations playing side by side and the end timer of the
    second run pending (due at 6001 ms), the loop drains its 332 units of
    work and ends with the button enabled. *)
Lemma end_timer_reenables_witness :
  In (mk_timer 6001 CbEnd) (timers segundo_salto) /\
  timers (run 10 (pending_work segundo_salto) segundo_salto) = [] /\
  boton (run 10 (pending_work segundo_salto) segundo_salto) = NORMAL.
Proof.
  assert (Hin : In (mk_timer 6001 CbEnd) (timers segundo_salto)) by (vm_compute; right; left; reflexivity).
  split; [exact Hin|]. exact (end_timer_reenables 10 segundo_salto _ Hin eq_refl).
Defined.
