(* ===== verification/Hijack.v ===== *)
(** * A stale tick draws the old run into the new artists
    (src/sky.py lines 107-113, 118, 119)

    [actualizar] (lines 110-113) captures the arrays [x], [y] of the launch
    that created it, but it reads the module globals [linea_trayectoria]
    and [esquiador] each time it runs.  A new press rebinds the globals
    (lines 101-106) to the artists it creates and does not stop the
    animation of the previous press: [ani] is rebound too, and the old
    [FuncAnimation] keeps its timer.  When the button comes back before the
    last frame ([EventLoop.reenabled_mid_animation]) the user can press
    again while an old animation still has frames to draw.

    [stale_tick_hijacks_new_line]: after such a valid press, whatever the
    frame and render times, the loop reaches a state where the new run's
    trajectory line shows the old run's prefix [x[:j]], [y[:j]] and the new
    run's sprite sits on the old run's sample [j], where [j] is the old
    animation's next frame.  The proof follows the old tick through the
    loop: every other timer leaves the old animation, its tick and the
    globals alone ([fire_waiting]), and the measure [pending_work] of
    [Quiescence] bounds the number of firings before it fires
    ([run_waiting]). *)

From Stdlib Require Import Arith ZArith Bool List Lia String Floats.
From S2P Require Import Prelude Trajectory Sweep Engine Binary64 Parse Shell EventLoop Quiescence.
Import ListNotations.

Section Stale.
Context {T : Type} `{Scalar T} `{PyFloat T}.

(** A pending tick of animation [a]. *)
Definition is_tick (a : nat) (tm : timer) : bool :=
  match tm_cb tm with CbFrame b => Nat.eqb b a | CbEnd => false end.

(** A tick of another animation keeps animation [a] and the globals. *)
Lemma frame_tick_other d a b (s : ui T) :
  b <> a ->
  nth_error (anims (frame_tick d b s)) a = nth_error (anims s) a /\
  g_linea (frame_tick d b s) = g_linea s /\ g_esquiador (frame_tick d b s) = g_esquiador s.
Proof.
  intros Hba. unfold frame_tick. destruct (nth_error (anims s) b) as [bn|]; [|auto].
  destruct (an_next bn <? an_frames bn); [|auto].
  destruct (actualizar_fields (an_x bn) (an_y bn) (an_next bn) s) as (_ & _ & A & _).
  destruct (actualizar_globals (an_x bn) (an_y bn) (an_next bn) s) as (GL & GE).
  cbn [add_timer set_clock set_anims anims g_linea g_esquiador].
  rewrite A, GL, GE, nth_error_update_nth. apply Nat.eqb_neq in Hba. rewrite Nat.eqb_sym, Hba. auto.
Qed.

Variables (d a lid eid : nat) (an : animacion T).

(** Animation [a] is [an] with frames left, one of its ticks is pending,
    and the globals name the line [lid] and the sprite [eid]. *)
Definition waiting (s : ui T) : Prop :=
  nth_error (anims s) a = Some an /\ an_next an < an_frames an /\
  existsb (is_tick a) (timers s) = true /\
  g_linea s = lid /\ g_esquiador s = Some eid /\ lid <> eid.

(** What the next tick of [a] leaves in the artists the globals name. *)
Definition hijacked (s : ui T) : Prop :=
  g_linea s = lid /\ g_esquiador s = Some eid /\
  lookup_artist lid s = Some (ALinea (firstn (an_next an) (an_x an)) (firstn (an_next an) (an_y an))) /\
  lookup_artist eid s = Some (AEsquiador (nth (an_next an) (an_x an) (#0)%sc) (nth (an_next an) (an_y an) (#0)%sc)).

(** One firing either is a tick of [a], which draws [a]'s next frame into
    the artists of the globals, or leaves [waiting] as it was. *)
Lemma fire_waiting (s s' : ui T) : waiting s -> fire d s = Some s' -> waiting s' \/ hijacked s'.
Proof.
  intros (Ha & Hlt & Ht & GL & GE & Hne). unfold fire.
  destruct (earliest 0 (timers s)) as [[k tm]|] eqn:E; [|discriminate]. intros F; injection F as <-.
  destruct (earliest_nth _ _ _ _ E) as [_ Hk]. rewrite Nat.sub_0_r in Hk.
  set (s0 := set_clock (Nat.max (clock s) (tm_due tm)) (set_timers (remove_nth k (timers s)) s)).
  assert (A0 : nth_error (anims s0) a = Some an) by exact Ha.
  assert (GL0 : g_linea s0 = lid) by exact GL. assert (GE0 : g_esquiador s0 = Some eid) by exact GE.
  destruct (is_tick a tm) eqn:Htm.
  - right. unfold is_tick in Htm. destruct (tm_cb tm) as [b|]; [|discriminate].
    apply Nat.eqb_eq in Htm as ->. cbn [run_cb].
    destruct (frame_tick_draw d a s0 an A0 Hlt) as (_ & _ & _ & _ & GL' & GE' & LK).
    unfold hijacked. rewrite GL', GE', !LK, GL0, GE0. split; [reflexivity|]. split; [reflexivity|].
    rewrite <- GL0 at 1. split; [apply lookup_actualizar_line; congruence|].
    now apply lookup_actualizar_sprite.
  - left. assert (Ht0 : existsb (is_tick a) (timers s0) = true)
      by (cbn [s0 timers set_clock set_timers]; now rewrite (existsb_remove_nth _ _ _ _ Hk Htm)).
    unfold is_tick in Htm. destruct (tm_cb tm) as [b|]; cbn [run_cb].
    + assert (Hba : b <> a) by (intros ->; now rewrite Nat.eqb_refl in Htm).
      destruct (frame_tick_other d a b s0 Hba) as (A & GL' & GE').
      destruct (frame_tick_shape d b s0) as (_ & l & Ti).
      unfold waiting. rewrite A, A0, GL', GL0, GE', GE0, Ti, existsb_app, Ht0. auto 7.
    + exact (conj A0 (conj Hlt (conj Ht0 (conj GL0 (conj GE0 Hne))))).
Qed.

(** The tick of [a] fires within [pending_work] iterations. *)
Lemma run_waiting (s : ui T) : waiting s -> exists k, hijacked (run d k s).
Proof.
  intros W. remember (pending_work s) as n eqn:En. revert s W En.
  induction n as [n IH] using lt_wf_ind. intros s W En.
  destruct (fire d s) as [s'|] eqn:F.
  - destruct (fire_waiting s s' W F) as [W'|J].
    + destruct (IH (pending_work s') ltac:(pose proof (fire_pending_work d s s' F); lia) s' W' eq_refl)
        as [k Hk].
      exists (S k). cbn. now rewrite F.
    + exists 1. cbn. now rewrite F.
  - destruct W as (_ & _ & Ht & _). now rewrite (proj1 (fire_none_timers d s) F) in Ht.
Qed.

End Stale.

(** Two float lists differ where their elements are not [==]. *)
Lemma float_lists_differ_at k (l1 l2 : list float) :
  PrimFloat.eqb (nth k l1 0%float) (nth k l1 0%float) = true ->
  PrimFloat.eqb (nth k l1 0%float) (nth k l2 0%float) = false -> l1 <> l2.
Proof. intros H1 H2 E. rewrite E in H1 at 2. congruence. Qed.

(** C24: a valid press made while an older animation [a] still has frames
    to draw and its tick pending (possible once the button is back before
    the last frame) rebinds the globals to a fresh line [next_id + 2] and
    sprite [next_id + 3]; whatever a frame takes and [canvas.draw()]
    renders in, the loop then reaches a state where that new line shows
    the old run's prefix [x[:j]], [y[:j]] and the new sprite sits on the
    old run's sample [j], [j] being the old animation's next frame: the
    old tick draws the old trajectory into the new run's artists. *)
Theorem stale_tick_hijacks_new_line {T} `{Scalar T} `{PyFloat T} d r (e : entradas) (s : ui T)
    i tr md ma L a an :
  nth_error (anims s) a = Some an -> an_next an < an_frames an -> existsb (is_tick a) (timers s) = true ->
  parse_entradas e = Some i -> simula i = Flight tr (md, ma) -> limites i tr md = Some L ->
  (finite2 (#0)%sc (xmax L) && finite2 (ymin L) (ymax L))%bool = true ->
  exists k,
    g_linea (run d k (simular_salto r e s)) = next_id s + 2 /\
    g_esquiador (run d k (simular_salto r e s)) = Some (next_id s + 3) /\
    lookup_artist (next_id s + 2) (run d k (simular_salto r e s))
    = Some (ALinea (firstn (an_next an) (an_x an)) (firstn (an_next an) (an_y an))) /\
    lookup_artist (next_id s + 3) (run d k (simular_salto r e s))
    = Some (AEsquiador (nth (an_next an) (an_x an) (#0)%sc) (nth (an_next an) (an_y an) (#0)%sc)).
Proof.
  intros Ha Hlt Ht Hp Hs HL Hf. rewrite (simular_salto_launch r e s i tr md ma L Hp Hs HL Hf).
  destruct (lanzar_schedule r i tr md ma L (set_boton DISABLED s)) as (_ & Ti & A & _).
  destruct (lanzar_draws r i tr md ma L (set_boton DISABLED s)) as (GL & GE & _).
  cbn [anims timers next_id set_boton] in Ti, A, GL, GE.
  apply (run_waiting d a (next_id s + 2) (next_id s + 3) an). unfold waiting.
  rewrite A, Ti, GL, GE, existsb_app, Ht, nth_error_app1 by (apply nth_error_Some; congruence).
  repeat split; [exact Ha | exact Hlt | lia].
Qed.

(** ** The two runs of [EventLoop] *)

#[local] Instance b64_taylor : Scalar float := b64 taylor_libm.

(** The second press of [EventLoop.segundo_salto]: speed 30, angle 30,
    after 271 of the first run's 300 frames. *)
Definition entradas_segundas : entradas := mk_entradas "30" "30" "1" "20".

Definition inputs_segundas : inputs float :=
  match parse_entradas entradas_segundas with Some i => i | None => inputs_iniciales end.

Definition tr_segundas : trajectory float := trayectoria inputs_segundas (t_aterrizaje inputs_segundas).

Definition mejor_segundas : float * float := mejor_angulo (v0 inputs_segundas) (m inputs_segundas).

Definition limites_segundas : limits float :=
  match limites inputs_segundas tr_segundas (fst mejor_segundas) with
  | Some L => L | None => limites_iniciales end.

Definition antes_segundo : ui float :=
  let s := run 10 272 primer_salto in set_clock (clock s) s.

(** The first run's frame 271 lands in the second run's line, whose own
    samples differ from it. *)
Lemma stale_tick_hijacks_new_line_witness :
  (exists k,
    g_linea (run 10 k segundo_salto) = next_id antes_segundo + 2 /\
    g_esquiador (run 10 k segundo_salto) = Some (next_id antes_segundo + 3) /\
    lookup_artist (next_id antes_segundo + 2) (run 10 k segundo_salto)
    = Some (ALinea (firstn 271 (tr_x tr_iniciales)) (firstn 271 (tr_y tr_iniciales))) /\
    lookup_artist (next_id antes_segundo + 3) (run 10 k segundo_salto)
    = Some (AEsquiador (nth 271 (tr_x tr_iniciales) (#0)%sc) (nth 271 (tr_y tr_iniciales) (#0)%sc))) /\
  firstn 271 (tr_x tr_iniciales) <> firstn 271 (tr_x tr_segundas).
Proof.
  split.
  - exact (stale_tick_hijacks_new_line 10 20 entradas_segundas antes_segundo inputs_segundas
             tr_segundas (fst mejor_segundas) (snd mejor_segundas) limites_segundas 0
             (mk_anim (tr_x tr_iniciales) (tr_y tr_iniciales) 300 271)
             ltac:(vm_compute; reflexivity) ltac:(cbn; lia) ltac:(vm_compute; reflexivity)
             ltac:(vm_compute; reflexivity) ltac:(vm_compute; reflexivity)
             ltac:(vm_compute; reflexivity) ltac:(vm_compute; reflexivity)).
  - apply (float_lists_differ_at 1); vm_compute; reflexivity.
Defined.
