(* ===== verification/Button.v ===== *)
(** * The button and the end timer (src/sky.py lines 29, 38, 55, 115-119, 157)

    The handler disables [Saltar] first (line 29) and only three things
    enable it again: the two early exits (lines 38 and 55), which schedule
    nothing, and [on_animation_end] (line 116), which the launch schedules
    with [ventana.after] (line 119).  A disabled Tk button ignores clicks.

    [end_timers s] counts the pending [on_animation_end] timers.  In every
    state reachable from start-up at most one is pending, and none while
    the button is enabled ([reachable_end_exclusive]): a new run can only
    start once the previous one's end timer has fired, so the calls of
    [on_animation_end] never overlap, even though the animations
    themselves may ([Hijack.stale_tick_hijacks_new_line]). *)

From Stdlib Require Import Arith Bool List Lia Floats Relations.
From S2P Require Import Prelude Trajectory Engine Binary64 Parse Shell EventLoop Quiescence.
Import ListNotations.

Section Exclusion.
Context {T : Type} `{Scalar T} `{PyFloat T}.

Definition is_end (tm : timer) : bool := match tm_cb tm with CbEnd => true | CbFrame _ => false end.

Definition end_timers (s : ui T) : nat := length (filter is_end (timers s)).

(** At most one end timer, and none while the button is enabled. *)
Definition exclusive (s : ui T) : Prop := end_timers s <= 1 /\ (boton s = NORMAL -> end_timers s = 0).

Lemma remove_nth_split {A} k (l : list A) x :
  nth_error l k = Some x -> exists l1 l2, l = l1 ++ x :: l2 /\ remove_nth k l = l1 ++ l2.
Proof.
  revert k; induction l as [|y l IH]; intros [|k]; cbn; try discriminate.
  - intros [= ->]. exists [], l. auto.
  - intros E. destruct (IH k E) as (l1 & l2 & -> & ->). exists (y :: l1), l2. auto.
Qed.

(** Firing a timer removes it from the count. *)
Lemma end_timers_remove k tm (s : ui T) :
  earliest 0 (timers s) = Some (k, tm) ->
  length (filter is_end (remove_nth k (timers s))) + (if is_end tm then 1 else 0) = end_timers s.
Proof.
  intros E. destruct (earliest_nth 0 _ _ _ E) as [_ Hk]. rewrite Nat.sub_0_r in Hk.
  destruct (remove_nth_split k _ _ Hk) as (l1 & l2 & Et & ->). unfold end_timers. rewrite Et.
  rewrite !filter_app, !length_app. cbn [filter]. destruct (is_end tm); cbn [length]; lia.
Qed.

(** A frame tick schedules only a frame tick and leaves the button. *)
Lemma frame_tick_end_timers d a (s : ui T) :
  end_timers (frame_tick d a s) = end_timers s /\ boton (frame_tick d a s) = boton s.
Proof.
  unfold frame_tick. destruct (nth_error (anims s) a) as [an|]; [|split; reflexivity].
  destruct (an_next an <? an_frames an); [|split; reflexivity].
  destruct (actualizar_fields (an_x an) (an_y an) (an_next an) s) as (B & Ts & _).
  unfold end_timers. cbn. rewrite Ts, B, filter_app, length_app. cbn. split; [lia | reflexivity].
Qed.

Lemma exclusive_fire d (s s' : ui T) : exclusive s -> fire d s = Some s' -> exclusive s'.
Proof.
  intros [X1 X2]. unfold fire. destruct (earliest 0 (timers s)) as [[k tm]|] eqn:E; [|discriminate].
  intros [= <-]. pose proof (end_timers_remove k tm s E) as R.
  set (s0 := set_clock (Nat.max (clock s) (tm_due tm)) (set_timers (remove_nth k (timers s)) s)).
  assert (E0 : end_timers s0 = length (filter is_end (remove_nth k (timers s)))) by reflexivity.
  assert (B0 : boton s0 = boton s) by reflexivity.
  unfold is_end at 2 in R. destruct (tm_cb tm) as [a|]; cbn [run_cb].
  - destruct (frame_tick_end_timers d a s0) as [C B]. unfold exclusive. rewrite C, B, E0, B0.
    split; [lia|]. intros Hb. apply X2 in Hb. lia.
  - unfold exclusive. change (end_timers (on_animation_end s0)) with (end_timers s0). rewrite E0.
    split; [lia|]. intros _. lia.
Qed.

(** A press with no end timer pending leaves at most the one the launch
    schedules, with the button disabled. *)
Lemma exclusive_simular_salto r e (s : ui T) : end_timers s = 0 -> exclusive (simular_salto r e s).
Proof.
  intros Z. unfold simular_salto. unfold exclusive, end_timers in *.
  destruct (parse_entradas e) as [i|]; [|cbn [timers boton set_boton set_etiqueta set_ejes]; split; lia].
  destruct (simula i) as [|tr [md ma]]; [cbn [timers boton set_boton set_etiqueta set_ejes]; split; lia|].
  destruct (limites i tr md) as [L|]; [|cbn [timers boton set_boton set_etiqueta set_ejes]; split; lia].
  destruct (negb (finite2 _ (xmax L))); [cbn [timers boton set_boton set_etiqueta set_ejes]; split; lia|].
  destruct (negb (finite2 (ymin L) (ymax L))); [cbn [timers boton set_boton set_etiqueta set_ejes]; split; lia|].
  destruct (lanzar_schedule r i tr md ma L (set_boton DISABLED s)) as (B & Ts & _).
  rewrite B, Ts, filter_app, length_app. cbn. split; [lia | discriminate].
Qed.

Lemma exclusive_step d (s s' : ui T) : exclusive s -> step d s s' -> exclusive s'.
Proof.
  intros X S. destruct S as [s1 s2 E | e t r s1 Hb _ _]; [exact (exclusive_fire d s1 s2 X E)|].
  apply exclusive_simular_salto. exact (proj2 X Hb).
Qed.

End Exclusion.

(** C36 (invariant): in every state the window reaches from start-up,
    whatever the timers fire, the user presses and a frame takes, at most
    one [on_animation_end] timer is pending, and none while [Saltar] is
    enabled: a run can only be started after the previous run's end timer
    has fired, so the timers of line 119 never pile up. *)
Theorem reachable_end_exclusive {T} `{Scalar T} `{PyFloat T} d c (s : ui T) :
  reach d (set_clock c ui_inicial) s -> end_timers s <= 1 /\ (boton s = NORMAL -> end_timers s = 0).
Proof.
  intros R. change (exclusive s).
  assert (I : exclusive (set_clock c (@ui_inicial T _))) by (unfold exclusive; change (end_timers (set_clock c (@ui_inicial T _))) with 0; split; [lia | reflexivity]).
  revert I. induction R as [s|s1 s2 s3 S _ IH]; intros I; [exact I|].
  exact (IH (exclusive_step d s1 s2 I S)).
Qed.

#[local] Instance b64_taylor : Scalar float := b64 taylor_libm.

(** The state of [EventLoop] where a second run has started beside the
    first animation: its end timer is the only one pending. *)
Lemma reachable_end_exclusive_witness :
  (end_timers tras_segundo_salto <= 1 /\ (boton tras_segundo_salto = NORMAL -> end_timers tras_segundo_salto = 0)) /\
  end_timers tras_segundo_salto = 1.
Proof.
  split; [exact (reachable_end_exclusive 10 0 tras_segundo_salto tras_segundo_salto_reachable)|].
  vm_compute. reflexivity.
Defined.
