(* ===== verification/Typing.v ===== *)
(** * The dynamic types the frame callback relies on (src/sky.py lines 21-22, 103-112)

    [actualizar] calls [linea_trayectoria.set_data(...)] and assigns
    [esquiador.xy]: Python raises [AttributeError] unless the first global
    is a [Line2D] and the second an [AnnotationBbox].  At start-up
    [esquiador] is [None] (line 22), and [Shell] models an [actualizar]
    that meets [None] as drawing no sprite.  [typed] states what makes both
    statements safe: [linea_trayectoria] names a line of the store,
    [esquiador], when set, names a sprite, and it is set as soon as an
    animation exists, so no frame can run while it is [None].

    Every state the window reaches from start-up, through timer firings
    and button presses, is [typed] ([reachable_typed]): the model's
    treatment of [None] is never exercised, and no [AttributeError] can
    arise in the callback. *)

From Stdlib Require Import Arith Bool List Lia Floats Relations.
From S2P Require Import Prelude Trajectory Engine Binary64 Parse Shell EventLoop.
Import ListNotations.

Section Typing.
Context {T : Type} `{Scalar T} `{PyFloat T}.

(** [linea_trayectoria] is a line, [esquiador] a sprite or [None], and
    not [None] once an animation exists. *)
Definition typed (s : ui T) : Prop :=
  (exists xs ys, lookup_artist (g_linea s) s = Some (ALinea xs ys)) /\
  (forall e, g_esquiador s = Some e -> exists x y, lookup_artist e s = Some (AEsquiador x y)) /\
  (anims s <> [] -> g_esquiador s <> None).

(** An update that keeps the store, the globals and the number of
    animations keeps the types. *)
Lemma typed_same (s s' : ui T) :
  store s' = store s -> g_linea s' = g_linea s -> g_esquiador s' = g_esquiador s ->
  List.length (anims s') = List.length (anims s) -> typed s -> typed s'.
Proof.
  intros S GL GE Hl (T1 & T2 & T3).
  assert (Hlk : forall id, lookup_artist id s' = lookup_artist id s) by (intros; now apply lookup_artist_store).
  split; [|split].
  - rewrite GL, Hlk. exact T1.
  - intros e He. rewrite Hlk. apply T2. congruence.
  - intros Ha. rewrite GE. apply T3. intros E. apply Ha, length_zero_iff_nil. rewrite Hl, E. reflexivity.
Qed.

Lemma typed_set_boton b (s : ui T) : typed s -> typed (set_boton b s).
Proof. apply typed_same; reflexivity. Qed.

Lemma typed_set_etiqueta l (s : ui T) : typed s -> typed (set_etiqueta l s).
Proof. apply typed_same; reflexivity. Qed.

Lemma typed_set_ejes a (s : ui T) : typed s -> typed (set_ejes a s).
Proof. apply typed_same; reflexivity. Qed.

(** A frame draws a line where the line is and a sprite where the sprite
    is; the two are different artists in a well-formed state. *)
Lemma typed_actualizar x y k (s : ui T) : ui_wf s -> typed s -> typed (actualizar x y k s).
Proof.
  intros W (T1 & T2 & T3). pose proof W as (_ & _ & _ & _ & _ & W6).
  destruct (actualizar_globals x y k s) as [GL GE].
  split; [|split].
  - rewrite GL, lookup_actualizar_line by exact W6. eauto.
  - intros e He. rewrite GE in He. rewrite (lookup_actualizar_sprite x y k e s He). eauto.
  - rewrite GE, anims_actualizar. exact T3.
Qed.

(** A launch binds fresh artists of the right kinds to both globals. *)
Lemma typed_lanzar r i tr md ma L (s : ui T) : typed (lanzar r i tr md ma L s).
Proof.
  destruct (lanzar_draws r i tr md ma L s) as (GL & GE & Ll & Ls).
  split; [|split].
  - rewrite GL. eauto.
  - intros e He. rewrite GE in He. injection He as <-. eauto.
  - rewrite GE. discriminate.
Qed.

#[local] Hint Resolve typed_set_boton typed_set_etiqueta typed_set_ejes typed_lanzar : skijump.

Lemma typed_simular_salto r (e : entradas) (s : ui T) : typed s -> typed (simular_salto r e s).
Proof.
  intros Ty. unfold simular_salto.
  destruct (parse_entradas e) as [i|]; [|auto with skijump].
  destruct (simula i) as [|tr [md ma]]; [auto with skijump|].
  destruct (limites i tr md) as [L|]; [|auto with skijump].
  destruct (negb _); [auto with skijump|]. destruct (negb _); auto with skijump.
Qed.

Lemma typed_frame_tick d a (s : ui T) : ui_wf s -> typed s -> typed (frame_tick d a s).
Proof.
  intros W Ty. unfold frame_tick.
  destruct (nth_error (anims s) a) as [an|]; [|exact Ty].
  destruct (an_next an <? an_frames an); [|exact Ty].
  pose proof (typed_actualizar (an_x an) (an_y an) (an_next an) s W Ty) as Ta.
  revert Ta. generalize (actualizar (an_x an) (an_y an) (an_next an) s). intros s1 Ta.
  apply (typed_same s1); [reflexivity..| |exact Ta].
  cbn [anims add_timer set_clock set_anims]. apply length_update_nth.
Qed.

Lemma typed_fire d (s s' : ui T) : ui_wf s -> typed s -> fire d s = Some s' -> typed s'.
Proof.
  intros W Ty. unfold fire. destruct (earliest 0 (timers s)) as [[k tm]|]; [|discriminate].
  intros E. injection E as <-.
  set (s0 := set_clock (Nat.max (clock s) (tm_due tm)) (set_timers (remove_nth k (timers s)) s)).
  assert (W0 : ui_wf s0)
    by (apply ui_wf_set_clock, ui_wf_set_timers; [intros t; apply in_remove_nth | exact W]).
  assert (T0 : typed s0) by (apply (typed_same s); [reflexivity..|exact Ty]).
  destruct (tm_cb tm); cbn [run_cb]; [exact (typed_frame_tick d a s0 W0 T0) | exact (typed_set_boton _ _ T0)].
Qed.

Lemma typed_step d (s s' : ui T) : ui_wf s -> typed s -> step d s s' -> typed s'.
Proof.
  intros W Ty S. revert W Ty. destruct S as [s1 s2 E | e t r s1 _ _ _]; intros W Ty;
    [exact (typed_fire d s1 s2 W Ty E)|].
  apply typed_simular_salto. apply (typed_same s1); [reflexivity..|exact Ty].
Qed.

Lemma typed_inicial : typed ui_inicial.
Proof.
  split; [|split].
  - exists [], []. reflexivity.
  - intros e E. discriminate.
  - intros E. exfalso. exact (E eq_refl).
Qed.

End Typing.

(** C35 (type): in every state the window reaches from start-up, whatever
    the timers fire, the user presses and a frame takes, the global
    [linea_trayectoria] is a line, [esquiador] is a sprite whenever it is
    set, and it is set as soon as an animation exists: [set_data] and
    [.xy] in the frame callback never meet an object without them. *)
Theorem reachable_typed {T} `{Scalar T} `{PyFloat T} d c (s : ui T) :
  reach d (set_clock c ui_inicial) s -> typed s.
Proof.
  intros R. enough (ui_wf s /\ typed s) by tauto.
  assert (I : ui_wf (set_clock c (@ui_inicial T _)) /\ typed (set_clock c (@ui_inicial T _))).
  { split; [apply ui_wf_set_clock, ui_wf_inicial|]. apply (typed_same ui_inicial); [reflexivity..|apply typed_inicial]. }
  revert I. induction R as [s|s1 s2 s3 S _ IH]; intros [W Ty]; [exact (conj W Ty)|].
  apply IH. split; [exact (ui_wf_step d s1 s2 W S) | exact (typed_step d s1 s2 W Ty S)].
Qed.

(** ** Two runs at once *)

#[local] Instance b64_taylor : Scalar float := b64 taylor_libm.

(** The state of [EventLoop] where a second launch has started beside the
    first animation (10 ms frames) and one more tick has run. *)
Lemma reachable_typed_witness : typed tras_segundo_salto.
Proof.
  exact (reachable_typed 10 0 tras_segundo_salto tras_segundo_salto_reachable).
Defined.
