(* ===== verification/Frames.v ===== *)
(** * The frames an animation shows (src/sky.py lines 110-118)

    The spec's animation contract: one discrete frame per sample index,
    advancing monotonically, no skipping, no repeat.  In the code each
    tick of the [FuncAnimation] of line 118 passes the next index of its
    own frame iterator to [actualizar]; the loop of [EventLoop] decides
    when the ticks run, interleaved with [on_animation_end].

    [fire_draws s] is what one iteration of the loop shows: the animation
    and the frame index its tick hands to [actualizar], or nothing (the end
    timer, or the tick that stops an exhausted animation).  [frames_shown
    d n s] collects these over [n] iterations.  For a launch from a quiet
    window the loop shows exactly the frames [0, 1, ..., 299] of the new
    animation, in that order, whatever a frame takes
    ([launch_frames_in_order]): the loop refines the spec's contract.
    (The first draw of [FuncAnimation], part of the launch itself, shows
    frame 0 once more before the loop starts.) *)

From Stdlib Require Import ZArith Arith Bool List Lia Floats.
From S2P Require Import Prelude Trajectory Engine Binary64 Parse Shell EventLoop.
Import ListNotations.

Section Trace.
Context {T : Type} `{Scalar T} `{PyFloat T}.

(** The frame the next firing shows, with its animation. *)
Definition fire_draws (s : ui T) : option (nat * nat) :=
  match earliest 0 (timers s) with
  | Some (_, tm) =>
      match tm_cb tm with
      | CbFrame a =>
          match nth_error (anims s) a with
          | Some an => if an_next an <? an_frames an then Some (a, an_next an) else None
          | None => None
          end
      | CbEnd => None
      end
  | None => None
  end.

(** The frames shown by [n] iterations of the loop, in order. *)
Fixpoint frames_shown (d n : nat) (s : ui T) : list (nat * nat) :=
  match n with
  | 0 => []
  | S n =>
      match fire d s with
      | Some s' =>
          match fire_draws s with
          | Some p => p :: frames_shown d n s'
          | None => frames_shown d n s'
          end
      | None => []
      end
  end.

(** A firing either shows the next frame of animation [a] and advances
    it, or leaves it alone. *)
Lemma fire_anim d (s s' : ui T) a an :
  fire d s = Some s' -> nth_error (anims s) a = Some an ->
  (fire_draws s = Some (a, an_next an) /\ nth_error (anims s') a = Some (advance an)) \/
  ((forall k, fire_draws s <> Some (a, k)) /\ nth_error (anims s') a = Some an).
Proof.
  intros F Ha. unfold fire in F. unfold fire_draws.
  destruct (earliest 0 (timers s)) as [[k tm]|]; [|discriminate]. injection F as <-.
  destruct (tm_cb tm) as [b|]; cbn [run_cb]; [|right; split; [discriminate | exact Ha]].
  unfold frame_tick. cbn [anims set_clock set_timers].
  destruct (nth_error (anims s) b) as [bn|] eqn:Eb; [|right; split; [discriminate | exact Ha]].
  destruct (Nat.ltb_spec (an_next bn) (an_frames bn)) as [Hlt|]; [|right; split; [discriminate | exact Ha]].
  cbn [anims add_timer set_clock set_anims]. rewrite (proj1 (proj2 (proj2 (actualizar_fields _ _ _ _)))).
  cbn [anims set_clock set_timers]. rewrite nth_error_update_nth.
  destruct (Nat.eqb_spec a b) as [<-|Hab].
  - rewrite Ha in Eb. injection Eb as <-. left. rewrite Ha. split; reflexivity.
  - right. split; [|exact Ha]. intros k' E. injection E as E _. congruence.
Qed.

(** Only a pending tick of animation [b] shows a frame of [b]. *)
Lemma fire_draws_timer (s : ui T) b k :
  fire_draws s = Some (b, k) -> exists tm, In tm (timers s) /\ tm_cb tm = CbFrame b.
Proof.
  unfold fire_draws. destruct (earliest 0 (timers s)) as [[i tm]|] eqn:E; [|discriminate].
  destruct (tm_cb tm) as [a|] eqn:Ecb; [|discriminate].
  destruct (nth_error (anims s) a); [|discriminate]. destruct (_ <? _); [|discriminate].
  intros F. injection F as <- _. exists tm. split; [exact (earliest_in _ _ _ _ E) | exact Ecb].
Qed.

End Trace.

Section Launch.
Context {T : Type} `{Scalar T} `{PyFloat T}.
Variables (d E N a : nat) (xs ys : list T).

(** While one launch's timers are pending, the loop shows the remaining
    frames [j .. N - 1] of its animation, in order. *)
Lemma frames_shown_pending n e t j (s : ui T) :
  pending E N a xs ys e t j s -> remaining N e t j = n ->
  frames_shown d n s = map (pair a) (seq j (N - j)).
Proof.
  revert e t j s; induction n as [|n IH]; intros e t j s P Hn.
  - destruct P as (_ & _ & _ & _ & Hj). unfold remaining in Hn. cbn.
    replace (N - j) with 0 by lia. reflexivity.
  - assert (Het : (e || t)%bool = true).
    { destruct e, t; [reflexivity..|]. destruct P as (_ & _ & _ & Hjt & _).
      rewrite (Hjt eq_refl) in Hn. unfold remaining in Hn. cbn in Hn. lia. }
    destruct (fire_pending d E N a xs ys e t j s P Het) as (e' & t' & j' & s' & F & P' & M).
    pose proof P as ((f & Ht) & Ha & _). pose proof P' as (_ & Ha' & _ & _ & Hj').
    cbn [frames_shown]. rewrite F.
    destruct (fire_anim d s s' a _ F Ha) as [[D A]|[D A]]; rewrite A in Ha'; injection Ha' as <-.
    + cbn [an_next] in D. rewrite D, (IH e' t' (S j) s' P' ltac:(lia)).
      replace (N - j) with (S (N - S j)) by lia. reflexivity.
    + destruct (fire_draws s) as [[b k]|] eqn:Ed.
      * destruct (fire_draws_timer s b k Ed) as (tm & Hin & Hcb). rewrite Ht in Hin.
        assert (b = a) as ->.
        { destruct e, t; cbn in Hin; repeat destruct Hin as [<-|Hin]; cbn in Hcb;
            solve [contradiction | congruence]. }
        exfalso. exact (D k eq_refl).
      * exact (IH e' t' j s' P' ltac:(lia)).
Qed.

End Launch.

(** C37 (refinement): for a valid launch from a window with no pending
    timer, the 302 iterations of the loop that follow show exactly the
    frames [0, 1, ..., 299] of the new animation, in increasing order,
    each once, whatever a frame takes and [canvas.draw()] renders in: one frame per sample index,
    monotone, with no skip and no repeat, as the spec's animation
    contract says. *)
Theorem launch_frames_in_order {T} `{Scalar T} `{PyFloat T} d r (e : entradas) (s : ui T) i tr md ma L :
  timers s = [] ->
  parse_entradas e = Some i -> simula i = Flight tr (md, ma) -> limites i tr md = Some L ->
  (finite2 (#0)%sc (xmax L) && finite2 (ymin L) (ymax L))%bool = true ->
  frames_shown d 302 (simular_salto r e s) = map (pair (List.length (anims s))) (seq 0 300).
Proof.
  intros Ht Hp Hs HL Hf.
  exact (frames_shown_pending d _ _ _ _ _ 302 true true 0 _ (launch_pending r e s i tr md ma L Ht Hp Hs HL Hf) eq_refl).
Qed.

(** ** The default jump *)

#[local] Instance b64_taylor : Scalar float := b64 taylor_libm.

(** The first press on the start-up window, with 12 ms frames. *)
Lemma launch_frames_in_order_witness :
  frames_shown 12 302 primer_salto = map (pair 0) (seq 0 300).
Proof.
  destruct primer_salto_launch as (Hp & Hs & HL & Hf).
  exact (launch_frames_in_order 12 20 entradas_iniciales (set_clock 0 ui_inicial) inputs_iniciales
           tr_iniciales _ _ limites_iniciales eq_refl Hp Hs HL Hf).
Defined.
