(* ===== verification/Format.v ===== *)
(** * The summary label: [format(x, ".2f")] (src/sky.py lines 37, 54, 123-126, 160)

    [label_resultado] shows one of four texts: empty at start-up (line
    160), the two error messages of lines 37 and 54, and the summary of
    lines 124-126, an f-string with three [:.2f] fields.  Python formats a
    [float] (or a numpy [float64], or the [int] 0 of the sweep's sentinel)
    with [PyOS_double_to_string(x, 'f', 2)]: [_Py_dg_dtoa] in mode 3 gives
    the digits of [x * 100] correctly rounded to an integer, ties to even;
    [format_float_short] writes the sign of a negative number (also of
    [-0.0]), the integer part without leading zeros, the point and two
    digits; an infinity is [inf] or [-inf] and a NaN [nan], with no sign.

    [format_2f] is that conversion on the bits of the double ([Prim2SF]).
    The label's texts are byte strings in UTF-8, as Tk receives them.

    The conversion is a round trip with [float] of [Parse]: reading the
    label's number back gives the double itself when it is zero, infinite
    or NaN, and a decimal within [0.005] of it otherwise
    ([format_2f_roundtrip]).  The default jump's summary is computed
    exactly ([default_label]). *)

From Stdlib Require Import ZArith NArith Ascii String List Bool Lia Reals Lra Floats.
From S2P Require Import Prelude Binary64 Parse Shell EventLoop.
Import ListNotations.

(** ** Digits *)

(** [n / d] rounded to the nearest integer, ties to the even one: the
    last digit of [_Py_dg_dtoa] rounds up when the remainder is more than
    half, or exactly half after an odd digit. *)
Definition div_half_even (n d : N) : N :=
  let q := (n / d)%N in
  match N.compare (2 * (n mod d)) d with
  | Lt => q
  | Gt => q + 1
  | Eq => if N.even q then q else q + 1
  end%N.

(** [|m * 2^e| * 100], rounded: the digits [_Py_dg_dtoa(x, 3, 2)]
    produces, as one integer. *)
Definition centi (m : positive) (e : Z) : N :=
  if (0 <=? e)%Z then (Npos m * 100 * 2 ^ Z.to_N e)%N
  else div_half_even (Npos m * 100) (2 ^ Z.to_N (- e)).

Definition digit_char (n : N) : ascii := ascii_of_N (48 + n).

(** The decimal digits of [n], least significant first, at most [fuel]. *)
Fixpoint digits_rev (fuel : nat) (n : N) : list ascii :=
  match fuel with
  | O => []
  | S f => digit_char (n mod 10) :: (if (n <? 10)%N then [] else digits_rev f (n / 10))
  end.

(** [n] in decimal with no leading zero; [0] is ["0"].  [n] has at most
    as many decimal digits as bits. *)
Definition show_N (n : N) : list ascii := rev (digits_rev (S (N.to_nat (N.size n))) n).

(** [format_float_short] with precision 2 on the rounded digits [k]: the
    sign, the integer part, the point, two fraction digits. *)
Definition fixed2 (neg : bool) (k : N) : list ascii :=
  (if neg then ["-"%char] else []) ++ show_N (k / 100) ++
  "."%char :: [digit_char (k mod 100 / 10); digit_char (k mod 10)].

(** [format(x, ".2f")]. *)
Definition format_2f (x : float) : string :=
  string_of_list_ascii
    match Prim2SF x with
    | S754_zero neg => fixed2 neg 0
    | S754_finite neg m e => fixed2 neg (centi m e)
    | S754_infinity neg => (if neg then ["-"%char] else []) ++ ["i"; "n"; "f"]%char
    | S754_nan => ["n"; "a"; "n"]%char
    end.

(** ** The label *)

Definition newline : string := String (ascii_of_nat 10) EmptyString.

(** The text of [label_resultado] for each message of [Shell]. *)
Definition texto (msg : mensaje float) : string :=
  match msg with
  | MsgVacio => ""
  | MsgNoNumerico => "❌ Ingresa valores numéricos"
  | MsgSinInterseccion => "⚠️ No hay intersección con la pista"
  | MsgResultado distancia mejor_ang mejor_dist =>
      "⛷️ Distancia: " ++ format_2f distancia ++ " m" ++ newline ++
      "🏆 Mejor ángulo: " ++ format_2f mejor_ang ++ "° (alcanzaría " ++
      format_2f mejor_dist ++ " m)"
  end.

(** The value of a finite double, [(-1)^s * m * 2^e]; [0] for the others. *)
Definition value_R (x : float) : R :=
  match Prim2SF x with
  | S754_finite neg m e => ((if neg then -1 else 1) * IZR (Zpos m) * powerRZ 2 e)%R
  | _ => 0%R
  end.

(** ** Digits are read back *)

Section Digits.
Local Open Scope N_scope.

Lemma digit_char_spec n : n < 10 -> is_digit (digit_char n) = true /\ digit_val (digit_char n) = n.
Proof.
  intros Hn. assert (Hk : (N.to_nat n < 10)%nat) by lia. rewrite <- (N2Nat.id n).
  revert Hk. generalize (N.to_nat n) as k. intros k Hk.
  do 10 (destruct k as [|k]; [split; reflexivity|]). lia.
Qed.

Lemma digits_value_snoc l c : digits_value (l ++ [c]) = digits_value l * 10 + digit_val c.
Proof. unfold digits_value. now rewrite fold_left_app. Qed.

Lemma digits_rev_spec f n :
  n < 10 ^ N.of_nat f ->
  forallb is_digit (rev (digits_rev f n)) = true /\ digits_value (rev (digits_rev f n)) = n.
Proof.
  revert n; induction f as [|f IH]; intros n Hn.
  - cbn in Hn |- *. split; [reflexivity | lia].
  - destruct (digit_char_spec (n mod 10) ltac:(apply N.mod_lt; lia)) as [Dd Dv].
    cbn [digits_rev rev]. rewrite forallb_app, digits_value_snoc, Dv. cbn [forallb]. rewrite Dd.
    destruct (N.ltb_spec n 10) as [Hlt|Hge].
    + cbn. split; [reflexivity|]. rewrite N.mod_small by lia. lia.
    + assert (Hq : n / 10 < 10 ^ N.of_nat f).
      { apply N.Div0.div_lt_upper_bound. rewrite Nat2N.inj_succ, N.pow_succ_r' in Hn. lia. }
      destruct (IH _ Hq) as [F V]. rewrite F, V. split; [reflexivity|].
      pose proof (N.div_mod n 10). lia.
Qed.

(** [show_N] prints digits that [read_digits] reads back as [n]. *)
Lemma show_N_spec n :
  forallb is_digit (show_N n) = true /\ digits_value (show_N n) = n /\ show_N n <> [].
Proof.
  unfold show_N. assert (Hb : n < 10 ^ N.of_nat (S (N.to_nat (N.size n)))).
  { rewrite Nat2N.inj_succ, N2Nat.id. pose proof (N.size_gt n).
    pose proof (N.pow_le_mono_l 2 10 (N.size n) ltac:(lia)). rewrite N.pow_succ_r'. lia. }
  destruct (digits_rev_spec _ _ Hb) as [F V]. split; [exact F|]. split; [exact V|].
  rewrite <- length_zero_iff_nil, length_rev. cbn. discriminate.
Qed.

(** The three digits of [k]: its hundreds, tens and units. *)
Lemma centi_digits k :
  ((k / 100) * 10 + k mod 100 / 10) * 10 + k mod 10 = k /\ k mod 100 / 10 < 10 /\ k mod 10 < 10.
Proof.
  pose proof (N.div_mod k 100 ltac:(lia)). pose proof (N.mod_lt k 100 ltac:(lia)).
  pose proof (N.div_mod (k mod 100) 10 ltac:(lia)). pose proof (N.mod_lt (k mod 100) 10 ltac:(lia)).
  pose proof (N.div_mod k 10 ltac:(lia)). pose proof (N.mod_lt k 10 ltac:(lia)).
  assert (k mod 100 / 10 < 10) by (apply N.Div0.div_lt_upper_bound; lia).
  set (q := k / 100) in *. set (r := k mod 100) in *. set (a := r / 10) in *.
  set (b := r mod 10) in *. set (t := k / 10) in *. set (c := k mod 10) in *.
  clearbody q r a b t c. repeat split; lia.
Qed.

End Digits.

(** The digits [show_N] prints: at most one per bit. *)
Lemma length_digits_rev f n : (length (digits_rev f n) <= f)%nat.
Proof.
  revert n; induction f as [|f IH]; intros n; cbn; [lia|].
  destruct (n <? 10)%N; cbn; [lia|]. specialize (IH (n / 10)%N). lia.
Qed.

Lemma size_lt n k : (n < 2 ^ k)%N -> (N.size n <= k)%N.
Proof.
  intros Hn. pose proof (N.size_le n). apply N.nlt_ge. intros Hk.
  assert (2 ^ N.succ k <= 2 ^ N.size n)%N by (apply N.pow_le_mono_r; lia).
  rewrite N.pow_succ_r' in *. lia.
Qed.

Lemma show_N_short n k : (n < 2 ^ k)%N -> (N.of_nat (length (show_N n)) <= k + 1)%N.
Proof.
  intros Hn. unfold show_N. rewrite length_rev. pose proof (size_lt n k Hn).
  pose proof (length_digits_rev (S (N.to_nat (N.size n))) n). lia.
Qed.

(** [float] reads what [fixed2] writes: the rounded digits, over 100, for
    any [k] of at most 1100 bits. *)
Lemma fixed2_parse neg k :
  (k < 2 ^ 1100)%N -> parse_float (string_of_list_ascii (fixed2 neg k)) = Some (PDec neg k (-2)).
Proof.
  intros Hk. destruct (show_N_spec (k / 100)) as (F & V & Ne). destruct (centi_digits k) as (E & L1 & L2).
  destruct (digit_char_spec _ L1) as [D1 V1]. destruct (digit_char_spec _ L2) as [D2 V2].
  assert (Hs : (N.of_nat (length (show_N (k / 100))) <= 1101)%N).
  { apply (show_N_short _ 1100). apply (N.le_lt_trans _ k); [apply N.Div0.div_le_upper_bound; lia | exact Hk]. }
  unfold fixed2. rewrite parse_float_signed_decimal.
  - replace (show_N (k / 100) ++ [digit_char (k mod 100 / 10); digit_char (k mod 10)])
      with ((show_N (k / 100) ++ [digit_char (k mod 100 / 10)]) ++ [digit_char (k mod 10)])
      by now rewrite <- app_assoc.
    now rewrite !digits_value_snoc, V, V1, V2, E.
  - exact F.
  - cbn. now rewrite D1, D2.
  - intros Hn. apply app_eq_nil in Hn as [_ Hn]. discriminate.
  - rewrite length_app. cbn [length]. unfold max_digits. lia.
Qed.

(** A finite double has a mantissa of at most 53 bits and an exponent of
    at most [emax - prec = 971]. *)
Lemma digits2_pos_bound m : (Zpos m < 2 ^ Zpos (digits2_pos m))%Z.
Proof.
  induction m as [m IH|m IH|]; cbn [digits2_pos]; rewrite ?Pos2Z.inj_succ, ?Z.pow_succ_r by lia; lia.
Qed.

Lemma finite_bounds x neg m e :
  Prim2SF x = S754_finite neg m e -> (Zpos m < 2 ^ 53)%Z /\ (e <= 971)%Z.
Proof.
  intros E. pose proof (Prim2SF_valid x) as V. rewrite E in V.
  cbn [SpecFloat.valid_binary] in V. unfold bounded, canonical_mantissa, fexp, emin in V.
  apply andb_true_iff in V as [C B]. apply Z.eqb_eq in C. apply Z.leb_le in B.
  unfold prec, emax in C, B. pose proof (digits2_pos_bound m). split; [|exact B].
  pose proof (Z.le_max_l (Zpos (digits2_pos m) + e - 53) (3 - 1024 - 53)) as Mx.
  change Z.max with IntDef.Z.max in Mx. rewrite C in Mx.
  assert (Zpos (digits2_pos m) <= 53)%Z by lia.
  apply (Z.lt_le_trans _ _ _ H). apply Z.pow_le_mono_r; lia.
Qed.

(** So the rounded digits of a finite double fit in 1100 bits. *)
Lemma centi_lt m e : (Zpos m < 2 ^ 53)%Z -> (e <= 971)%Z -> (centi m e < 2 ^ 1100)%N.
Proof.
  intros Hm He. assert (Hm' : (Npos m < 9007199254740992)%N) by lia.
  unfold centi. destruct (Z.leb_spec 0 e) as [He0|He0].
  - assert (Hp : (2 ^ Z.to_N e <= 2 ^ 971)%N) by (apply N.pow_le_mono_r; lia).
    apply (N.lt_le_trans _ (2 ^ 60 * 2 ^ 971)).
    + apply (N.lt_le_trans _ (2 ^ 60 * 2 ^ Z.to_N e)).
      * apply N.mul_lt_mono_pos_r; [apply N.neq_0_lt_0, N.pow_nonzero; lia | cbn; lia].
      * apply N.mul_le_mono_l. exact Hp.
    + rewrite <- N.pow_add_r. apply N.pow_le_mono_r; lia.
  - unfold div_half_even. set (d := (2 ^ Z.to_N (- e))%N).
    assert (Hd : d <> 0%N) by (apply N.pow_nonzero; lia).
    assert (Hq : (Npos m * 100 / d <= Npos m * 100)%N).
    { apply N.Div0.div_le_upper_bound. pose proof (N.neq_0_lt_0 d). nia. }
    assert (Npos m * 100 / d + 1 < 2 ^ 1100)%N by (cbn; lia).
    destruct (_ ?= _)%N; [destruct (N.even _)|..]; lia.
Qed.

(** ** Rounding *)

(** [div_half_even n d] is within half of [d] of [n / d]: [2 |q d - n| <= d]. *)
Lemma div_half_even_spec n d :
  d <> 0%N -> (2 * Z.abs (Z.of_N (div_half_even n d) * Z.of_N d - Z.of_N n) <= Z.of_N d)%Z.
Proof.
  intros Hd. unfold div_half_even.
  pose proof (N.div_mod n d Hd). pose proof (N.mod_lt n d Hd).
  set (q := (n / d)%N) in *. set (r := (n mod d)%N) in *. clearbody q r.
  destruct (N.compare_spec (2 * r) d); [destruct (N.even q)|..]; lia.
Qed.

Lemma powerRZ_2_pos p : powerRZ 2 (Zpos p) = IZR (2 ^ Zpos p).
Proof. cbn [powerRZ]. rewrite pow_IZR. now rewrite positive_nat_Z. Qed.

(** The rounded digits are within [0.005] of [m * 2^e]. *)
Lemma centi_close m e :
  (Rabs (IZR (Z.of_N (centi m e)) / 100 - IZR (Zpos m) * powerRZ 2 e) <= / 200)%R.
Proof.
  unfold centi. destruct e as [|p|p]; cbn [Z.leb Z.to_N Z.opp Z.compare].
  - rewrite N.pow_0_r, N.mul_1_r, N2Z.inj_mul, mult_IZR. cbn [powerRZ].
    replace (IZR (Z.of_N (N.pos m)) * IZR (Z.of_N 100) / 100 - IZR (Z.pos m) * 1)%R with 0%R
      by (cbn; field). rewrite Rabs_R0. lra.
  - rewrite !N2Z.inj_mul, !mult_IZR, powerRZ_2_pos, N2Z.inj_pow. cbn [Z.of_N].
    replace (IZR (Z.pos m) * IZR 100 * IZR (2 ^ Z.pos p) / 100 - IZR (Z.pos m) * IZR (2 ^ Z.pos p))%R
      with 0%R by field. rewrite Rabs_R0. lra.
  - pose proof (div_half_even_spec (N.pos m * 100) (2 ^ N.pos p) ltac:(apply N.pow_nonzero; lia)) as S.
    rewrite N2Z.inj_pow, N2Z.inj_mul in S. cbn [Z.of_N] in S.
    set (k := Z.of_N (div_half_even _ _)) in *. cbn [powerRZ]. rewrite pow_IZR, positive_nat_Z.
    assert (HD : (0 < 2 ^ Z.pos p)%Z) by (apply Z.pow_pos_nonneg; lia).
    set (D := (2 ^ Z.pos p)%Z) in *. clearbody k D.
    apply IZR_le in S. rewrite mult_IZR, abs_IZR, minus_IZR, !mult_IZR in S.
    apply IZR_lt in HD.
    replace (IZR k / 100 - IZR (Z.pos m) * / IZR D)%R
      with ((IZR k * IZR D - IZR (Z.pos m) * 100) * / (100 * IZR D))%R by (field; lra).
    rewrite Rabs_mult, Rabs_inv, (Rabs_right (100 * IZR D)) by lra.
    apply (Rmult_le_reg_r (100 * IZR D)); [lra|]. rewrite Rmult_assoc, Rinv_l by lra.
    lra.
Qed.

(** ** The round trip *)

(** C34 (roundtrip): [float] reads back the number a [:.2f] field shows:
    the double itself when it is a zero (with its sign), an infinity or
    NaN, and a decimal within [0.005] of it when it is finite and nonzero. *)
Theorem format_2f_roundtrip (x : float) :
  exists v, parse_float (format_2f x) = Some v /\
  match Prim2SF x with
  | S754_finite _ _ _ => exists r, pylit_R v = Some r /\ (Rabs (r - value_R x) <= / 200)%R
  | _ => pylit_b64 v = x
  end.
Proof.
  unfold value_R, format_2f. destruct (Prim2SF x) as [neg|neg| |neg m e] eqn:E.
  - exists (PDec neg 0 (-2)). split; [apply fixed2_parse; cbn; lia|].
    apply Prim2SF_inj. rewrite E. destruct neg; vm_compute; reflexivity.
  - exists (PInf neg). split; [destruct neg; vm_compute; reflexivity|].
    apply Prim2SF_inj. rewrite E. destruct neg; vm_compute; reflexivity.
  - exists PNan. split; [vm_compute; reflexivity|]. apply Prim2SF_inj. rewrite E. vm_compute; reflexivity.
  - destruct (finite_bounds x neg m e E) as [Hm He].
    exists (PDec neg (centi m e) (-2)). split; [apply fixed2_parse, centi_lt; assumption|].
    eexists; split; [reflexivity|]. pose proof (centi_close m e) as C.
    assert (P : powerRZ 10 (-2) = (/ 100)%R)
      by (cbn; change (10 ^ Pos.to_nat 2)%R with (10 ^ 2)%R; field). rewrite P.
    destruct neg; [rewrite <- Rabs_Ropp|]; match goal with |- (Rabs ?a <= _)%R =>
      replace a with (IZR (Z.of_N (centi m e)) / 100 - IZR (Z.pos m) * powerRZ 2 e)%R by field end;
      exact C.
Qed.

(** ** The default jump's summary *)

(** The first press on the start-up window (binary64, Taylor libm, a
    render of 20 ms) writes the whole summary before the loop has run a
    single frame tick: the button is disabled, the animation stands at
    frame 0 of 300 with both timers still pending, and the label already reads
    [⛷️ Distancia: 153.81 m] / [🏆 Mejor ángulo: 22.44° (alcanzaría 153.81 m)]. *)
Lemma default_label :
  texto (etiqueta primer_salto)
  = ("⛷️ Distancia: 153.81 m" ++ newline ++ "🏆 Mejor ángulo: 22.44° (alcanzaría 153.81 m)")%string /\
  boton primer_salto = DISABLED /\
  option_map (fun an => (an_next an, an_frames an)) (nth_error (anims primer_salto) 0) = Some (0, 300) /\
  timers primer_salto = [mk_timer 3000 CbEnd; mk_timer 21 (CbFrame 0)].
Proof. repeat split; vm_compute; reflexivity. Qed.
